(** * HDF5 object headers and plugin control

    The development follows three source files of the library:

    - [src/H5Opkg.h]: the layout macros of the object-header package
      ([H5O_ALIGN_OLD], [H5O_SIZEOF_HDR], [H5O_SIZEOF_MSGHDR_VERS], ...),
      the in-memory structures [H5O_mesg_t], [H5O_chunk_t], [H5O_t],
      [H5O_msg_class_t], and the macro [H5O_LOAD_NATIVE];
    - [src/H5PL.c]: the public plugin API ([H5PLset_loading_state],
      [H5PLreplace], [H5PLremove], [H5PLget], ...);
    - [H5FDros3.c]: the read-only S3 file driver ([H5FD_ros3_open],
      [H5FD_ros3_cmp], [H5FD_ros3_read], [H5Pset_fapl_ros3], ...).

    The engine that decodes a header and allocates, releases and compacts
    its messages and chunks is in other files of the library; it is
    modelled from the design document on top of the structures and macros
    of [H5Opkg.h] (second half of the definitions).

    Integers of the C program are integers of [Z]; where an operation is
    carried out in an unsigned C type its reduction modulo [2 ^ bits] is
    written out.  Pointers into a chunk image are offsets into that image.
    Constants, macros and functions that these files use but that are
    declared outside of them are gathered in interfaces (type classes), so
    that every statement holds for all their values. *)

From Stdlib Require Import ZArith Lia Bool Ascii String Strings.Byte.
From stdpp Require Import base list strings.

Local Open Scope Z_scope.

(** ** C integer types *)

Module Cint.

(** The result of an arithmetic operation is brought back into the type
    it is computed in.  [exact] is used for [int] expressions whose
    operands are small constants (no overflow can occur); [unsigned bits]
    is the arithmetic of an unsigned type of [bits] bits such as
    [size_t], which wraps around. *)
Definition exact (z : Z) : Z := z.
Definition unsigned (bits : Z) (z : Z) : Z := z mod 2 ^ bits.

(** The largest value of an unsigned type. *)
Definition umax (bits : Z) : Z := 2 ^ bits - 1.

(** A C condition: any non-zero value is true. *)
Definition truth (z : Z) : bool := negb (z =? 0).

(** [strcmp]: zero on equal strings, otherwise the sign of the
    comparison. *)
Definition strcmp (a b : string) : Z :=
  if String.eqb a b then 0
  else match String.compare a b with
       | Lt => -1
       | _ => 1
       end.

End Cint.

Global Instance byte_eq_dec : EqDecision Byte.byte := Byte.byte_eq_dec.

(** ** Interfaces to declarations outside the two files *)

(** [herr_t] return values ([H5public.h], [H5private.h]).  The headers of
    the functions of [H5PL.c] document them as "Success: Non-negative,
    Failure: Negative". *)
Class H5private := {
  SUCCEED : Z;
  FAIL : Z;
  SUCCEED_nonneg : 0 <= SUCCEED;
  FAIL_neg : FAIL < 0
}.

(** Status flags of an object header and message flags ([H5Opublic.h]),
    the file intent flag ([H5Fpublic.h]) and the sharing type
    ([H5Oprivate.h]): bit masks whose values the package does not fix. *)
Class H5Opublic := {
  H5O_HDR_ATTR_CRT_ORDER_TRACKED : Z;
  H5O_HDR_ATTR_STORE_PHASE_CHANGE : Z;
  H5O_HDR_STORE_TIMES : Z;
  H5O_MSG_FLAG_SHAREABLE : Z;
  H5O_SHARE_TYPE_HERE : Z;
  H5F_ACC_RDWR : Z
}.

(** Modelled from the spec: [H5_SIZEOF_MAGIC] is declared in [H5private.h],
    which is not among the sources; the interface description gives the
    version-2 prefix a "4-byte magic". *)
Definition H5_SIZEOF_MAGIC : Z := 4.

(** ** Object header macros ([H5Opkg.h]) *)

Definition H5O_NMESGS : Z := 8.
Definition H5O_NCHUNKS : Z := 2.
Definition H5O_MIN_SIZE : Z := 22.
Definition H5O_MSG_TYPES : Z := 26.
Definition H5O_MAX_CRT_ORDER_IDX : Z := 65535.

Definition H5O_VERSION_1 : Z := 1.
Definition H5O_VERSION_2 : Z := 2.
Definition H5O_VERSION_LATEST : Z := H5O_VERSION_2.

Definition H5O_FD_PAR_LIST_BASE : Z := 1.

(** [#define H5O_ALIGN_OLD(X) (8 * (((X) + 7) / 8))], evaluated in the
    integer type [ty] of its operand; [/] is C's truncating division. *)
Definition H5O_ALIGN_OLD (ty : Z -> Z) (X : Z) : Z :=
  ty (8 * ty (ty (X + 7) ÷ 8)).

Definition H5O_ALIGN_VERS (ty : Z -> Z) (V X : Z) : Z :=
  if V =? H5O_VERSION_1 then H5O_ALIGN_OLD ty X else X.

(** The alignment of the size [X], computed in the integer type [ty], is
    as expected: in version 1 it is the least multiple of 8 that is at
    least [X] (a multiple of 8, at least [X], below [X + 8]) and aligning
    it again changes nothing; in version 2 it is [X] itself. *)
Definition aligns_to_8 (ty : Z -> Z) (X : Z) : Prop :=
  let A := H5O_ALIGN_VERS ty H5O_VERSION_1 X in
  (8 | A) /\ X <= A /\ A < X + 8 /\
  (forall m, (8 | m) -> X <= m -> A <= m) /\
  H5O_ALIGN_VERS ty H5O_VERSION_1 A = A /\
  H5O_ALIGN_VERS ty H5O_VERSION_2 X = X.

Definition H5O_SIZEOF_CHKSUM : Z := 4.

Definition H5O_CRT_ATTR_MAX_COMPACT_DEF : Z := 8.
Definition H5O_CRT_ATTR_MIN_DENSE_DEF : Z := 6.

Definition H5O_HDR_CHUNK0_1 : Z := 0x00.
Definition H5O_HDR_CHUNK0_2 : Z := 0x01.
Definition H5O_HDR_CHUNK0_4 : Z := 0x02.
Definition H5O_HDR_CHUNK0_8 : Z := 0x03.

(** Modelled from the spec: [H5O_HDR_CHUNK0_SIZE] is declared in
    [H5Opublic.h], which is not among the sources; it masks the "2-bit
    chunk-0-size-width selector" whose four values are [H5O_HDR_CHUNK0_1]
    to [H5O_HDR_CHUNK0_8] above. *)
Definition H5O_HDR_CHUNK0_SIZE : Z := 0x03.

Definition H5O_SIZEOF_MSGHDR_VERS (V : Z) (C : Z) : Z :=
  if V =? H5O_VERSION_1 then
    H5O_ALIGN_OLD Cint.exact (2 + 2 + 1 + 3)
  else
    1 + 2 + 1 + (if Cint.truth C then 2 else 0).

Definition H5O_SIZEOF_CHKHDR_VERS (V : Z) : Z :=
  if V =? H5O_VERSION_1 then 0 + 0 else H5_SIZEOF_MAGIC + H5O_SIZEOF_CHKSUM.

Definition H5O_SIZEOF_CHKSUM_VERS (V : Z) : Z :=
  if V =? H5O_VERSION_1 then 0 else H5O_SIZEOF_CHKSUM.

Definition H5O_DECODEIO_NOCHANGE : Z := 0x01.
Definition H5O_DECODEIO_DIRTY : Z := 0x02.

Definition H5O_SHARE_IS_SHARABLE : Z := 0x01.
Definition H5O_SHARE_IN_OHDR : Z := 0x02.

(** A flag of [mask] is set in [flags]. *)
Definition flag_set (flags mask : Z) : bool := Cint.truth (Z.land flags mask).

(** ** Structures ([H5Opkg.h]) *)

(** [typedef struct H5O_chunk_t].  The image is the sequence of its
    bytes. *)
Record H5O_chunk_t := mk_chunk {
  chunk_addr : Z;                 (* chunk file address *)
  chunk_size : Z;                 (* chunk size *)
  chunk_gap : Z;                  (* space at end of chunk too small for null message *)
  chunk_image : list Byte.byte    (* image of file *)
}.

(** [struct H5O_mesg_t].  [Native] is the type of decoded messages (the
    target of [void *native]), [class_ptr] the type of pointers to message
    classes.  [mesg_raw] is the offset of the raw data in the image of
    chunk [mesg_chunkno]. *)
Record H5O_mesg_t (Native class_ptr : Type) := mk_mesg {
  mesg_type : class_ptr;          (* type of message *)
  mesg_dirty : bool;              (* raw out of date wrt native *)
  mesg_locked : bool;             (* message is locked into chunk *)
  mesg_flags : Z;                 (* message flags *)
  mesg_crt_idx : Z;               (* message creation index *)
  mesg_chunkno : nat;             (* chunk number for this mesg *)
  mesg_native : option Native;    (* native format message, None for NULL *)
  mesg_raw : Z;                   (* ptr to raw data *)
  mesg_raw_size : Z               (* size with alignment *)
}.
Global Arguments mk_mesg {_ _}.
Global Arguments mesg_type {_ _}.
Global Arguments mesg_dirty {_ _}.
Global Arguments mesg_locked {_ _}.
Global Arguments mesg_flags {_ _}.
Global Arguments mesg_crt_idx {_ _}.
Global Arguments mesg_chunkno {_ _}.
Global Arguments mesg_native {_ _}.
Global Arguments mesg_raw {_ _}.
Global Arguments mesg_raw_size {_ _}.

(** [struct H5O_t].  The message and chunk arrays are lists, [nmesgs] and
    [nchunks] their lengths.  The cache, time, attribute-threshold and
    proxy fields, which nothing below reads, are left out. *)
Record H5O_t (Native class_ptr : Type) := mk_oh {
  oh_sizeof_size : Z;             (* size of file sizes *)
  oh_sizeof_addr : Z;             (* size of file addresses *)
  oh_ndecode_dirtied : Z;         (* number of messages dirtied by decoding (ifndef NDEBUG) *)
  oh_nlink : Z;                   (* link count *)
  oh_version : Z;                 (* version number *)
  oh_flags : Z;                   (* flags *)
  oh_mesg : list (H5O_mesg_t Native class_ptr);   (* array of messages *)
  oh_chunk : list H5O_chunk_t                     (* array of chunks *)
}.
Global Arguments mk_oh {_ _}.
Global Arguments oh_sizeof_size {_ _}.
Global Arguments oh_sizeof_addr {_ _}.
Global Arguments oh_ndecode_dirtied {_ _}.
Global Arguments oh_nlink {_ _}.
Global Arguments oh_version {_ _}.
Global Arguments oh_flags {_ _}.
Global Arguments oh_mesg {_ _}.
Global Arguments oh_chunk {_ _}.

(** [struct H5O_msg_class_t], the callbacks as functions of their
    arguments: a callback that writes through a pointer argument returns
    the value written ([decode] its [ioflags], [set_crt_index] the native
    message).  A null function pointer is [None].  The copy, delete, link,
    share and debug callbacks, which nothing below calls, are left out. *)
Record H5O_msg_class_t (H5F_t Native class_ptr : Type) := mk_class {
  class_id : Z;                   (* message type ID on disk *)
  class_name : string;            (* for debugging *)
  class_native_size : Z;          (* size of native message *)
  class_share_flags : Z;          (* message sharing settings *)
  class_decode :
    option (H5F_t -> Z -> H5O_t Native class_ptr -> Z -> Z -> list Byte.byte ->
            option Native * Z);
  class_encode : option (H5F_t -> bool -> Native -> list Byte.byte);
  class_raw_size : option (H5F_t -> bool -> Native -> Z);
  class_get_crt_index : option (Native -> Z * Z);
  class_set_crt_index : option (Native -> Z -> Z * Native)
}.
Global Arguments mk_class {_ _ _}.
Global Arguments class_id {_ _ _}.
Global Arguments class_name {_ _ _}.
Global Arguments class_native_size {_ _ _}.
Global Arguments class_share_flags {_ _ _}.
Global Arguments class_decode {_ _ _}.
Global Arguments class_encode {_ _ _}.
Global Arguments class_raw_size {_ _ _}.
Global Arguments class_get_crt_index {_ _ _}.
Global Arguments class_set_crt_index {_ _ _}.

(** What the object-header package takes from the rest of the library:
    the memory holding the message classes ([class_at] dereferences a
    class pointer), [H5F_get_intent] ([H5Fprivate.h]), the macro
    [H5O_UPDATE_SHARED] ([H5Oprivate.h]), which fills in the sharing
    information at the head of a native message, and the build option
    [NDEBUG]. *)
Class H5Oenv (H5F_t Native class_ptr : Type) := {
  class_at : class_ptr -> H5O_msg_class_t H5F_t Native class_ptr;
  H5F_get_intent : H5F_t -> Z;
  H5O_UPDATE_SHARED : Native -> Z -> H5F_t -> Z -> Z -> Z -> Native;
  NDEBUG : bool
}.

Section H5Opkg.

Context `{H5Opublic} {H5F_t Native class_ptr : Type}.
Context `{!H5Oenv H5F_t Native class_ptr}.

Local Abbreviation H5O_t := (H5O_t Native class_ptr).
Local Abbreviation H5O_mesg_t := (H5O_mesg_t Native class_ptr).

Definition H5O_ALIGN_OH (ty : Z -> Z) (O : H5O_t) (X : Z) : Z :=
  H5O_ALIGN_VERS ty (oh_version O) X.

(** Size of object header prefix. *)
Definition H5O_SIZEOF_HDR (O : H5O_t) : Z :=
  if oh_version O =? H5O_VERSION_1 then
    H5O_ALIGN_OLD Cint.exact
      (1 +      (* version number *)
       1 +      (* reserved *)
       2 +      (* number of messages *)
       4 +      (* reference count *)
       4)       (* chunk data size *)
  else
    H5_SIZEOF_MAGIC +     (* magic number *)
    1 +                   (* version number *)
    1 +                   (* flags *)
    (if Cint.truth (Z.land (oh_flags O) H5O_HDR_STORE_TIMES) then
       4 +      (* access time *)
       4 +      (* modification time *)
       4 +      (* change time *)
       4        (* birth time *)
     else 0) +
    (if Cint.truth (Z.land (oh_flags O) H5O_HDR_ATTR_STORE_PHASE_CHANGE) then
       2 +      (* max compact attributes *)
       2        (* min dense attributes *)
     else 0) +
    Z.shiftl 1 (Z.land (oh_flags O) H5O_HDR_CHUNK0_SIZE) +  (* chunk 0 data size *)
    H5O_SIZEOF_CHKSUM.    (* checksum size *)

Definition H5O_SIZEOF_MSGHDR_OH (O : H5O_t) : Z :=
  H5O_SIZEOF_MSGHDR_VERS (oh_version O)
    (Z.land (oh_flags O) H5O_HDR_ATTR_CRT_ORDER_TRACKED).

Definition H5O_SIZEOF_CHKHDR_OH (O : H5O_t) : Z :=
  H5O_SIZEOF_CHKHDR_VERS (oh_version O).

Definition H5O_SIZEOF_CHKSUM_OH (O : H5O_t) : Z :=
  H5O_SIZEOF_CHKSUM_VERS (oh_version O).

(** [INCR_NDECODE_DIRTIED]: counts only when the library is built for
    debugging.  The counter is a [size_t]; the increment is written
    without the wrap-around of that type at its largest value, and the
    statements below say when the counter changes, not which value it
    reaches. *)
Definition INCR_NDECODE_DIRTIED (OH : H5O_t) : H5O_t :=
  if NDEBUG then OH
  else mk_oh (oh_sizeof_size OH) (oh_sizeof_addr OH)
             (oh_ndecode_dirtied OH + 1) (oh_nlink OH) (oh_version OH)
             (oh_flags OH) (oh_mesg OH) (oh_chunk OH).

(** The three ways control leaves the text of a macro: it falls through
    to the statement after it, it jumps to the label [done] with the
    return value set ([HGOTO_ERROR]), or an [HDassert] stops the
    program. *)
Inductive flow (E S : Type) :=
| Fallthrough (s : S)
| GotoError (err : E) (s : S)
| AssertFailed.

(** The bytes [(MSG)->raw] points to. *)
Definition raw_bytes (OH : H5O_t) (MSG : H5O_mesg_t) : list Byte.byte :=
  match oh_chunk OH !! mesg_chunkno MSG with
  | Some c => drop (Z.to_nat (mesg_raw MSG)) (chunk_image c)
  | None => []
  end.

Definition set_native (MSG : H5O_mesg_t) (n : option Native) : H5O_mesg_t :=
  mk_mesg (mesg_type MSG) (mesg_dirty MSG) (mesg_locked MSG) (mesg_flags MSG)
          (mesg_crt_idx MSG) (mesg_chunkno MSG) n (mesg_raw MSG)
          (mesg_raw_size MSG).

Definition set_dirty (MSG : H5O_mesg_t) (d : bool) : H5O_mesg_t :=
  mk_mesg (mesg_type MSG) d (mesg_locked MSG) (mesg_flags MSG)
          (mesg_crt_idx MSG) (mesg_chunkno MSG) (mesg_native MSG)
          (mesg_raw MSG) (mesg_raw_size MSG).

(** [OH->chunk[0].addr] *)
Definition chunk0_addr (OH : H5O_t) : Z :=
  match oh_chunk OH !! 0%nat with
  | Some c => chunk_addr c
  | None => 0
  end.

(** [H5O_LOAD_NATIVE(F, DXPL, IOF, OH, MSG, ERR)]: load native
    information for a message, if it's not already present.  The macro
    updates the message [MSG] and the header [OH] in place; both are
    returned.  Where [MSG] points to a slot of the table [OH->mesg], the
    returned message is the content of that slot after the macro, while
    the table of the returned header still holds the slot as it was
    before.  A class without decode callback fails the first
    [HDassert] (without assertions, the call through the null pointer
    stops the program as well); the second [HDassert] is compiled only
    without [NDEBUG]. *)
Definition H5O_LOAD_NATIVE {E : Type} (F : H5F_t) (DXPL : Z) (IOF : Z)
    (OH : H5O_t) (MSG : H5O_mesg_t) (ERR : E)
  : flow E (H5O_t * H5O_mesg_t) :=
  match mesg_native MSG with
  | Some _ => Fallthrough _ _ (OH, MSG)
  | None =>
    let msg_type := class_at (mesg_type MSG) in
    let ioflags := IOF in
    (* Decode the message *)
    match class_decode msg_type with
    | None => AssertFailed _ _
    | Some decode =>
      let '(native, ioflags) :=
        decode F DXPL OH (mesg_flags MSG) ioflags (raw_bytes OH MSG) in
      let MSG := set_native MSG native in
      match native with
      | None => GotoError _ _ ERR (OH, MSG)
      | Some native =>
        (* Mark the message dirty if it was changed by decoding *)
        let '(OH, MSG) :=
          if Cint.truth (Z.land ioflags H5O_DECODEIO_DIRTY)
             && Cint.truth (Z.land (H5F_get_intent F) H5F_ACC_RDWR)
          then (INCR_NDECODE_DIRTIED OH, set_dirty MSG true)
          else (OH, MSG) in
        (* Set the message's "shared info", if it's shareable *)
        let shared :=
          if Cint.truth (Z.land (mesg_flags MSG) H5O_MSG_FLAG_SHAREABLE)
          then
            if negb NDEBUG
               && negb (Cint.truth (Z.land (class_share_flags msg_type)
                                           H5O_SHARE_IS_SHARABLE))
            then None
            else Some (H5O_UPDATE_SHARED native H5O_SHARE_TYPE_HERE F
                         (class_id msg_type) (mesg_crt_idx MSG)
                         (chunk0_addr OH))
          else Some native in
        match shared with
        | None => AssertFailed _ _
        | Some native =>
          let MSG := set_native MSG (Some native) in
          (* Set the message's "creation index", if it has one *)
          match class_set_crt_index msg_type with
          | None => Fallthrough _ _ (OH, MSG)
          | Some set_crt_index =>
            let '(ret, native) := set_crt_index native (mesg_crt_idx MSG) in
            let MSG := set_native MSG (Some native) in
            if ret <? 0 then GotoError _ _ ERR (OH, MSG)
            else Fallthrough _ _ (OH, MSG)
          end
        end
      end
    end
  end.

(** The assertion on the class of a shareable message, which stops a
    debugging build. *)
Definition share_assert_fails (MSG : H5O_mesg_t) : Prop :=
  NDEBUG = false /\
  Z.land (mesg_flags MSG) H5O_MSG_FLAG_SHAREABLE <> 0 /\
  Z.land (class_share_flags (class_at (mesg_type MSG))) H5O_SHARE_IS_SHARABLE
  = 0.

End H5Opkg.

Global Arguments Fallthrough {_ _}.
Global Arguments GotoError {_ _}.
Global Arguments AssertFailed {_ _}.

(** The state control carries out of a macro, if the program goes on. *)
Definition flow_state {E S : Type} (r : flow E S) : option S :=
  match r with
  | Fallthrough s => Some s
  | GotoError _ s => Some s
  | AssertFailed => None
  end.

(** ** Plugin API ([H5PL.c])

    Each function is modelled between [FUNC_ENTER_API] and
    [FUNC_LEAVE_API], in a library that is initialised: it takes the
    state at entry and returns its return value and the state at exit.
    [HGOTO_ERROR (.., ret, ..)] returns [ret]. *)

(** The path table lives in [H5PLpath.c]; [H5PL.c] reaches it through the
    package functions below.  [T] is the type of the table; a function
    that updates the table returns its return value and the new table. *)
Class H5PLpath (T : Type) := {
  H5PL__get_num_paths : T -> Z;
  H5PL__append_path : string -> T -> Z * T;
  H5PL__prepend_path : string -> T -> Z * T;
  H5PL__replace_path : string -> Z -> T -> Z * T;
  H5PL__insert_path : string -> Z -> T -> Z * T;
  H5PL__remove_path : Z -> T -> Z * T;
  H5PL__get_path : Z -> T -> option string
}.

(** The state the API functions work on: the global [H5PL_plugin_g], the
    path table, and the environment of the process read by [HDgetenv]. *)
Record H5PL_state (T : Type) := mk_H5PL {
  H5PL_plugin_g : Z;
  H5PL_paths : T;
  HDgetenv : string -> option string
}.
Global Arguments mk_H5PL {_}.
Global Arguments H5PL_plugin_g {_}.
Global Arguments H5PL_paths {_}.
Global Arguments HDgetenv {_}.

(** The "special [::] string" of the header comment of
    [H5PLset_loading_state] ([H5PL_NO_PLUGIN], [H5PLpublic.h]). *)
Definition H5PL_NO_PLUGIN : string := "::".

(** [HDstrncpy(dst, src, n)] on a buffer [dst] of at least [n] bytes:
    the first [n] bytes become the characters of [src], then zero bytes. *)
Definition HDstrncpy (dst : list ascii) (src : string) (n : nat) : list ascii :=
  take n (list_ascii_of_string src ++ replicate n Ascii.zero) ++ drop n dst.

Section H5PL.

Context `{H5private} {T : Type} `{!H5PLpath T}.

Local Abbreviation state := (H5PL_state T).

Definition set_plugin_g (s : state) (v : Z) : state :=
  mk_H5PL v (H5PL_paths s) (HDgetenv s).

Definition set_paths (s : state) (t : T) : state :=
  mk_H5PL (H5PL_plugin_g s) t (HDgetenv s).

(** [herr_t H5PLset_loading_state(unsigned int plugin_type)] *)
Definition H5PLset_loading_state (plugin_type : Z) (s : state) : Z * state :=
  let ret_value := SUCCEED in
  (* change the bit value of the requested plugin type(s) *)
  let s := set_plugin_g s plugin_type in
  (* check if special ENV variable is set and disable all plugin types *)
  let s :=
    match HDgetenv s "HDF5_PLUGIN_PRELOAD" with
    | Some preload_path =>
      if Cint.strcmp preload_path H5PL_NO_PLUGIN =? 0
      then set_plugin_g s 0
      else s
    | None => s
    end in
  (ret_value, s).

(** [herr_t H5PLget_loading_state(unsigned int *plugin_type)]; the
    argument tells whether the pointer is non-null, the second result is
    the value stored through it. *)
Definition H5PLget_loading_state (plugin_type : bool) (s : state)
  : Z * option Z * state :=
  let ret_value := SUCCEED in
  (ret_value, if plugin_type then Some (H5PL_plugin_g s) else None, s).

(** [herr_t H5PLappend(const char *search_path)] *)
Definition H5PLappend (search_path : option string) (s : state) : Z * state :=
  match search_path with
  | None => (FAIL, s)
  | Some search_path =>
    if (String.length search_path =? 0)%nat then (FAIL, s)
    else
      let '(r, t) := H5PL__append_path search_path (H5PL_paths s) in
      if r <? 0 then (FAIL, set_paths s t) else (SUCCEED, set_paths s t)
  end.

(** [herr_t H5PLprepend(const char *search_path)] *)
Definition H5PLprepend (search_path : option string) (s : state) : Z * state :=
  match search_path with
  | None => (FAIL, s)
  | Some search_path =>
    if (String.length search_path =? 0)%nat then (FAIL, s)
    else
      let '(r, t) := H5PL__prepend_path search_path (H5PL_paths s) in
      if r <? 0 then (FAIL, set_paths s t) else (SUCCEED, set_paths s t)
  end.

(** [herr_t H5PLreplace(const char *search_path, unsigned int index)] *)
Definition H5PLreplace (search_path : option string) (index : Z) (s : state)
  : Z * state :=
  (* Check args *)
  match search_path with
  | None => (FAIL, s)
  | Some search_path =>
    if (String.length search_path =? 0)%nat then (FAIL, s)
    else
      (* Check index *)
      let num_paths := H5PL__get_num_paths (H5PL_paths s) in
      if 0 =? num_paths then (FAIL, s)
      else if index >=? num_paths then (FAIL, s)
      else
        (* Insert the search path into the path table *)
        let '(r, t) := H5PL__replace_path search_path index (H5PL_paths s) in
        if r <? 0 then (FAIL, set_paths s t) else (SUCCEED, set_paths s t)
  end.

(** [herr_t H5PLinsert(const char *search_path, unsigned int index)] *)
Definition H5PLinsert (search_path : option string) (index : Z) (s : state)
  : Z * state :=
  match search_path with
  | None => (FAIL, s)
  | Some search_path =>
    if (String.length search_path =? 0)%nat then (FAIL, s)
    else
      let num_paths := H5PL__get_num_paths (H5PL_paths s) in
      if negb (0 =? num_paths) && (index >=? num_paths) then (FAIL, s)
      else
        let '(r, t) := H5PL__insert_path search_path index (H5PL_paths s) in
        if r <? 0 then (FAIL, set_paths s t) else (SUCCEED, set_paths s t)
  end.

(** [herr_t H5PLremove(unsigned int index)] *)
Definition H5PLremove (index : Z) (s : state) : Z * state :=
  (* Check index *)
  let num_paths := H5PL__get_num_paths (H5PL_paths s) in
  if 0 =? num_paths then (FAIL, s)
  else if index >=? num_paths then (FAIL, s)
  else
    (* Delete the search path from the path table *)
    let '(r, t) := H5PL__remove_path index (H5PL_paths s) in
    if r <? 0 then (FAIL, set_paths s t) else (SUCCEED, set_paths s t).

(** [ssize_t H5PLget(unsigned int index, char *path_name, size_t size)].
    [path_name] is the caller's buffer ([None] for a null pointer), of
    [size] bytes; the second result is the buffer after the call.  The
    whole result is [None] where the C program writes outside the
    buffer. *)
Definition H5PLget (index : Z) (path_name : option (list ascii)) (size : Z)
    (s : state) : option (Z * option (list ascii) * state) :=
  (* Check index *)
  let num_paths := H5PL__get_num_paths (H5PL_paths s) in
  if 0 =? num_paths then Some (FAIL, path_name, s)
  else if index >=? num_paths then Some (FAIL, path_name, s)
  (* Check if the search table is empty *)
  else if H5PL__get_num_paths (H5PL_paths s) =? 0 then Some (-1, path_name, s)
  else
    (* Get the path at the specified index and its length *)
    match H5PL__get_path index (H5PL_paths s) with
    | None => Some (-1, path_name, s)
    | Some path =>
      let path_len := Z.of_nat (String.length path) in
      (* If the path_name is not NULL, copy the path to the buffer *)
      match path_name with
      | None => Some (path_len, None, s)
      | Some buf =>
        if (Z.of_nat (length buf) <? Z.min (path_len + 1) size)
           || (path_len >=? size) && (size =? 0)
        then None
        else
          let buf := HDstrncpy buf path (Z.to_nat (Z.min (path_len + 1) size)) in
          let buf :=
            if path_len >=? size
            then <[Z.to_nat (size - 1) := Ascii.zero]> buf
            else buf in
          Some (path_len, Some buf, s)
      end
    end.

(** [herr_t H5PLsize(unsigned int *num_paths)] *)
Definition H5PLsize (num_paths : bool) (s : state) : Z * option Z * state :=
  if negb num_paths then (FAIL, None, s)
  else (SUCCEED, Some (H5PL__get_num_paths (H5PL_paths s)), s).

End H5PL.

(** ** The allocation and compaction engine

    The functions that allocate, release and compact the messages and
    chunks of a header ([H5Oalloc.c], [H5Omessage.c], [H5O.c]) are not
    among the sources.  They are modelled here from the design document,
    on the structures of [H5Opkg.h] and with its layout macros. *)

(** Modelled from the spec: the native form of a continuation message
    ([H5O_cont_t], [H5Oprivate.h]), whose "payload" is the "(address,
    length) of another chunk". *)
Record H5O_cont_t := mk_cont {
  cont_addr : Z;
  cont_size : Z
}.

(** Modelled from the spec: the type [H5O_msg_crt_idx_t] of creation
    indices ([H5Opublic.h]): the "creation-index is a 16-bit field".  A
    value stored in the field is reduced to 16 bits. *)
Definition H5O_msg_crt_idx_t (z : Z) : Z := Cint.unsigned 16 z.

(** Modelled from the spec: the error taxonomy of the engine (section 7). *)
Inductive H5O_error :=
| CorruptFormat
| ChecksumError
| UnsupportedMessage
| OutOfSpace
| InvalidOperation.

(** A failed operation leaves the header and the file as they were
    before the call; a successful one returns the new ones. *)
Inductive result (A : Type) :=
| Ok (a : A)
| Err (e : H5O_error).
Global Arguments Ok {_}.
Global Arguments Err {_}.

Global Instance result_ret : MRet result := fun A a => Ok a.
Global Instance result_bind : MBind result := fun A B k r =>
  match r with
  | Ok a => k a
  | Err e => Err e
  end.

(** Modelled from the spec: the collaborators of the engine (section 6).
    [FS] is the state of the free-space manager of the file:
    "allocate(size) -> address", "free(address, size)", and the attempt to
    extend a block in place.  The two message classes the engine itself
    creates are the null class and the continuation class; the codec of
    continuation messages converts between [H5O_cont_t] and [void *].
    [alloc_depth] bounds the recursion of an allocation that needs a
    continuation message ("bounded recursion"). *)
Class H5Ocollab (Native class_ptr FS : Type) := {
  H5O_MSG_NULL : class_ptr;
  H5O_MSG_CONT : class_ptr;
  cont_to_native : H5O_cont_t -> Native;
  cont_of_native : Native -> option H5O_cont_t;
  H5MF_alloc : FS -> Z -> option (Z * FS);
  H5MF_try_extend : FS -> Z -> Z -> Z -> option FS;
  H5MF_xfree : FS -> Z -> Z -> FS;
  alloc_depth : nat
}.

(** Modelled from the spec: what the decode engine takes from the rest
    of the library (sections 2, 4.1 and 6): the decoding of an unsigned
    integer field from its bytes, the magic numbers of chunk 0 and of a
    continuation chunk, the checksum of metadata, the registry "mapping a
    wire-format message-type ID" to its class, the class of the unknown
    messages with the flag that forbids them, and the bytes of a chunk
    at an address of the file. *)
Class H5Owire (class_ptr : Type) := {
  uint_decode : list Byte.byte -> Z;
  uint_decode_range :
    forall bs, 0 <= uint_decode bs < 256 ^ Z.of_nat (length bs);
  H5O_HDR_MAGIC : list Byte.byte;
  H5O_CHK_MAGIC : list Byte.byte;
  H5_checksum_metadata : list Byte.byte -> Z;
  H5O_msg_class_g : Z -> option class_ptr;
  H5O_MSG_UNKNOWN : class_ptr;
  H5O_MSG_FLAG_FAIL_IF_UNKNOWN : Z;
  H5F_block_read : Z -> Z -> option (list Byte.byte)
}.

(** The [len] bytes of [bs] from position [pos]. *)
Definition field (bs : list Byte.byte) (pos len : Z) : list Byte.byte :=
  take (Z.to_nat len) (drop (Z.to_nat pos) bs).

(** The first position of a list whose element satisfies [f]. *)
Fixpoint find_index {A : Type} (f : A -> bool) (l : list A) : option nat :=
  match l with
  | [] => None
  | x :: l => if f x then Some 0%nat else S <$> find_index f l
  end.

(** The image [img] without the bytes whose position satisfies [cut]. *)
Fixpoint strip_bytes (cut : Z -> bool) (pos : Z) (img : list Byte.byte)
  : list Byte.byte :=
  match img with
  | [] => []
  | b :: img =>
    if cut pos then strip_bytes cut (pos + 1) img
    else b :: strip_bytes cut (pos + 1) img
  end.

(** The image [img] with [len] bytes from position [pos] replaced by the
    first [len] bytes of [bytes], zero-filled. *)
Definition blit (img : list Byte.byte) (pos len : Z) (bytes : list Byte.byte)
  : list Byte.byte :=
  take (Z.to_nat pos) img
  ++ take (Z.to_nat len) (bytes ++ replicate (Z.to_nat len) Byte.x00)
  ++ drop (Z.to_nat (pos + len)) img.

Section Engine.

Context `{H5Opublic} {H5F_t Native class_ptr FS : Type}.
Context `{!H5Oenv H5F_t Native class_ptr} `{!H5Ocollab Native class_ptr FS}.
Context `{!H5Owire class_ptr} `{!EqDecision class_ptr}.

Local Abbreviation H5O_t := (H5O_t Native class_ptr).
Local Abbreviation H5O_mesg_t := (H5O_mesg_t Native class_ptr).

(** *** Updates of the header and of a message *)

Definition with_mesg (oh : H5O_t) (ms : list H5O_mesg_t) : H5O_t :=
  mk_oh (oh_sizeof_size oh) (oh_sizeof_addr oh) (oh_ndecode_dirtied oh)
        (oh_nlink oh) (oh_version oh) (oh_flags oh) ms (oh_chunk oh).

Definition with_chunk (oh : H5O_t) (cs : list H5O_chunk_t) : H5O_t :=
  mk_oh (oh_sizeof_size oh) (oh_sizeof_addr oh) (oh_ndecode_dirtied oh)
        (oh_nlink oh) (oh_version oh) (oh_flags oh) (oh_mesg oh) cs.

(** A new message of class [ty] over the raw bytes [raw .. raw + size) of
    chunk [c]; its bytes are still to be written. *)
Definition new_mesg (ty : class_ptr) (c : nat) (raw size : Z) : H5O_mesg_t :=
  mk_mesg ty true false 0 0 c None raw size.

Definition null_mesg (c : nat) (raw size : Z) : H5O_mesg_t :=
  new_mesg H5O_MSG_NULL c raw size.

Definition is_null (m : H5O_mesg_t) : bool :=
  bool_decide (mesg_type m = H5O_MSG_NULL).

(** The message [m] moved and resized within its chunk. *)
Definition set_span (m : H5O_mesg_t) (raw size : Z) : H5O_mesg_t :=
  mk_mesg (mesg_type m) true (mesg_locked m) (mesg_flags m) (mesg_crt_idx m)
          (mesg_chunkno m) (mesg_native m) raw size.

(** The message [m] given to class [ty], keeping its place. *)
Definition set_type (m : H5O_mesg_t) (ty : class_ptr) : H5O_mesg_t :=
  mk_mesg ty true false 0 0 (mesg_chunkno m) None (mesg_raw m)
          (mesg_raw_size m).

(** The message [m] filled with the native value [v]. *)
Definition set_value (m : H5O_mesg_t) (flags crt : Z) (v : Native) : H5O_mesg_t :=
  mk_mesg (mesg_type m) true (mesg_locked m) flags (H5O_msg_crt_idx_t crt)
          (mesg_chunkno m) (Some v) (mesg_raw m) (mesg_raw_size m).

Definition set_chunkno (m : H5O_mesg_t) (c : nat) : H5O_mesg_t :=
  mk_mesg (mesg_type m) (mesg_dirty m) (mesg_locked m) (mesg_flags m)
          (mesg_crt_idx m) c (mesg_native m) (mesg_raw m) (mesg_raw_size m).

Definition resize_chunk (ch : H5O_chunk_t) (size gap : Z) (img : list Byte.byte)
  : H5O_chunk_t :=
  mk_chunk (chunk_addr ch) size gap img.

(** *** Accounting of the bytes of a chunk *)

(** The bytes a message takes in its chunk: its header and its raw data. *)
Definition mesg_space (oh : H5O_t) (m : H5O_mesg_t) : Z :=
  mesg_raw_size m + H5O_SIZEOF_MSGHDR_OH oh.

(** The bytes taken in chunk [c] by those of the messages [ms] that
    reside in it. *)
Definition used_in (oh : H5O_t) (c : nat) (ms : list H5O_mesg_t) : Z :=
  foldr (fun m acc =>
           if bool_decide (mesg_chunkno m = c) then mesg_space oh m + acc
           else acc)
        0 ms.

Definition chunk_used (oh : H5O_t) (c : nat) : Z :=
  used_in oh c (oh_mesg oh).

(** The framing of chunk [c]: chunk 0 holds the prefix of the header
    (which, in version 2, contains the magic number and ends with the
    checksum); a continuation chunk has the chunk header of its version
    (magic number and checksum in version 2, nothing in version 1). *)
Definition chunk_overhead (oh : H5O_t) (c : nat) : Z :=
  match c with
  | O => H5O_SIZEOF_HDR oh
  | S _ => H5O_SIZEOF_CHKHDR_OH oh
  end.

(** The offset, in the image of chunk [c], of the first message header. *)
Definition chunk_first (oh : H5O_t) (c : nat) : Z :=
  chunk_overhead oh c - H5O_SIZEOF_CHKSUM_OH oh.

(** *** Creation *)

(** Modelled from the spec: the "explicit create new object header call"
    of section 3.  Chunk 0 is allocated in the file with room for the
    prefix and for at least [H5O_MIN_SIZE] bytes of messages, which start
    as one null message. *)
Definition H5O_create (fs : FS) (sizeof_size sizeof_addr version flags : Z)
    (size_hint : Z) : result (H5O_t * FS) :=
  let oh := mk_oh sizeof_size sizeof_addr 0 0 version flags [] [] in
  let data := H5O_ALIGN_OH Cint.exact oh (Z.max size_hint H5O_MIN_SIZE) in
  let total := H5O_SIZEOF_HDR oh + data in
  match H5MF_alloc fs total with
  | None => Err OutOfSpace
  | Some (addr, fs) =>
    let first := chunk_first oh 0 + H5O_SIZEOF_MSGHDR_OH oh in
    Ok (mk_oh sizeof_size sizeof_addr 0 0 version flags
          [null_mesg 0 first (data - H5O_SIZEOF_MSGHDR_OH oh)]
          [mk_chunk addr total 0 (replicate (Z.to_nat total) Byte.x00)],
        fs)
  end.

(** *** Allocation *)

(** A null message can take a message of [size] raw bytes if it has just
    that size, or room for it and for the header of the null message
    left over. *)
Definition fits (oh : H5O_t) (size : Z) (m : H5O_mesg_t) : bool :=
  is_null m &&
  ((mesg_raw_size m =? size) || (size + H5O_SIZEOF_MSGHDR_OH oh <=? mesg_raw_size m)).

(** Best fit: the position of the smallest null message that fits, the
    first one among equals.  [best] is the best candidate so far, [i] the
    position of the head of [ms]. *)
Fixpoint best_null_from (oh : H5O_t) (size : Z) (i : nat)
    (ms : list H5O_mesg_t) (best : option (nat * Z)) : option (nat * Z) :=
  match ms with
  | [] => best
  | m :: ms =>
    let best :=
      if fits oh size m then
        match best with
        | Some (_, b) => if mesg_raw_size m <? b then Some (i, mesg_raw_size m) else best
        | None => Some (i, mesg_raw_size m)
        end
      else best in
    best_null_from oh size (S i) ms best
  end.

Definition H5O_alloc_find_best_null (oh : H5O_t) (size : Z) : option nat :=
  fst <$> best_null_from oh size 0 (oh_mesg oh) None.

(** Use of the null message at position [i] for a message of class [ty]
    and [size] raw bytes: an exact fit reuses the slot; otherwise the
    null message shrinks to what is left over and the requested region,
    at its front, goes to a new slot at the end of the table. *)
Definition H5O_alloc_null (oh : H5O_t) (i : nat) (m : H5O_mesg_t)
    (ty : class_ptr) (size : Z) : H5O_t * nat :=
  if mesg_raw_size m =? size then
    (with_mesg oh (<[i := set_type m ty]> (oh_mesg oh)), i)
  else
    let used := size + H5O_SIZEOF_MSGHDR_OH oh in
    let rest := set_span m (mesg_raw m + used) (mesg_raw_size m - used) in
    (with_mesg oh (<[i := rest]> (oh_mesg oh)
                   ++ [new_mesg ty (mesg_chunkno m) (mesg_raw m) size]),
     length (oh_mesg oh)).

(** Extension, in place, of the chunk that holds the most recently
    appended message: the new message goes where the gap of the chunk
    begins; if the gap is too small the free-space manager is asked to
    extend the chunk in the file by the bytes that are missing. *)
Definition H5O_alloc_extend_chunk (oh : H5O_t) (fs : FS) (ty : class_ptr)
    (size : Z) : option (H5O_t * FS * nat) :=
  last_m ← last (oh_mesg oh);
  let c := mesg_chunkno last_m in
  ch ← oh_chunk oh !! c;
  let need := size + H5O_SIZEOF_MSGHDR_OH oh in
  let raw :=
    chunk_size ch - H5O_SIZEOF_CHKSUM_OH oh - chunk_gap ch
    + H5O_SIZEOF_MSGHDR_OH oh in
  let ms := oh_mesg oh ++ [new_mesg ty c raw size] in
  if need <=? chunk_gap ch then
    let ch := resize_chunk ch (chunk_size ch) (chunk_gap ch - need)
                (chunk_image ch) in
    Some (with_chunk (with_mesg oh ms) (<[c := ch]> (oh_chunk oh)), fs,
          length (oh_mesg oh))
  else
    let extra := need - chunk_gap ch in
    fs ← H5MF_try_extend fs (chunk_addr ch) (chunk_size ch) extra;
    let ch := resize_chunk ch (chunk_size ch + extra) 0
                (chunk_image ch ++ replicate (Z.to_nat extra) Byte.x00) in
    Some (with_chunk (with_mesg oh ms) (<[c := ch]> (oh_chunk oh)), fs,
          length (oh_mesg oh)).

(** The raw size of a continuation message: an address and a length. *)
Definition cont_raw_size (oh : H5O_t) : Z :=
  H5O_ALIGN_OH Cint.exact oh (oh_sizeof_addr oh + oh_sizeof_size oh).

(** A new continuation chunk at [addr] for a message of class [ty] and
    [size] raw bytes.  The chunk has [data] bytes for messages besides
    its chunk header; what the message leaves over becomes a null message
    if it can hold the header of one, and the gap of the chunk if not. *)
Definition H5O_add_chunk (oh : H5O_t) (addr data : Z) (ty : class_ptr)
    (size : Z) : H5O_t * nat :=
  let c := length (oh_chunk oh) in
  let mh := H5O_SIZEOF_MSGHDR_OH oh in
  let total := data + H5O_SIZEOF_CHKHDR_OH oh in
  let raw := chunk_first oh c + mh in
  let left := data - (size + mh) in
  let '(tail, gap) :=
    if mh <=? left then ([null_mesg c (raw + size + mh) (left - mh)], 0)
    else ([], left) in
  let ch := mk_chunk addr total gap (replicate (Z.to_nat total) Byte.x00) in
  (with_chunk (with_mesg oh (oh_mesg oh ++ new_mesg ty c raw size :: tail))
              (oh_chunk oh ++ [ch]),
   length (oh_mesg oh)).

(** Modelled from the spec: [allocate(header, messageType, rawSize) ->
    slotIndex] of section 4.2.  Best fit among the null messages; else
    extension of the chunk of the last message; else a new continuation
    chunk from the free-space manager, reached through a continuation
    message that is itself allocated in the header as it is, by a
    recursive call bounded by [depth]. *)
Fixpoint H5O_alloc (depth : nat) (oh : H5O_t) (fs : FS) (ty : class_ptr)
    (size : Z) : result (H5O_t * FS * nat) :=
  if size <? 0 then Err InvalidOperation else
  match H5O_alloc_find_best_null oh size with
  | Some i =>
    match oh_mesg oh !! i with
    | Some m => let '(oh, idx) := H5O_alloc_null oh i m ty size in Ok (oh, fs, idx)
    | None => Err InvalidOperation
    end
  | None =>
    match H5O_alloc_extend_chunk oh fs ty size with
    | Some r => Ok r
    | None =>
      match depth with
      | O => Err OutOfSpace
      | S depth =>
        if bool_decide (oh_chunk oh = []) then Err InvalidOperation else
        let data :=
          H5O_ALIGN_OH Cint.exact oh
            (Z.max H5O_MIN_SIZE (size + H5O_SIZEOF_MSGHDR_OH oh)) in
        let total := data + H5O_SIZEOF_CHKHDR_OH oh in
        match H5MF_alloc fs total with
        | None => Err OutOfSpace
        | Some (addr, fs) =>
          '(oh, fs, icont) ← H5O_alloc depth oh fs H5O_MSG_CONT (cont_raw_size oh);
          match oh_mesg oh !! icont with
          | None => Err InvalidOperation
          | Some mc =>
            let cont := cont_to_native (mk_cont addr total) in
            let oh :=
              with_mesg oh (<[icont := set_value mc 0 0 cont]> (oh_mesg oh)) in
            let '(oh, idx) := H5O_add_chunk oh addr data ty size in
            Ok (oh, fs, idx)
          end
        end
      end
    end
  end.

(** *** Release *)

(** Two null messages of one chunk, the second right behind the first. *)
Definition adjacent (oh : H5O_t) (m1 m2 : H5O_mesg_t) : bool :=
  is_null m1 && is_null m2
  && bool_decide (mesg_chunkno m1 = mesg_chunkno m2)
  && (mesg_raw m1 + mesg_raw_size m1 + H5O_SIZEOF_MSGHDR_OH oh =? mesg_raw m2).

(** The message at [j] merged into the message at [i] in front of it. *)
Definition H5O_merge_pair (oh : H5O_t) (i j : nat) : H5O_t :=
  match oh_mesg oh !! i, oh_mesg oh !! j with
  | Some m1, Some m2 =>
    if bool_decide (i <> j) && adjacent oh m1 m2 then
      let m := set_span m1 (mesg_raw m1)
                 (mesg_raw_size m1 + H5O_SIZEOF_MSGHDR_OH oh + mesg_raw_size m2) in
      with_mesg oh (delete j (<[i := m]> (oh_mesg oh)))
    else oh
  | _, _ => oh
  end.

Definition find_adjacent (oh : H5O_t) : option (nat * nat) :=
  let ms := oh_mesg oh in
  i ← find_index
        (fun m1 => bool_decide (is_Some (find_index (adjacent oh m1) ms))) ms;
  m1 ← ms !! i;
  j ← find_index (adjacent oh m1) ms;
  Some (i, j).

(** Adjacent null messages are merged until no two are left
    ("merge always runs to fixpoint"); each merge takes a message away,
    so [fuel] need not exceed their number. *)
Fixpoint H5O_merge_null (fuel : nat) (oh : H5O_t) : H5O_t :=
  match fuel with
  | O => oh
  | S fuel =>
    match find_adjacent oh with
    | Some (i, j) => H5O_merge_null fuel (H5O_merge_pair oh i j)
    | None => oh
    end
  end.

(** The slot at [i] converted to the null class, and merged with its
    null neighbours.  A locked message cannot be released. *)
Definition H5O_mesg_to_null (oh : H5O_t) (i : nat) : result H5O_t :=
  match oh_mesg oh !! i with
  | None => Err InvalidOperation
  | Some m =>
    if mesg_locked m then Err InvalidOperation
    else
      let oh := with_mesg oh (<[i := set_type m H5O_MSG_NULL]> (oh_mesg oh)) in
      Ok (H5O_merge_null (length (oh_mesg oh)) oh)
  end.

(** Every message of chunk [c] is null. *)
Definition chunk_all_null (oh : H5O_t) (c : nat) : bool :=
  forallb (fun m => negb (bool_decide (mesg_chunkno m = c)) || is_null m)
          (oh_mesg oh).

(** The chunk numbers above [c] move down by one when chunk [c] goes. *)
Definition renumber (c : nat) (m : H5O_mesg_t) : H5O_mesg_t :=
  if bool_decide (c < mesg_chunkno m)%nat
  then set_chunkno m (pred (mesg_chunkno m))
  else m.

(** Chunk [c] and its messages taken out of the header, its space in the
    file given back; the address of the chunk is returned. *)
Definition H5O_chunk_delete (oh : H5O_t) (fs : FS) (c : nat)
  : option (H5O_t * FS * Z) :=
  ch ← oh_chunk oh !! c;
  let ms :=
    renumber c <$>
      List.filter (fun m => negb (bool_decide (mesg_chunkno m = c)))
                  (oh_mesg oh) in
  Some (with_chunk (with_mesg oh ms) (delete c (oh_chunk oh)),
        H5MF_xfree fs (chunk_addr ch) (chunk_size ch), chunk_addr ch).

(** The continuation message that holds the address [addr]. *)
Definition points_to (addr : Z) (m : H5O_mesg_t) : bool :=
  bool_decide (mesg_type m = H5O_MSG_CONT) &&
  match mesg_native m with
  | Some n =>
    match cont_of_native n with
    | Some k => cont_addr k =? addr
    | None => false
    end
  | None => false
  end.

(** Removal of the chunk [c], which is not chunk 0: the chunk is
    deleted, its continuation message in the parent chunk becomes a null
    message and is merged there; if that leaves the parent entirely
    null, the parent is removed in turn. *)
Fixpoint H5O_chunk_remove (fuel : nat) (oh : H5O_t) (fs : FS) (c : nat)
  : result (H5O_t * FS) :=
  match c, H5O_chunk_delete oh fs c with
  | O, _ => Err InvalidOperation
  | _, None => Err InvalidOperation
  | S _, Some (oh, fs, addr) =>
    match find_index (points_to addr) (oh_mesg oh) with
    | None => Ok (oh, fs)
    | Some k =>
      match oh_mesg oh !! k with
      | None => Err InvalidOperation
      | Some mk =>
        let parent := mesg_chunkno mk in
        oh ← H5O_mesg_to_null oh k;
        if negb (bool_decide (parent = O)) && chunk_all_null oh parent then
          match fuel with
          | O => Err CorruptFormat
          | S fuel => H5O_chunk_remove fuel oh fs parent
          end
        else Ok (oh, fs)
      end
    end
  end.

(** Modelled from the spec: [release(header, slotIndex)] of section 4.2. *)
Definition H5O_release (oh : H5O_t) (fs : FS) (i : nat) : result (H5O_t * FS) :=
  match oh_mesg oh !! i with
  | None => Err InvalidOperation
  | Some m =>
    let c := mesg_chunkno m in
    oh ← H5O_mesg_to_null oh i;
    if negb (bool_decide (c = O)) && chunk_all_null oh c
    then H5O_chunk_remove (length (oh_chunk oh)) oh fs c
    else Ok (oh, fs)
  end.

(** *** Condensation *)

Definition has_locked (oh : H5O_t) (c : nat) : bool :=
  existsb (fun m => bool_decide (mesg_chunkno m = c) && mesg_locked m)
          (oh_mesg oh).

(** A null message of chunk [c]. *)
Definition null_in (c : nat) (m : H5O_mesg_t) : bool :=
  bool_decide (mesg_chunkno m = c) && is_null m.

(** The bytes taken by the null messages of chunk [c] whose raw data
    start before the offset [pos]. *)
Definition nulls_before (oh : H5O_t) (c : nat) (pos : Z) : Z :=
  foldr (fun m acc =>
           if null_in c m && (mesg_raw m <? pos) then mesg_space oh m + acc
           else acc)
        0 (oh_mesg oh).

(** The bytes taken by all the null messages of chunk [c]. *)
Definition null_space (oh : H5O_t) (c : nat) : Z :=
  foldr (fun m acc => if null_in c m then mesg_space oh m + acc else acc)
        0 (oh_mesg oh).

(** The byte at offset [pos] of chunk [c] belongs to a null message. *)
Definition in_null (oh : H5O_t) (c : nat) (pos : Z) : bool :=
  existsb (fun m =>
             null_in c m
             && (mesg_raw m - H5O_SIZEOF_MSGHDR_OH oh <=? pos)
             && (pos <? mesg_raw m + mesg_raw_size m))
          (oh_mesg oh).

Definition set_raw (m : H5O_mesg_t) (raw : Z) : H5O_mesg_t :=
  mk_mesg (mesg_type m) (mesg_dirty m) (mesg_locked m) (mesg_flags m)
          (mesg_crt_idx m) (mesg_chunkno m) (mesg_native m) raw
          (mesg_raw_size m).

(** The null messages of chunk [c] are taken out, the messages behind
    them slide down, and the chunk shrinks by the bytes set free.  A chunk
    with a locked message is left alone. *)
Definition H5O_condense_chunk (oh : H5O_t) (c : nat) : H5O_t :=
  match oh_chunk oh !! c with
  | None => oh
  | Some ch =>
    if has_locked oh c then oh
    else
      let ms :=
        (fun m =>
           if bool_decide (mesg_chunkno m = c)
           then set_raw m (mesg_raw m - nulls_before oh c (mesg_raw m))
           else m) <$>
          List.filter (fun m => negb (null_in c m)) (oh_mesg oh) in
      let ch :=
        resize_chunk ch (chunk_size ch - null_space oh c) (chunk_gap ch)
          (strip_bytes (in_null oh c) 0 (chunk_image ch)) in
      with_chunk (with_mesg oh ms) (<[c := ch]> (oh_chunk oh))
  end.

(** The chunks [n - 1], ..., 0 in turn: a continuation chunk that is
    entirely null is removed, any other chunk is condensed. *)
Fixpoint H5O_condense_from (n : nat) (oh : H5O_t) (fs : FS)
  : result (H5O_t * FS) :=
  match n with
  | O => Ok (oh, fs)
  | S c =>
    '(oh, fs) ←
      (if negb (bool_decide (c = O)) && bool_decide (is_Some (oh_chunk oh !! c))
          && chunk_all_null oh c
       then H5O_chunk_remove (length (oh_chunk oh)) oh fs c
       else Ok (H5O_condense_chunk oh c, fs));
    H5O_condense_from c oh fs
  end.

(** Modelled from the spec: [condense(header)] of section 4.2. *)
Definition H5O_condense_header (oh : H5O_t) (fs : FS) : result (H5O_t * FS) :=
  H5O_condense_from (length (oh_chunk oh)) oh fs.

(** *** The message table (section 4.4) *)

(** The raw size of the native message [v] of class [ty], with the
    alignment of the header's version. *)
Definition H5O_msg_raw_size (oh : H5O_t) (f : H5F_t) (ty : class_ptr)
    (v : Native) : result Z :=
  match class_raw_size (class_at ty) with
  | None => Err InvalidOperation
  | Some raw_size => Ok (H5O_ALIGN_OH Cint.exact oh (raw_size f false v))
  end.

(** Modelled from the spec: [append(header, type, flags, value) ->
    index].  The creation index is the one the codec reads off the value,
    0 for a class without creation indices. *)
Definition H5O_msg_append (oh : H5O_t) (fs : FS) (f : H5F_t) (ty : class_ptr)
    (flags : Z) (v : Native) : result (H5O_t * FS * nat) :=
  size ← H5O_msg_raw_size oh f ty v;
  crt ← match class_get_crt_index (class_at ty) with
        | None => Ok 0
        | Some get => if (get v).1 <? 0 then Err InvalidOperation
                      else Ok (get v).2
        end;
  '(oh, fs, idx) ← H5O_alloc alloc_depth oh fs ty size;
  match oh_mesg oh !! idx with
  | None => Err InvalidOperation
  | Some m =>
    Ok (with_mesg oh (<[idx := set_value m flags crt v]> (oh_mesg oh)), fs, idx)
  end.

(** Modelled from the spec: [write(header, index, value)]: in place when
    the raw size stays the same, release-then-append when it changes.
    (The unsharing of a shared message is left to the codec and to the
    shared-message mechanism outside of this core.) *)
Definition H5O_msg_write (oh : H5O_t) (fs : FS) (f : H5F_t) (i : nat)
    (v : Native) : result (H5O_t * FS * nat) :=
  match oh_mesg oh !! i with
  | None => Err InvalidOperation
  | Some m =>
    size ← H5O_msg_raw_size oh f (mesg_type m) v;
    if size =? mesg_raw_size m then
      Ok (with_mesg oh
            (<[i := set_value m (mesg_flags m) (mesg_crt_idx m) v]> (oh_mesg oh)),
          fs, i)
    else
      '(oh, fs) ← H5O_release oh fs i;
      H5O_msg_append oh fs f (mesg_type m) (mesg_flags m) v
  end.

(** Modelled from the spec: [remove(header, type, sequenceOrIndex, op,
    adjLink)]: every message of class [ty] accepted by [op] is released.
    (The delete and link hooks of the codec act on the file, not on the
    header.)  Each round releases one message. *)
Fixpoint H5O_msg_remove_loop (fuel : nat) (oh : H5O_t) (fs : FS)
    (ty : class_ptr) (op : H5O_mesg_t -> bool) : result (H5O_t * FS) :=
  match fuel with
  | O => Ok (oh, fs)
  | S fuel =>
    match find_index (fun m => bool_decide (mesg_type m = ty) && op m)
                     (oh_mesg oh) with
    | None => Ok (oh, fs)
    | Some i =>
      '(oh, fs) ← H5O_release oh fs i;
      H5O_msg_remove_loop fuel oh fs ty op
    end
  end.

Definition H5O_msg_remove (oh : H5O_t) (fs : FS) (ty : class_ptr)
    (op : H5O_mesg_t -> bool) : result (H5O_t * FS) :=
  H5O_msg_remove_loop (length (oh_mesg oh)) oh fs ty op.

(** Modelled from the spec: [iterate(header, type, callback)]: the
    messages of class [ty] from position [i] on, [todo] positions in
    all, are decoded on demand with [H5O_LOAD_NATIVE] and handed to the
    callback, which may ask to stop; the values seen are returned. *)
Fixpoint H5O_msg_iterate_from (todo i : nat) (oh : H5O_t) (f : H5F_t)
    (ty : class_ptr) (callback : Native -> bool) : result (H5O_t * list Native) :=
  match todo with
  | O => Ok (oh, [])
  | S todo =>
    match oh_mesg oh !! i with
    | None => Ok (oh, [])
    | Some m =>
      if bool_decide (mesg_type m = ty) then
        match H5O_LOAD_NATIVE f 0 0 oh m CorruptFormat with
        | AssertFailed => Err InvalidOperation
        | GotoError e _ => Err e
        | Fallthrough (oh, m) =>
          let oh := with_mesg oh (<[i := m]> (oh_mesg oh)) in
          match mesg_native m with
          | None => Err InvalidOperation
          | Some v =>
            if callback v then Ok (oh, [v])
            else
              '(oh, vs) ← H5O_msg_iterate_from todo (S i) oh f ty callback;
              Ok (oh, v :: vs)
          end
        end
      else H5O_msg_iterate_from todo (S i) oh f ty callback
    end
  end.

Definition H5O_msg_iterate (oh : H5O_t) (f : H5F_t) (ty : class_ptr)
    (callback : Native -> bool) : result (H5O_t * list Native) :=
  H5O_msg_iterate_from (length (oh_mesg oh)) 0 oh f ty callback.

(** The raw bytes of a dirty message with a native value, encoded anew
    into the image of its chunk. *)
Definition H5O_mesg_encode (f : H5F_t) (m : H5O_mesg_t)
    (cs : list H5O_chunk_t) : list H5O_chunk_t :=
  match mesg_dirty m, mesg_native m, class_encode (class_at (mesg_type m)) with
  | true, Some v, Some encode =>
    alter (fun ch =>
             resize_chunk ch (chunk_size ch) (chunk_gap ch)
               (blit (chunk_image ch) (mesg_raw m) (mesg_raw_size m)
                     (encode f false v)))
          (mesg_chunkno m) cs
  | _, _, _ => cs
  end.

(** Modelled from the spec: [flush(header)]: every dirty message is
    encoded into the image of its chunk and is clean afterwards. *)
Definition H5O_flush (oh : H5O_t) (f : H5F_t) : H5O_t :=
  with_chunk
    (with_mesg oh ((fun m => set_dirty m false) <$> oh_mesg oh))
    (foldr (H5O_mesg_encode f) (oh_chunk oh) (oh_mesg oh)).

(** *** Decoding (section 4.1) *)

(** The header of a message record as it is on disk (section 6):
    version 1 has a 2-byte type, a 2-byte data size, a flags byte and 3
    reserved bytes; version 2 has a 1-byte type, a 2-byte data size, a
    flags byte and, if the header tracks the creation order, a 2-byte
    creation index. *)
Record H5O_wire_mesg := mk_wire {
  wire_id : Z;
  wire_size : Z;
  wire_flags : Z;
  wire_crt_idx : Z
}.

Definition H5O_msghdr_decode (oh : H5O_t) (bs : list Byte.byte) : H5O_wire_mesg :=
  if oh_version oh =? H5O_VERSION_1 then
    mk_wire (uint_decode (field bs 0 2)) (uint_decode (field bs 2 2))
            (uint_decode (field bs 4 1)) 0
  else
    mk_wire (uint_decode (field bs 0 1)) (uint_decode (field bs 1 2))
            (uint_decode (field bs 3 1))
            (if flag_set (oh_flags oh) H5O_HDR_ATTR_CRT_ORDER_TRACKED
             then uint_decode (field bs 4 2) else 0).

(** The payload of a continuation message: an address and a length, "same
    width as file addresses/sizes". *)
Definition H5O_cont_decode (oh : H5O_t) (bs : list Byte.byte) : H5O_cont_t :=
  mk_cont (uint_decode (field bs 0 (oh_sizeof_addr oh)))
          (uint_decode (field bs (oh_sizeof_addr oh) (oh_sizeof_size oh))).

(** The class of a message type found on disk: an unknown type is kept
    as an unknown message unless the message is flagged to fail. *)
Definition H5O_wire_class (w : H5O_wire_mesg) : result class_ptr :=
  match H5O_msg_class_g (wire_id w) with
  | Some ty => Ok ty
  | None =>
    if flag_set (wire_flags w) H5O_MSG_FLAG_FAIL_IF_UNKNOWN
    then Err UnsupportedMessage
    else Ok H5O_MSG_UNKNOWN
  end.

(** Pass 2 on one chunk: the message records of the image [img] of chunk
    [c] from offset [pos] up to offset [last], where the checksum, if
    any, begins.  Trailing bytes too few for a message header are the gap
    of the chunk; a record that overruns the chunk is corrupt.  Only the
    raw bytes and the class are recorded, except for a continuation
    message, whose address and length are needed at once.  The result is
    the list of messages and the gap. *)
Fixpoint H5O_chunk_messages (fuel : nat) (oh : H5O_t) (c : nat)
    (img : list Byte.byte) (pos last : Z) : result (list H5O_mesg_t * Z) :=
  let mh := H5O_SIZEOF_MSGHDR_OH oh in
  if last - pos <? mh then
    if last - pos <? 0 then Err CorruptFormat else Ok ([], last - pos)
  else
    match fuel with
    | O => Err CorruptFormat
    | S fuel =>
      let w := H5O_msghdr_decode oh (drop (Z.to_nat pos) img) in
      let raw := pos + mh in
      if last <? raw + wire_size w then Err CorruptFormat
      else
        ty ← H5O_wire_class w;
        let native :=
          if bool_decide (ty = H5O_MSG_CONT)
          then Some (cont_to_native
                       (H5O_cont_decode oh (field img raw (wire_size w))))
          else None in
        let m :=
          mk_mesg ty false false (wire_flags w) (wire_crt_idx w) c native raw
                  (wire_size w) in
        '(ms, gap) ← H5O_chunk_messages fuel oh c img (raw + wire_size w) last;
        Ok (m :: ms, gap)
    end.

(** The chunks the continuation messages among [ms] point to. *)
Definition H5O_conts (ms : list H5O_mesg_t) : list H5O_cont_t :=
  omap (fun m =>
          if bool_decide (mesg_type m = H5O_MSG_CONT)
          then mesg_native m ≫= cont_of_native
          else None)
       ms.

(** The magic number and the checksum of a chunk image, checked in the
    versions that have them. *)
Definition H5O_chunk_verify (oh : H5O_t) (magic img : list Byte.byte)
  : result unit :=
  if oh_version oh =? H5O_VERSION_1 then Ok tt
  else if negb (bool_decide (field img 0 H5_SIZEOF_MAGIC = magic))
  then Err CorruptFormat
  else
    let body := Z.of_nat (length img) - H5O_SIZEOF_CHKSUM in
    if uint_decode (field img body H5O_SIZEOF_CHKSUM)
       =? H5_checksum_metadata (take (Z.to_nat body) img)
    then Ok tt
    else Err ChecksumError.

(** The continuation chunks on the stack [pending] are read and decoded
    in turn, each one pushing the continuations it contains; [fuel]
    bounds the number of chunks, so that a chain that does not end is
    reported as corrupt. *)
Fixpoint H5O_load_chunks (fuel : nat) (oh : H5O_t) (pending : list H5O_cont_t)
  : result H5O_t :=
  match pending with
  | [] => Ok oh
  | k :: pending =>
    match fuel with
    | O => Err CorruptFormat
    | S fuel =>
      let c := length (oh_chunk oh) in
      match c, H5F_block_read (cont_addr k) (cont_size k) with
      | O, _ => Err InvalidOperation
      | _, None => Err CorruptFormat
      | S _, Some img =>
        if negb (Z.of_nat (length img) =? cont_size k) then Err CorruptFormat
        else
          _ ← H5O_chunk_verify oh H5O_CHK_MAGIC img;
          '(ms, gap) ←
            H5O_chunk_messages (length img) oh c img (chunk_first oh c)
              (cont_size k - H5O_SIZEOF_CHKSUM_OH oh);
          let oh :=
            with_chunk (with_mesg oh (oh_mesg oh ++ ms))
              (oh_chunk oh ++ [mk_chunk (cont_addr k) (cont_size k) gap img]) in
          H5O_load_chunks fuel oh (H5O_conts ms ++ pending)
      end
    end
  end.

(** Pass 1: the prefix at the head of the buffer [buf] of chunk 0.  A
    buffer that begins with the magic number holds a version-2 header, any
    other a version-1 header; the version byte must agree.  The result is
    the empty header with its version, flags and link count, and the size
    of the data of chunk 0. *)
Definition H5O_prefix_decode (sizeof_size sizeof_addr : Z)
    (buf : list Byte.byte) : result (H5O_t * Z) :=
  if bool_decide (field buf 0 H5_SIZEOF_MAGIC = H5O_HDR_MAGIC) then
    let version := uint_decode (field buf H5_SIZEOF_MAGIC 1) in
    let flags := uint_decode (field buf (H5_SIZEOF_MAGIC + 1) 1) in
    let oh := mk_oh sizeof_size sizeof_addr 0 1 version flags [] [] in
    let width := Z.shiftl 1 (Z.land flags H5O_HDR_CHUNK0_SIZE) in
    if version =? H5O_VERSION_2 then
      Ok (oh, uint_decode
                (field buf (H5O_SIZEOF_HDR oh - H5O_SIZEOF_CHKSUM - width) width))
    else Err CorruptFormat
  else
    let version := uint_decode (field buf 0 1) in
    let nlink := uint_decode (field buf 4 4) in
    let oh := mk_oh sizeof_size sizeof_addr 0 nlink version 0 [] [] in
    if version =? H5O_VERSION_1 then Ok (oh, uint_decode (field buf 8 4))
    else Err CorruptFormat.

(** Modelled from the spec: the decode engine of section 4.1.  Given the
    buffer [buf] of the chunk 0 found at [addr], the prefix is parsed
    (pass 1), the messages of chunk 0 and of the chunks reached through
    continuation messages are recorded (pass 2), and adjacent null
    messages are merged. *)
Definition H5O_load (fuel : nat) (sizeof_size sizeof_addr addr : Z)
    (buf : list Byte.byte) : result H5O_t :=
  '(oh, data) ← H5O_prefix_decode sizeof_size sizeof_addr buf;
  let size := H5O_SIZEOF_HDR oh + data in
  if Z.of_nat (length buf) <? size then Err CorruptFormat
  else
    let img := take (Z.to_nat size) buf in
    _ ← H5O_chunk_verify oh H5O_HDR_MAGIC img;
    '(ms, gap) ←
      H5O_chunk_messages (length img) oh 0 img (chunk_first oh 0)
        (size - H5O_SIZEOF_CHKSUM_OH oh);
    let oh := with_chunk (with_mesg oh ms) [mk_chunk addr size gap img] in
    oh ← H5O_load_chunks fuel oh (H5O_conts ms);
    Ok (H5O_merge_null (length (oh_mesg oh)) oh).

(** *** The operations on a header *)

Inductive H5O_op :=
| OpAllocate (ty : class_ptr) (size : Z)
| OpRelease (i : nat)
| OpCondense
| OpAppend (ty : class_ptr) (flags : Z) (v : Native)
| OpWrite (i : nat) (v : Native)
| OpRemove (ty : class_ptr) (op : H5O_mesg_t -> bool)
| OpIterate (ty : class_ptr) (callback : Native -> bool)
| OpFlush.

(** One operation on the header [oh] of the file [f], whose free-space
    manager is in state [fs]. *)
Definition H5O_apply (f : H5F_t) (o : H5O_op) (oh : H5O_t) (fs : FS)
  : result (H5O_t * FS) :=
  match o with
  | OpAllocate ty size =>
    '(oh, fs, _) ← H5O_alloc alloc_depth oh fs ty size; Ok (oh, fs)
  | OpRelease i => H5O_release oh fs i
  | OpCondense => H5O_condense_header oh fs
  | OpAppend ty flags v =>
    '(oh, fs, _) ← H5O_msg_append oh fs f ty flags v; Ok (oh, fs)
  | OpWrite i v =>
    '(oh, fs, _) ← H5O_msg_write oh fs f i v; Ok (oh, fs)
  | OpRemove ty op => H5O_msg_remove oh fs ty op
  | OpIterate ty callback =>
    '(oh, _) ← H5O_msg_iterate oh f ty callback; Ok (oh, fs)
  | OpFlush => Ok (H5O_flush oh f, fs)
  end.

(** A sequence of operations; the first failure ends it. *)
Fixpoint H5O_run (f : H5F_t) (os : list H5O_op) (oh : H5O_t) (fs : FS)
  : result (H5O_t * FS) :=
  match os with
  | [] => Ok (oh, fs)
  | o :: os => '(oh, fs) ← H5O_apply f o oh fs; H5O_run f os oh fs
  end.

(** The headers that exist: created or decoded, then operated on. *)
Inductive live (f : H5F_t) : H5O_t -> FS -> Prop :=
| live_create fs0 ss sa version flags hint oh fs :
    H5O_create fs0 ss sa version flags hint = Ok (oh, fs) ->
    live f oh fs
| live_load fuel ss sa addr buf oh fs :
    H5O_load fuel ss sa addr buf = Ok oh ->
    live f oh fs
| live_apply o oh fs oh' fs' :
    live f oh fs ->
    H5O_apply f o oh fs = Ok (oh', fs') ->
    live f oh' fs'.

(** *** The invariants *)

(** The equation as the design document words it. *)
Definition chunk_sizes_claimed (oh : H5O_t) : Prop :=
  forall c ch, oh_chunk oh !! c = Some ch ->
    chunk_used oh c + chunk_gap ch = chunk_size ch.

(** The equation with the framing of the chunk. *)
Definition chunk_sizes_ok (oh : H5O_t) : Prop :=
  forall c ch, oh_chunk oh !! c = Some ch ->
    chunk_used oh c + chunk_gap ch + chunk_overhead oh c = chunk_size ch.

(** Every message resides in a chunk of the header. *)
Definition chunkno_ok (oh : H5O_t) : Prop :=
  Forall (fun m => (mesg_chunkno m < length (oh_chunk oh))%nat) (oh_mesg oh).

(** The creation indices are 16-bit values. *)
Definition crt_idx_ok (oh : H5O_t) : Prop :=
  Forall (fun m => 0 <= mesg_crt_idx m <= H5O_MAX_CRT_ORDER_IDX) (oh_mesg oh).

(** Two headers of the same version and flags have the same layout. *)
Definition same_layout (oh oh' : H5O_t) : Prop :=
  oh_version oh' = oh_version oh /\ oh_flags oh' = oh_flags oh.

(** The share of one message in the bytes of chunk [c]. *)
Definition weight (oh : H5O_t) (c : nat) (m : H5O_mesg_t) : Z :=
  if bool_decide (mesg_chunkno m = c) then mesg_space oh m else 0.

(** The well-formed headers: the sizes of every chunk add up, and every
    message resides in a chunk of the header. *)
Definition wf (oh : H5O_t) : Prop := chunk_sizes_ok oh /\ chunkno_ok oh.

(** The creation index of a message is a 16-bit value. *)
Definition crt_ok (m : H5O_mesg_t) : Prop := 0 <= mesg_crt_idx m <= H5O_MAX_CRT_ORDER_IDX.

End Engine.

(** ** Concrete instances

    Values of the interfaces on which the definitions can be evaluated:
    the usual [herr_t] values, one assignment of distinct bits to the
    flags, a path table kept as a list, a file represented by its intent,
    three message classes (null, continuation, and an attribute-like
    class whose decode callback normalises what it reads and says so),
    and a free-space manager that hands out the end of the file. *)

Module Sample.

Definition herr : H5private :=
  {| SUCCEED := 0; FAIL := -1;
     SUCCEED_nonneg := Z.le_refl 0; FAIL_neg := eq_refl |}.

Definition flags : H5Opublic :=
  {| H5O_HDR_ATTR_CRT_ORDER_TRACKED := 0x04;
     H5O_HDR_ATTR_STORE_PHASE_CHANGE := 0x10;
     H5O_HDR_STORE_TIMES := 0x20;
     H5O_MSG_FLAG_SHAREABLE := 0x02;
     H5O_SHARE_TYPE_HERE := 3;
     H5F_ACC_RDWR := 0x01 |}.

(** A path table as the list of its paths. *)
Definition paths : H5PLpath (list string) :=
  {| H5PL__get_num_paths t := Z.of_nat (length t);
     H5PL__append_path p t := (0, t ++ [p]);
     H5PL__prepend_path p t := (0, p :: t);
     H5PL__replace_path p i t := (0, <[Z.to_nat i := p]> t);
     H5PL__insert_path p i t :=
       (0, take (Z.to_nat i) t ++ p :: drop (Z.to_nat i) t);
     H5PL__remove_path i t := (0, delete (Z.to_nat i) t);
     H5PL__get_path i t := t !! Z.to_nat i |}.

(** An environment in which [HDF5_PLUGIN_PRELOAD] is set to [v]. *)
Definition preload (v : string) (name : string) : option string :=
  if String.eqb name "HDF5_PLUGIN_PRELOAD" then Some v else None.

Definition no_env (name : string) : option string := None.

(** Native messages: continuation messages, and attributes with their
    encoded size and creation index. *)
Inductive native :=
| Cont (k : H5O_cont_t)
| Attr (size crt : Z).

(** Class pointers are numbers: 0 the null class, 1 the continuation
    class, any other the attribute class.  Decoding an attribute yields
    [Attr 8 0] and reports that it changed the message. *)
Definition class_of (p : nat) : H5O_msg_class_t Z native nat :=
  {| class_id := Z.of_nat p; class_name := "sample"; class_native_size := 16;
     class_share_flags := 0;
     class_decode :=
       Some (fun _ _ _ _ ioflags _ =>
               (Some (Attr 8 0), Z.lor ioflags H5O_DECODEIO_DIRTY));
     class_encode := Some (fun _ _ _ => [Byte.x01]);
     class_raw_size :=
       Some (fun _ _ v => match v with Attr size _ => size | Cont _ => 16 end);
     class_get_crt_index :=
       match p with
       | 0%nat | 1%nat => None
       | _ => Some (fun v => (0, match v with Attr _ crt => crt | Cont _ => 0 end))
       end;
     class_set_crt_index := None |}.

Definition env : H5Oenv Z native nat :=
  {| class_at := class_of;
     H5F_get_intent F := F;
     H5O_UPDATE_SHARED n _ _ _ _ _ := n;
     NDEBUG := false |}.

(** The free-space manager hands out whole pages of 256 bytes at the end
    of the file, whose address is its state; a block can grow in place
    within its last page. *)
Definition pages (size : Z) : Z := (size + 255) / 256.

Definition collab : H5Ocollab native nat Z :=
  {| H5O_MSG_NULL := 0%nat;
     H5O_MSG_CONT := 1%nat;
     cont_to_native := Cont;
     cont_of_native v := match v with Cont k => Some k | Attr _ _ => None end;
     H5MF_alloc fs size := Some (fs, fs + 256 * pages size);
     H5MF_try_extend fs addr size extra :=
       if size + extra <=? 256 * pages size then Some fs else None;
     H5MF_xfree fs _ _ := fs;
     alloc_depth := 2%nat |}.

(** A message that has not been decoded yet, and two headers holding it,
    of version 1 and of version 2. *)
Definition mesg0 : H5O_mesg_t native nat :=
  mk_mesg 2%nat false false 0 0 0%nat None 24 8.

Definition chunk0 : H5O_chunk_t := mk_chunk 96 40 0 (replicate 40 Byte.x00).

Definition oh1 : H5O_t native nat := mk_oh 8 8 0 1 1 0 [mesg0] [chunk0].
Definition oh2 : H5O_t native nat := mk_oh 8 8 0 1 2 0x21 [mesg0] [chunk0].

(** A version-2 header created at address 1024 and a history of it:
    two attributes are appended, the first is released, and a third
    attribute, too large for chunk 0, goes to a continuation chunk. *)
Definition script : list (H5O_op (Native := native) (class_ptr := nat)) :=
  [OpAppend 2%nat 0 (Attr 100 1); OpAppend 2%nat 0 (Attr 90 2);
   OpRelease 1%nat; OpAppend 2%nat 0 (Attr 300 70000)].

Definition history : result (H5O_t native nat * Z) :=
  '(oh, fs) ← H5O_create (H := flags) (H5Ocollab0 := collab) 1024 8 8 2 0 0;
  H5O_run (H := flags) (H5Oenv0 := env) (H5Ocollab0 := collab) 1 script oh fs.

Definition final : H5O_t native nat :=
  Eval vm_compute in
    match history with
    | Ok (oh, _) => oh
    | Err _ => mk_oh 0 0 0 0 0 0 [] []
    end.

(** Integers are stored in little-endian order. *)
Definition le_uint (bs : list Byte.byte) : Z :=
  foldr (fun b acc => Z.of_N (Byte.to_N b) + 256 * acc) 0 bs.

Definition byte_of (z : Z) : Byte.byte :=
  default Byte.x00 (Byte.of_N (Z.to_N (z mod 256))).

Fixpoint le_bytes (n : nat) (z : Z) : list Byte.byte :=
  match n with
  | O => []
  | S n => byte_of z :: le_bytes n (z / 256)
  end.

(** A version-1 header on disk: chunk 0 at address 1024 holds the prefix
    (16 bytes), an attribute of 8 bytes and a continuation message that
    points to a chunk of 24 bytes at address 2048, which holds one null
    message. *)
Definition disk_chunk0 : list Byte.byte :=
  (* prefix: version, reserved, number of messages, link count, size *)
  le_bytes 1 1 ++ le_bytes 1 0 ++ le_bytes 2 3 ++ le_bytes 4 1
  ++ le_bytes 4 40 ++ le_bytes 4 0
  (* an attribute *)
  ++ le_bytes 2 12 ++ le_bytes 2 8 ++ le_bytes 1 0 ++ le_bytes 3 0
  ++ le_bytes 8 0
  (* a continuation message *)
  ++ le_bytes 2 1 ++ le_bytes 2 16 ++ le_bytes 1 0 ++ le_bytes 3 0
  ++ le_bytes 8 2048 ++ le_bytes 8 24.

Definition disk_chunk1 : list Byte.byte :=
  le_bytes 2 0 ++ le_bytes 2 16 ++ le_bytes 1 0 ++ le_bytes 3 0
  ++ le_bytes 16 0.

Program Definition wire : H5Owire nat :=
  {| uint_decode := le_uint;
     uint_decode_range := _;
     H5O_HDR_MAGIC := [Byte.x4f; Byte.x48; Byte.x44; Byte.x52];
     H5O_CHK_MAGIC := [Byte.x4f; Byte.x43; Byte.x48; Byte.x4b];
     H5_checksum_metadata bs := le_uint bs mod 2 ^ 32;
     H5O_msg_class_g id :=
       if id <? H5O_MSG_TYPES then Some (Z.to_nat id) else None;
     H5O_MSG_UNKNOWN := 26%nat;
     H5O_MSG_FLAG_FAIL_IF_UNKNOWN := 0x08;
     H5F_block_read addr len :=
       if (addr =? 2048) && (len =? 24) then Some disk_chunk1 else None |}.
Next Obligation.
  intros bs. induction bs as [|b bs IH]; [done|].
  cbn [le_uint foldr length]. fold (le_uint bs).
  pose proof (Byte.to_N_bounded b) as Hb.
  rewrite Nat2Z.inj_succ, Z.pow_succ_r by lia. lia.
Qed.

End Sample.

(** ** File-level layout macros ([H5Opkg.h]) *)

(** The macros [H5O_ALIGN_F] and [H5O_SIZEOF_MSGHDR_F] choose the version
    of the format from the file instead of from a header, through two
    macros of [H5Fprivate.h]: [H5F_USE_LATEST_FLAGS (F, FL)] and
    [H5F_STORE_MSG_CRT_IDX (F)], both used as C conditions. *)
Class H5Fprivate (H5F_t : Type) := {
  H5F_USE_LATEST_FLAGS : H5F_t -> Z -> Z;
  H5F_LATEST_OBJ_HEADER : Z;
  H5F_STORE_MSG_CRT_IDX : H5F_t -> Z
}.

Section H5Opkg_F.

Context {H5F_t : Type} `{!H5Fprivate H5F_t}.

Definition H5O_ALIGN_F (ty : Z -> Z) (F : H5F_t) (X : Z) : Z :=
  H5O_ALIGN_VERS ty
    (if Cint.truth (H5F_USE_LATEST_FLAGS F H5F_LATEST_OBJ_HEADER)
     then H5O_VERSION_LATEST else H5O_VERSION_1)
    X.

Definition H5O_SIZEOF_MSGHDR_F (F : H5F_t) (C : Z) : Z :=
  H5O_SIZEOF_MSGHDR_VERS
    (if Cint.truth (H5F_USE_LATEST_FLAGS F H5F_LATEST_OBJ_HEADER)
        || Cint.truth (H5F_STORE_MSG_CRT_IDX F)
     then H5O_VERSION_LATEST else H5O_VERSION_1)
    C.

End H5Opkg_F.

(** The same library built with or without [NDEBUG]: the environment [e]
    with its build option replaced. *)
Definition H5Oenv_build {H5F_t Native class_ptr : Type}
    (e : H5Oenv H5F_t Native class_ptr) (ndebug : bool)
  : H5Oenv H5F_t Native class_ptr :=
  {| class_at := @class_at _ _ _ e;
     H5F_get_intent := @H5F_get_intent _ _ _ e;
     H5O_UPDATE_SHARED := @H5O_UPDATE_SHARED _ _ _ e;
     NDEBUG := ndebug |}.

(** ** The read-only S3 file driver ([H5FDros3.c])

    The file is modelled in the state in which
    [H5FD_ros3_validate_config] checks the authentication data.  Every
    function of the driver first prints a trace line on [stdout];
    the output stream is not part of the state modelled here.  A function
    is modelled between [FUNC_ENTER_*] and [FUNC_LEAVE_*]; its result is
    [None] where an [HDassert] fails or a null pointer is dereferenced. *)

(** [strcmp]: the C standard fixes the sign of its result only. *)
Class Cstring := {
  strcmp : string -> string -> Z;
  strcmp_sgn : forall a b, Z.sgn (strcmp a b) = Cint.strcmp a b
}.

(** Types and constants declared outside the file: the width in bits of
    [haddr_t] and the undefined address ([H5public.h]), the size in bytes
    of [HDoff_t] and the truth value [TRUE] ([H5private.h]), the version
    of the configuration structure ([H5FDros3.h]) and the class of file
    access property lists ([H5Ppublic.h]). *)
Class H5FDpublic := {
  haddr_bits : Z;
  HADDR_UNDEF : Z;
  sizeof_HDoff_t : Z;
  TRUE : Z;
  H5FD__CURR_ROS3_FAPL_T_VERSION : Z;
  H5P_FILE_ACCESS : Z
}.

(** The URL a file was opened with, parsed ([parsed_url_t],
    [H5FDs3comms.h]): each component is a string or a null pointer. *)
Record parsed_url_t := mk_purl {
  url_scheme : option string;
  url_host : option string;
  url_port : option string;
  url_path : option string;
  url_query : option string
}.

(** The S3 request handle ([s3r_t], [H5FDs3comms.h]), of which the driver
    reads the parsed URL and the size of the object. *)
Record s3r_t := mk_s3r {
  s3r_purl : option parsed_url_t;
  s3r_filesize : Z
}.

(** The configuration of the driver ([H5FD_ros3_fapl_t], [H5FDros3.h]). *)
Record H5FD_ros3_fapl_t := mk_ros3_fapl {
  fa_version : Z;
  fa_authenticate : Z;
  fa_aws_region : string;
  fa_secret_id : string;
  fa_secret_key : string
}.

(** [struct H5FD_ros3_t], without the public part. *)
Record H5FD_ros3_t := mk_ros3 {
  ros3_fa : H5FD_ros3_fapl_t;
  ros3_s3r_handle : option s3r_t
}.

(** The functions of other files that the driver calls.  [W] is the state
    they work on (property lists, registered drivers, the connection to
    the S3 service), [P] the type of property lists.
    [H5FD_s3comms_s3r_read handle addr size buf] returns its return value
    and the buffer after the call; [H5FD_ROS3] is the macro that yields
    the identifier of the driver. *)
Class H5FDs3comms (W P : Type) := {
  H5P_object_verify : Z -> Z -> W -> option P;
  H5P_set_driver : P -> Z -> H5FD_ros3_fapl_t -> W -> Z * W;
  H5FD_ROS3 : W -> Z * W;
  H5FD_s3comms_s3r_read :
    s3r_t -> Z -> Z -> list Byte.byte -> W -> Z * list Byte.byte * W
}.

(** What [H5FD_ros3_open], [H5Pget_fapl_ros3] and [H5FD_ros3_fapl_get]
    call besides.  [TM] is the type of broken-down times.  An allocation
    returns whether it succeeded; [ISO8601NOW] returns its value and the
    string it writes, [H5FD_s3comms_signing_key] its value and the key it
    writes.  The last argument but one of [H5FD_s3comms_s3r_open] is the
    signing key: [None] for a null pointer, [Some None] for a buffer that
    was never written, [Some (Some k)] for a buffer holding [k]. *)
Class H5FDs3open (W P TM : Type) := {
  H5F_ACC_RDONLY : Z;
  CURLE_OK : Z;
  ISO8601_SIZE : Z;
  H5P_peek_driver : P -> Z;
  H5P_peek_driver_info : P -> option H5FD_ros3_fapl_t;
  malloc : W -> bool * W;
  free : W -> W;
  H5FL_CALLOC : W -> bool * W;
  H5MM_calloc : W -> bool * W;
  curl_global_init : W -> Z * W;
  gmnow : W -> option TM * W;
  ISO8601NOW : TM -> Z * string;
  H5FD_s3comms_signing_key : string -> string -> string -> Z * list Byte.byte;
  H5FD_s3comms_s3r_open :
    string -> option string -> option string ->
    option (option (list Byte.byte)) -> W -> option s3r_t * W;
  H5FD_s3comms_s3r_close : s3r_t -> W -> Z * W
}.

(** A structure of type [H5FD_ros3_fapl_t] filled with zero bytes. *)
Definition zero_fapl : H5FD_ros3_fapl_t := mk_ros3_fapl 0 0 "" "" "".

(** [s[0]] for a character array holding the string [s]. *)
Definition first_char (s : string) : Z :=
  match s with
  | EmptyString => 0
  | String c _ => Z.of_N (N_of_ascii c)
  end.

Section H5FDros3.

Context {H5private0 : H5private} {H5FDpublic0 : H5FDpublic}.
Context {Cstring0 : Cstring}.
Context {W P : Type} `{!H5FDs3comms W P}.

(** [#define MAXADDR (((haddr_t)1<<(8*sizeof(HDoff_t)-1))-1)] *)
Definition MAXADDR : Z :=
  Cint.unsigned haddr_bits
    (Cint.unsigned haddr_bits (Z.shiftl 1 (8 * sizeof_HDoff_t - 1)) - 1).

(** [#define ADDR_OVERFLOW(A) (HADDR_UNDEF==(A) || ((A) & ~(haddr_t)MAXADDR))] *)
Definition ADDR_OVERFLOW (A : Z) : bool :=
  (HADDR_UNDEF =? A)
  || Cint.truth (Z.land A (Cint.unsigned haddr_bits (Z.lnot MAXADDR))).

(** [static herr_t H5FD_ros3_validate_config(const H5FD_ros3_fapl_t * fa)],
    for a non-null [fa]. *)
Definition H5FD_ros3_validate_config (fa : H5FD_ros3_fapl_t) : Z :=
  if negb (fa_version fa =? H5FD__CURR_ROS3_FAPL_T_VERSION) then FAIL
  else
    (* if set to authenticate, region and id cannot be empty strings *)
    if (fa_authenticate fa =? TRUE)
       && ((first_char (fa_aws_region fa) =? 0)
           || (first_char (fa_secret_id fa) =? 0))
    then FAIL
    else SUCCEED.

(** [herr_t H5Pset_fapl_ros3(hid_t fapl_id, H5FD_ros3_fapl_t *fa)]; [fa]
    is [None] for a null pointer, which [H5FD_ros3_validate_config]
    asserts against. *)
Definition H5Pset_fapl_ros3 (fapl_id : Z) (fa : option H5FD_ros3_fapl_t)
    (w : W) : option (Z * W) :=
  match H5P_object_verify fapl_id H5P_FILE_ACCESS w with
  | None => Some (FAIL, w)
  | Some plist =>
    match fa with
    | None => None
    | Some fa =>
      if FAIL =? H5FD_ros3_validate_config fa then Some (FAIL, w)
      else
        let '(driver, w) := H5FD_ROS3 w in
        Some (H5P_set_driver plist driver fa w)
    end
  end.

(** [static int H5FD_ros3_cmp(const H5FD_t *_f1, const H5FD_t *_f2)] *)
Definition H5FD_ros3_cmp (f1 f2 : H5FD_ros3_t) : option Z :=
  h1 ← ros3_s3r_handle f1;
  h2 ← ros3_s3r_handle f2;
  purl1 ← s3r_purl h1;
  purl2 ← s3r_purl h2;
  scheme1 ← url_scheme purl1;
  scheme2 ← url_scheme purl2;
  host1 ← url_host purl1;
  host2 ← url_host purl2;
  let ret_value := strcmp scheme1 scheme2 in
  let ret_value :=
    if 0 =? ret_value then strcmp host1 host2 else ret_value in
  let ret_value :=
    if 0 =? ret_value then
      match url_port purl1, url_port purl2 with
      | Some port1, Some port2 => strcmp port1 port2
      | Some _, None => 1
      | None, Some _ => -1
      | None, None => ret_value
      end
    else ret_value in
  let ret_value :=
    if 0 =? ret_value then
      match url_path purl1, url_path purl2 with
      | Some path1, Some path2 => strcmp path1 path2
      | Some _, None => 1
      | None, Some _ => -1
      | None, None => ret_value
      end
    else ret_value in
  let ret_value :=
    if 0 =? ret_value then
      match url_query purl1, url_query purl2 with
      | Some query1, Some query2 => strcmp query1 query2
      | Some _, None => 1
      | None, Some _ => -1
      | None, None => ret_value
      end
    else ret_value in
  (* constrain to -1, 0, 1 *)
  Some (if ret_value <? 0 then -1
        else if ret_value >? 0 then 1
        else ret_value).

(** The part of the driver that opens files. *)
Section Open.

Context {TM : Type} `{!H5FDs3open W P TM}.

(** [herr_t H5Pget_fapl_ros3(hid_t fapl_id, H5FD_ros3_fapl_t *fa_out)];
    the argument [fa_out] tells whether the pointer is non-null, the
    second result is the structure copied through it. *)
Definition H5Pget_fapl_ros3 (fapl_id : Z) (fa_out : bool) (w : W)
  : Z * option H5FD_ros3_fapl_t * W :=
  match H5P_object_verify fapl_id H5P_FILE_ACCESS w with
  | None => (FAIL, None, w)
  | Some plist =>
    let '(driver, w) := H5FD_ROS3 w in
    if negb (driver =? H5P_peek_driver plist) then (FAIL, None, w)
    else
      match H5P_peek_driver_info plist with
      | None => (FAIL, None, w)
      | Some fa =>
        if negb fa_out then (FAIL, None, w)
        else
          (* Copy the ros3 fapl data out *)
          (SUCCEED, Some fa, w)
      end
  end.

(** [static void *H5FD_ros3_fapl_get(H5FD_t *_file)] *)
Definition H5FD_ros3_fapl_get (file : H5FD_ros3_t) (w : W)
  : option H5FD_ros3_fapl_t * W :=
  let '(ok, w) := H5MM_calloc w in
  if negb ok then (None, w)
  else
    (* Copy the fields of the structure *)
    (Some (ros3_fa file), w).

(** [static H5FD_t *H5FD_ros3_open(const char *url, unsigned flags,
    hid_t fapl_id, haddr_t maxaddr)], in a library built with [NDEBUG]
    ([ndebug = true]) or without.  The result is [None] where an
    [HDassert] fails; an [HDassert] and the calls inside of it are
    compiled only without [NDEBUG].  The label [done] frees the copy of
    the configuration and, when the function fails with an open handle,
    closes the handle inside of an [HDassert]. *)
Definition H5FD_ros3_open (ndebug : bool) (url : option string) (flags : Z)
    (fapl_id : Z) (maxaddr : Z) (w : W)
  : option (option H5FD_ros3_t * W) :=
  (* Check arguments *)
  match url with
  | None => Some (None, w)
  | Some url =>
    if first_char url =? 0 then Some (None, w)
    else if (0 =? maxaddr) || (HADDR_UNDEF =? maxaddr) then Some (None, w)
    else if ADDR_OVERFLOW maxaddr then Some (None, w)
    else if negb (flags =? H5F_ACC_RDONLY) then Some (None, w)
    else
      let '(ok, w) := malloc w in
      if negb ok then Some (None, w)
      else
        let '(r, plist, w) := H5Pget_fapl_ros3 fapl_id true w in
        if FAIL =? r then Some (None, free w)
        else
          plist ← plist;
          w ← (if ndebug then Some w
               else
                 let '(c, w) := curl_global_init w in
                 if CURLE_OK =? c then Some w else None);
          (* open file; procedure depends on whether or not the fapl
             instructs to authenticate requests or not *)
          '(handle, w) ←
            (if fa_authenticate plist =? TRUE then
               let '(now, w) := gmnow w in
               if ndebug then
                 Some (H5FD_s3comms_s3r_open url
                         (Some (fa_aws_region plist))
                         (Some (fa_secret_id plist)) (Some None) w)
               else
                 now ← now;
                 let '(n, iso8601now) := ISO8601NOW now in
                 if negb (n =? ISO8601_SIZE - 1) then None
                 else
                   let '(k, signing_key) :=
                     H5FD_s3comms_signing_key (fa_secret_key plist)
                       (fa_aws_region plist) iso8601now in
                   if negb (SUCCEED =? k) then None
                   else
                     Some (H5FD_s3comms_s3r_open url
                             (Some (fa_aws_region plist))
                             (Some (fa_secret_id plist))
                             (Some (Some signing_key)) w)
             else Some (H5FD_s3comms_s3r_open url None None None w));
          match handle with
          | None => Some (None, free w)
          | Some handle =>
            (* create new file struct *)
            let '(ok, w) := H5FL_CALLOC w in
            if negb ok then
              let w := free w in
              if ndebug then Some (None, w)
              else
                let '(c, w) := H5FD_s3comms_s3r_close handle w in
                if SUCCEED =? c then Some (None, w) else None
            else
              Some (Some (mk_ros3 zero_fapl (Some handle)), free w)
          end
  end.

End Open.

(** [static haddr_t H5FD_ros3_get_eoa(const H5FD_t *_file, H5FD_mem_t type)] *)
Definition H5FD_ros3_get_eoa (file : H5FD_ros3_t) (type : Z) : option Z :=
  h ← ros3_s3r_handle file; Some (s3r_filesize h).

(** [static herr_t H5FD_ros3_set_eoa(H5FD_t *_file, H5FD_mem_t type, haddr_t addr)] *)
Definition H5FD_ros3_set_eoa (file : H5FD_ros3_t) (type : Z) (addr : Z)
  : Z * H5FD_ros3_t :=
  let ret_value := SUCCEED in
  (ret_value, file).

(** [static haddr_t H5FD_ros3_get_eof(const H5FD_t *_file, H5FD_mem_t type)] *)
Definition H5FD_ros3_get_eof (file : H5FD_ros3_t) (type : Z) : option Z :=
  h ← ros3_s3r_handle file; Some (s3r_filesize h).

(** [static herr_t H5FD_ros3_read(H5FD_t *_file, H5FD_mem_t type, hid_t dxpl_id,
    haddr_t addr, size_t size, void *buf)], for a non-null [buf].  The sum
    [addr + size] is computed in [haddr_t], [size_t] being no wider. *)
Definition H5FD_ros3_read (file : H5FD_ros3_t) (type dxpl_id : Z)
    (addr size : Z) (buf : list Byte.byte) (w : W)
  : option (Z * list Byte.byte * H5FD_ros3_t * W) :=
  h ← ros3_s3r_handle file;
  if (addr >? s3r_filesize h)
     || (Cint.unsigned haddr_bits (addr + size) >? s3r_filesize h)
  then Some (FAIL, buf, file, w)
  else
    let '(r, buf, w) := H5FD_s3comms_s3r_read h addr size buf w in
    if FAIL =? r then Some (FAIL, buf, file, w)
    else Some (SUCCEED, buf, file, w).

(** [static herr_t H5FD_ros3_write(H5FD_t *_file, H5FD_mem_t type, hid_t dxpl_id,
    haddr_t addr, size_t size, const void *buf)] *)
Definition H5FD_ros3_write (file : H5FD_ros3_t) (type dxpl_id : Z)
    (addr size : Z) (buf : list Byte.byte) (w : W)
  : Z * H5FD_ros3_t * W :=
  (FAIL, file, w).

(** [static herr_t H5FD_ros3_truncate(H5FD_t *_file, hid_t dxpl_id, hbool_t closing)] *)
Definition H5FD_ros3_truncate (file : H5FD_ros3_t) (dxpl_id : Z)
    (closing : bool) (w : W) : Z * H5FD_ros3_t * W :=
  (FAIL, file, w).

(** [static herr_t H5FD_ros3_lock(H5FD_t *_file, hbool_t rw)] *)
Definition H5FD_ros3_lock (file : H5FD_ros3_t) (rw : bool) (w : W)
  : Z * H5FD_ros3_t * W :=
  (SUCCEED, file, w).

(** [static herr_t H5FD_ros3_unlock(H5FD_t *_file)] *)
Definition H5FD_ros3_unlock (file : H5FD_ros3_t) (w : W)
  : Z * H5FD_ros3_t * W :=
  (SUCCEED, file, w).

End H5FDros3.

(** The order of two components of a URL: a null component comes before
    a string, and strings are ordered as [strcmp] orders them. *)
Definition component_cmp (a b : option string) : Z :=
  match a, b with
  | Some x, Some y => Cint.strcmp x y
  | Some _, None => 1
  | None, Some _ => -1
  | None, None => 0
  end.

(** The components of a URL in the order in which they are compared, and
    the lexicographic order on them. *)
Definition url_components (u : parsed_url_t) : list (option string) :=
  [url_scheme u; url_host u; url_port u; url_path u; url_query u].

(** The parsed URL of a file on which the assertions of [H5FD_ros3_cmp]
    hold: the handle, the parsed URL, its scheme and its host are not
    null. *)
Definition ros3_url (f : H5FD_ros3_t) : option parsed_url_t :=
  h ← ros3_s3r_handle f;
  u ← s3r_purl h;
  _ ← url_scheme u;
  _ ← url_host u;
  Some u.

Fixpoint lex_cmp (l1 l2 : list (option string)) : Z :=
  match l1, l2 with
  | a :: l1, b :: l2 =>
    if component_cmp a b =? 0 then lex_cmp l1 l2 else component_cmp a b
  | _, _ => 0
  end.

(** ** Sample values for the file-level macros and the driver *)

Module SampleS3.





(** A file is represented by two flags: bit 0, the latest format is in
    use; bit 1, creation indices of messages are stored. *)
Definition file_flags : H5Fprivate Z :=
  {| H5F_USE_LATEST_FLAGS F FL := Z.land F FL;
     H5F_LATEST_OBJ_HEADER := 0x01;
     H5F_STORE_MSG_CRT_IDX F := Z.land F 0x02 |}.

(** A [strcmp] whose results are -3, 0 and 3. *)
Program Definition libc : Cstring :=
  {| strcmp a b := 3 * Cint.strcmp a b; strcmp_sgn := _ |}.
Next Obligation.
  intros a b. unfold Cint.strcmp.
  destruct (String.eqb a b); [done|]. by destruct (String.compare a b).
Qed.

(** A 64-bit address space with 64-bit file offsets. *)
Definition consts : H5FDpublic :=
  {| haddr_bits := 64;
     HADDR_UNDEF := 2 ^ 64 - 1;
     sizeof_HDoff_t := 8;
     TRUE := 1;
     H5FD__CURR_ROS3_FAPL_T_VERSION := 1;
     H5P_FILE_ACCESS := 7 |}.

(** The state of the rest of the library: the driver recorded in the one
    property list there is (identifier 10), and the requests sent to the
    S3 service.  The object served consists of zero bytes. *)
Record world := mk_world {
  driver : option (Z * H5FD_ros3_fapl_t);
  requests : list (Z * Z)
}.

Definition s3 : H5FDs3comms world (option (Z * H5FD_ros3_fapl_t)) :=
  {| H5P_object_verify id cls w :=
       if (id =? 10) && (cls =? 7) then Some (driver w) else None;
     H5P_set_driver _ drv fa w := (0, mk_world (Some (drv, fa)) (requests w));
     H5FD_ROS3 w := (77, w);
     H5FD_s3comms_s3r_read h addr size buf w :=
       (0, replicate (Z.to_nat size) Byte.x00 ++ drop (Z.to_nat size) buf,
        mk_world (driver w) (requests w ++ [(addr, size)])) |}.

(** Allocations succeed, the time is a number of seconds, the signing
    key is one byte, and the object at any URL has 100 bytes. *)
Definition s3_open : H5FDs3open world (option (Z * H5FD_ros3_fapl_t)) Z :=
  {| H5F_ACC_RDONLY := 0;
     CURLE_OK := 0;
     ISO8601_SIZE := 17;
     H5P_peek_driver plist := match plist with Some (d, _) => d | None => -1 end;
     H5P_peek_driver_info plist := snd <$> plist;
     malloc w := (true, w);
     free w := w;
     H5FL_CALLOC w := (true, w);
     H5MM_calloc w := (true, w);
     curl_global_init w := (0, w);
     gmnow w := (Some 0, w);
     ISO8601NOW _ := (16, "20170713T145903Z"%string);
     H5FD_s3comms_signing_key _ _ _ := (0, [Byte.x2a]);
     H5FD_s3comms_s3r_open url _ _ _ w :=
       (Some (mk_s3r (Some (mk_purl (Some url) (Some ""%string) None None None))
                     100), w);
     H5FD_s3comms_s3r_close _ w := (0, w) |}.

Definition url (port path : option string) : parsed_url_t :=
  mk_purl (Some "https"%string) (Some "bucket.example.org"%string) port path None.

Definition file (u : parsed_url_t) (size : Z) : H5FD_ros3_t :=
  mk_ros3 zero_fapl (Some (mk_s3r (Some u) size)).

End SampleS3.


(** * Properties *)

(** ** Alignment *)

Lemma quot8_div (z : Z) : 0 <= z -> z ÷ 8 = z / 8.
Proof. intros Hz. apply Z.quot_div_nonneg; lia. Qed.

(** In exact arithmetic the old alignment is the usual rounding up. *)
Lemma H5O_ALIGN_OLD_exact (X : Z) :
  0 <= X -> H5O_ALIGN_OLD Cint.exact X = 8 * ((X + 7) / 8).
Proof.
  intros HX. unfold H5O_ALIGN_OLD, Cint.exact. rewrite quot8_div by lia. done.
Qed.

(** An unsigned type does not change a value it can hold. *)
Lemma unsigned_small (bits z : Z) :
  0 <= z <= Cint.umax bits -> Cint.unsigned bits z = z.
Proof.
  unfold Cint.unsigned, Cint.umax. intros Hz. apply Z.mod_small. lia.
Qed.

(** Where [X + 7] does not wrap around, the unsigned computation agrees
    with the exact one. *)
Lemma H5O_ALIGN_OLD_unsigned (bits X : Z) :
  0 <= X -> X + 7 <= Cint.umax bits ->
  H5O_ALIGN_OLD (Cint.unsigned bits) X = 8 * ((X + 7) / 8).
Proof.
  intros HX Hmax. unfold H5O_ALIGN_OLD.
  rewrite (unsigned_small bits (X + 7)) by lia.
  rewrite quot8_div by lia.
  assert (0 <= (X + 7) / 8 <= X + 7).
  { split; [apply Z.div_pos; lia|]. apply Z.div_le_upper_bound; lia. }
  assert (8 * ((X + 7) / 8) <= X + 7) by (apply Z.mul_div_le; lia).
  rewrite (unsigned_small bits ((X + 7) / 8)) by lia.
  apply unsigned_small. lia.
Qed.

(** The rounding up to a multiple of 8, characterised. *)
Lemma round_up_8 (X : Z) :
  let A := 8 * ((X + 7) / 8) in
  (8 | A) /\ X <= A < X + 8 /\ (forall m, (8 | m) -> X <= m -> A <= m).
Proof.
  intros A. subst A.
  pose proof (Z.div_mod (X + 7) 8 ltac:(lia)) as Hdm.
  pose proof (Z.mod_pos_bound (X + 7) 8 ltac:(lia)) as Hb.
  split; [exists ((X + 7) / 8); lia|].
  split; [lia|].
  intros m [k ->] Hm.
  assert ((X + 7) / 8 < k + 1); [|lia].
  apply Z.div_lt_upper_bound; lia.
Qed.

Lemma round_up_8_fixed (A : Z) : (8 | A) -> 8 * ((A + 7) / 8) = A.
Proof.
  intros [k ->].
  replace (k * 8 + 7) with (7 + k * 8) by lia.
  rewrite Z.div_add by lia. change (7 / 8) with 0. lia.
Qed.

(** C7, as stated, fails in [size_t]: for a 64-bit [size_t] and the size
    [X = 2^64 - 1] (a value of the type), [X + 7] wraps around to 6 and
    the version-1 alignment is 0, which is below [X]. *)
Lemma H5O_ALIGN_size_max_wraps :
  0 <= 2 ^ 64 - 1 <= Cint.umax 64 /\
  H5O_ALIGN_VERS (Cint.unsigned 64) H5O_VERSION_1 (2 ^ 64 - 1) = 0 /\
  ~ aligns_to_8 (Cint.unsigned 64) (2 ^ 64 - 1).
Proof.
  split; [unfold Cint.umax; lia|].
  split; [reflexivity|].
  intros (_ & Hle & _).
  change (H5O_ALIGN_VERS (Cint.unsigned 64) H5O_VERSION_1 (2 ^ 64 - 1)) with 0 in Hle.
  lia.
Qed.

(** C7 (amended): for every non-negative size [X] of an unsigned type of
    [bits] bits such that [X + 7] does not exceed the largest value of
    the type, the version-1 alignment is the least multiple of 8 that is
    at least [X] (a multiple of 8, at least [X], below [X + 8]), aligning
    twice is aligning once, and the version-2 alignment is the
    identity. *)
Theorem H5O_ALIGN_VERS_least_multiple (bits X : Z) :
  0 <= X -> X + 7 <= Cint.umax bits ->
  aligns_to_8 (Cint.unsigned bits) X.
Proof.
  intros HX Hmax.
  destruct (round_up_8 X) as (Hdiv & Hrange & Hleast).
  assert (H5O_ALIGN_VERS (Cint.unsigned bits) H5O_VERSION_1 X
          = 8 * ((X + 7) / 8)) as HA
    by (apply H5O_ALIGN_OLD_unsigned; done).
  unfold aligns_to_8. rewrite HA.
  repeat split; try done; try lia.
  unfold H5O_ALIGN_VERS. change (H5O_VERSION_1 =? H5O_VERSION_1) with true.
  cbv iota.
  rewrite H5O_ALIGN_OLD_unsigned; [by apply round_up_8_fixed|lia|].
  (* a multiple of 8 below 2^bits leaves room for 7 more *)
  unfold Cint.umax in *.
  destruct (Z.le_gt_cases 3 bits) as [Hb|Hb].
  - assert ((8 | 2 ^ bits)) as [q Hq].
    { exists (2 ^ (bits - 3)). replace bits with ((bits - 3) + 3) at 1 by lia.
      rewrite Z.pow_add_r by lia. reflexivity. }
    destruct Hdiv as [k Hk]. lia.
  - assert (2 ^ bits <= 2 ^ 2) by (destruct (Z.le_gt_cases 0 bits);
      [apply Z.pow_le_mono_r; lia | rewrite Z.pow_neg_r by lia; lia]).
    lia.
Qed.

Lemma H5O_ALIGN_VERS_least_multiple_witness :
  aligns_to_8 (Cint.unsigned 64) 13.
Proof.
  apply (H5O_ALIGN_VERS_least_multiple 64 13); unfold Cint.umax; lia.
Defined.

(** ** Sizes of the prefix and of the message header *)

Lemma shiftl_chunk0_width (flags : Z) :
  let w := Z.shiftl 1 (Z.land flags H5O_HDR_CHUNK0_SIZE) in
  w = 2 ^ Z.land flags 3 /\ (w = 1 \/ w = 2 \/ w = 4 \/ w = 8).
Proof.
  unfold H5O_HDR_CHUNK0_SIZE. cbv zeta.
  change 3 with (Z.ones 2). rewrite Z.land_ones by lia.
  pose proof (Z.mod_pos_bound flags (2 ^ 2) ltac:(lia)) as Hb.
  rewrite Z.shiftl_1_l. split; [done|].
  assert (flags mod 2 ^ 2 = 0 \/ flags mod 2 ^ 2 = 1 \/
          flags mod 2 ^ 2 = 2 \/ flags mod 2 ^ 2 = 3) as Hc
    by (change (2 ^ 2) with 4 in *; lia).
  destruct Hc as [-> | [-> | [-> | ->]]]; cbn; lia.
Qed.

Section Sizes.

Context `{H5Opublic} {Native class_ptr : Type}.
Implicit Types O : H5O_t Native class_ptr.

(** C3: the prefix of a version-1 header is the 8-byte-aligned sum
    1 + 1 + 2 + 4 + 4 = 16 bytes, and its chunks carry neither magic
    number nor checksum; the prefix of a version-2 header is the magic
    number, 1 + 1 bytes, 16 bytes iff the store-times flag is set, 4 bytes
    iff the attribute-phase-change flag is set, a chunk-0 size field of
    1, 2, 4 or 8 bytes, namely 2 to the power of the low two bits of the
    flags, and 4 bytes of checksum. *)
Theorem H5O_SIZEOF_HDR_layout O :
  (oh_version O = H5O_VERSION_1 ->
     H5O_SIZEOF_HDR O
       = H5O_ALIGN_VERS Cint.exact H5O_VERSION_1 (1 + 1 + 2 + 4 + 4) /\
     H5O_SIZEOF_HDR O = 16 /\
     H5O_SIZEOF_CHKHDR_OH O = 0 /\ H5O_SIZEOF_CHKSUM_OH O = 0) /\
  (oh_version O = H5O_VERSION_2 ->
     let width := 2 ^ Z.land (oh_flags O) 3 in
     (width = 1 \/ width = 2 \/ width = 4 \/ width = 8) /\
     H5O_SIZEOF_HDR O
       = H5_SIZEOF_MAGIC + 1 + 1
         + (if flag_set (oh_flags O) H5O_HDR_STORE_TIMES then 16 else 0)
         + (if flag_set (oh_flags O) H5O_HDR_ATTR_STORE_PHASE_CHANGE
            then 4 else 0)
         + width + 4).
Proof.
  split; intros Hv.
  - unfold H5O_SIZEOF_HDR, H5O_SIZEOF_CHKHDR_OH, H5O_SIZEOF_CHKSUM_OH,
      H5O_SIZEOF_CHKHDR_VERS, H5O_SIZEOF_CHKSUM_VERS.
    rewrite Hv. repeat split; reflexivity.
  - destruct (shiftl_chunk0_width (oh_flags O)) as [Hw Hcases].
    cbv zeta in *. rewrite <- Hw. split; [done|].
    unfold H5O_SIZEOF_HDR, flag_set. rewrite Hv.
    change (H5O_VERSION_2 =? H5O_VERSION_1) with false. cbv iota.
    unfold H5O_SIZEOF_CHKSUM.
    repeat case_match; lia.
Qed.

(** C4: the header of a message takes, in version 1, the 8-byte-aligned
    sum 2 + 2 + 1 + 3 = 8 bytes; in version 2, 1 + 2 + 1 = 4 bytes without
    padding, and 2 more bytes for the creation index exactly when the
    header's attribute-creation-order-tracked flag is set (6 bytes). *)
Theorem H5O_SIZEOF_MSGHDR_layout O :
  (oh_version O = H5O_VERSION_1 ->
     H5O_SIZEOF_MSGHDR_OH O
       = H5O_ALIGN_VERS Cint.exact H5O_VERSION_1 (2 + 2 + 1 + 3) /\
     H5O_SIZEOF_MSGHDR_OH O = 8) /\
  (oh_version O = H5O_VERSION_2 ->
     H5O_SIZEOF_MSGHDR_OH O
       = 1 + 2 + 1
         + (if flag_set (oh_flags O) H5O_HDR_ATTR_CRT_ORDER_TRACKED
            then 2 else 0) /\
     (flag_set (oh_flags O) H5O_HDR_ATTR_CRT_ORDER_TRACKED = true <->
        H5O_SIZEOF_MSGHDR_OH O = 6) /\
     (flag_set (oh_flags O) H5O_HDR_ATTR_CRT_ORDER_TRACKED = false <->
        H5O_SIZEOF_MSGHDR_OH O = 4)).
Proof.
  unfold H5O_SIZEOF_MSGHDR_OH, H5O_SIZEOF_MSGHDR_VERS, flag_set.
  split; intros ->.
  - split; reflexivity.
  - change (H5O_VERSION_2 =? H5O_VERSION_1) with false. cbv iota.
    destruct (Cint.truth _); repeat split; intros; try done; try lia.
Qed.

End Sizes.

Lemma H5O_SIZEOF_HDR_layout_witness :
  H5O_SIZEOF_HDR (H := Sample.flags) Sample.oh1 = 16 /\
  H5O_SIZEOF_HDR (H := Sample.flags) Sample.oh2 = 4 + 1 + 1 + 16 + 0 + 2 + 4.
Proof.
  pose proof (H5O_SIZEOF_HDR_layout (H := Sample.flags) Sample.oh1) as [H1 _].
  pose proof (H5O_SIZEOF_HDR_layout (H := Sample.flags) Sample.oh2) as [_ H2].
  destruct (H1 eq_refl) as (_ & H16 & _).
  destruct (H2 eq_refl) as (_ & Hsum).
  split; [exact H16 | exact Hsum].
Defined.

Lemma H5O_SIZEOF_MSGHDR_layout_witness :
  H5O_SIZEOF_MSGHDR_OH (H := Sample.flags) Sample.oh1 = 8 /\
  H5O_SIZEOF_MSGHDR_OH (H := Sample.flags) Sample.oh2 = 4.
Proof.
  pose proof (H5O_SIZEOF_MSGHDR_layout (H := Sample.flags) Sample.oh1) as [H1 _].
  pose proof (H5O_SIZEOF_MSGHDR_layout (H := Sample.flags) Sample.oh2) as [_ H2].
  destruct (H1 eq_refl) as (_ & H8).
  destruct (H2 eq_refl) as (Hsum & _).
  split; [exact H8 | exact Hsum].
Defined.

(** ** The plugin API *)

Lemma strcmp_zero (a b : string) : Cint.strcmp a b = 0 <-> a = b.
Proof.
  unfold Cint.strcmp. destruct (String.eqb_spec a b) as [->|Hne].
  - done.
  - split; [|done]. by destruct (String.compare a b).
Qed.

Section Plugin.

Context `{H5private} {T : Type} `{!H5PLpath T}.
Implicit Types s : H5PL_state T.

(** What [H5PLset_loading_state] stores, by cases on the environment. *)
Lemma H5PLset_loading_state_spec plugin_type s :
  H5PLset_loading_state plugin_type s
  = (SUCCEED,
     if bool_decide (HDgetenv s "HDF5_PLUGIN_PRELOAD" = Some H5PL_NO_PLUGIN)
     then set_plugin_g s 0 else set_plugin_g s plugin_type).
Proof.
  unfold H5PLset_loading_state. f_equal.
  change (HDgetenv (set_plugin_g s plugin_type)) with (HDgetenv s).
  destruct (HDgetenv s "HDF5_PLUGIN_PRELOAD") as [p|] eqn:Hp.
  - destruct (Cint.strcmp p H5PL_NO_PLUGIN =? 0) eqn:Hc.
    + apply Z.eqb_eq, strcmp_zero in Hc as ->.
      by rewrite bool_decide_eq_true_2.
    + apply Z.eqb_neq in Hc. rewrite strcmp_zero in Hc.
      rewrite bool_decide_eq_false_2; [done|congruence].
  - by rewrite bool_decide_eq_false_2.
Qed.

(** C5 (amended): when [HDF5_PLUGIN_PRELOAD] is unset or differs from
    ["::"], [H5PLset_loading_state] succeeds and, for every prior value
    of the global loading state and every argument, leaves the state
    equal to the argument: the stored value is replaced, so whenever the
    bitwise OR of the argument with the prior value differs from the
    argument, the state is not that OR. *)
Theorem H5PLset_loading_state_overwrites plugin_type s :
  HDgetenv s "HDF5_PLUGIN_PRELOAD" <> Some "::" ->
  let r := H5PLset_loading_state plugin_type s in
  0 <= r.1 /\
  H5PL_plugin_g r.2 = plugin_type /\
  (Z.lor plugin_type (H5PL_plugin_g s) <> plugin_type ->
   H5PL_plugin_g r.2 <> Z.lor plugin_type (H5PL_plugin_g s)).
Proof.
  intros Henv. cbv zeta. rewrite H5PLset_loading_state_spec.
  rewrite bool_decide_eq_false_2 by done. cbn.
  split; [apply SUCCEED_nonneg|]. split; [done|]. congruence.
Qed.

(** C9: when [HDF5_PLUGIN_PRELOAD] is set to ["::"],
    [H5PLset_loading_state] leaves the global loading state equal to 0
    whatever its argument, and returns success. *)
Theorem H5PLset_loading_state_no_plugin plugin_type s :
  HDgetenv s "HDF5_PLUGIN_PRELOAD" = Some "::" ->
  let r := H5PLset_loading_state plugin_type s in
  r.1 = SUCCEED /\ 0 <= r.1 /\ H5PL_plugin_g r.2 = 0 /\
  H5PL_paths r.2 = H5PL_paths s.
Proof.
  intros Henv. cbv zeta. rewrite H5PLset_loading_state_spec.
  rewrite bool_decide_eq_true_2 by done. cbn.
  repeat split. apply SUCCEED_nonneg.
Qed.

(** C10: when the path table is empty or the index is not below the
    number of stored paths, [H5PLreplace], [H5PLremove] and [H5PLget]
    return a negative value and leave the state, the path table in
    particular, as it was. *)
Theorem H5PL_index_out_of_range index s :
  H5PL__get_num_paths (H5PL_paths s) = 0 \/
  H5PL__get_num_paths (H5PL_paths s) <= index ->
  (forall search_path,
     (H5PLreplace search_path index s).1 < 0 /\
     (H5PLreplace search_path index s).2 = s) /\
  ((H5PLremove index s).1 < 0 /\ (H5PLremove index s).2 = s) /\
  (forall path_name size,
     exists r, H5PLget index path_name size s = Some (r, path_name, s) /\
               r < 0).
Proof.
  intros Hidx.
  assert ((0 =? H5PL__get_num_paths (H5PL_paths s)) = true \/
          (index >=? H5PL__get_num_paths (H5PL_paths s)) = true) as Hc.
  { destruct Hidx as [->|Hle]; [by left|right]. apply Z.geb_le. lia. }
  pose proof FAIL_neg.
  split; [|split].
  - intros [sp|]; [|done]. unfold H5PLreplace.
    destruct (String.length sp =? 0)%nat; [done|].
    destruct Hc as [-> | Hc]; [done|]. rewrite Hc.
    by destruct (0 =? _).
  - unfold H5PLremove. destruct Hc as [-> | Hc]; [done|]. rewrite Hc.
    by destruct (0 =? _).
  - intros path_name size. exists FAIL. unfold H5PLget.
    destruct Hc as [-> | Hc]; [done|]. rewrite Hc.
    by destruct (0 =? _).
Qed.

End Plugin.

(** C5, as stated, fails: with [HDF5_PLUGIN_PRELOAD] set to ["::"], prior
    state 0 and argument 1, the call succeeds and leaves the state 0, not
    the argument. *)
Lemma H5PLset_loading_state_not_argument :
  let s := mk_H5PL 0 ([] : list string) (Sample.preload "::") in
  let r := H5PLset_loading_state (H := Sample.herr) 1 s in
  0 <= r.1 /\ H5PL_plugin_g r.2 = 0 /\ H5PL_plugin_g r.2 <> 1.
Proof. cbn. repeat split; lia. Qed.

Lemma H5PLset_loading_state_overwrites_witness :
  let s := mk_H5PL 6 ([] : list string) Sample.no_env in
  let r := H5PLset_loading_state (H := Sample.herr) 1 s in
  0 <= r.1 /\ H5PL_plugin_g r.2 = 1 /\
  (Z.lor 1 6 <> 1 -> H5PL_plugin_g r.2 <> Z.lor 1 6).
Proof.
  apply (H5PLset_loading_state_overwrites (H := Sample.herr) 1
           (mk_H5PL 6 ([] : list string) Sample.no_env)).
  discriminate.
Defined.

Lemma H5PLset_loading_state_no_plugin_witness :
  let s := mk_H5PL 6 ["/usr/lib/plugin"%string] (Sample.preload "::") in
  let r := H5PLset_loading_state (H := Sample.herr) 5 s in
  r.1 = 0 /\ 0 <= r.1 /\ H5PL_plugin_g r.2 = 0 /\
  H5PL_paths r.2 = ["/usr/lib/plugin"%string].
Proof.
  apply (H5PLset_loading_state_no_plugin (H := Sample.herr) 5
           (mk_H5PL 6 ["/usr/lib/plugin"%string] (Sample.preload "::"))).
  reflexivity.
Defined.

Lemma H5PL_index_out_of_range_witness :
  let s := mk_H5PL 6 ["/usr/lib/plugin"%string] Sample.no_env in
  (H5PLreplace (H := Sample.herr) (H5PLpath0 := Sample.paths)
     (Some "/opt/plugin"%string) 1 s).1 < 0 /\
  (H5PLremove (H := Sample.herr) (H5PLpath0 := Sample.paths) 1 s).2 = s.
Proof.
  pose proof (H5PL_index_out_of_range (H := Sample.herr)
                (H5PLpath0 := Sample.paths) 1
                (mk_H5PL 6 ["/usr/lib/plugin"%string] Sample.no_env))
    as Hthm.
  destruct Hthm as (Hrep & Hrem & _); [right; cbn; lia|].
  split; [apply Hrep | apply Hrem].
Defined.

(** ** Loading the native form of a message *)

Lemma truth_true (z : Z) : Cint.truth z = true <-> z <> 0.
Proof. unfold Cint.truth. destruct (Z.eqb_spec z 0); split; done. Qed.

Lemma truth_false (z : Z) : Cint.truth z = false <-> z = 0.
Proof. unfold Cint.truth. destruct (Z.eqb_spec z 0); split; done. Qed.

Section LoadNative.

Context `{H5Opublic} {H5F_t Native class_ptr : Type}.
Context `{!H5Oenv H5F_t Native class_ptr}.
Implicit Types (OH : H5O_t Native class_ptr) (MSG : H5O_mesg_t Native class_ptr).
Implicit Types F : H5F_t.

(** The macro touches nothing when the native message is present. *)
Lemma H5O_LOAD_NATIVE_present {E} F DXPL IOF OH MSG (ERR : E) :
  mesg_native MSG <> None ->
  H5O_LOAD_NATIVE F DXPL IOF OH MSG ERR = Fallthrough (OH, MSG).
Proof.
  intros Hn. unfold H5O_LOAD_NATIVE. by destruct (mesg_native MSG).
Qed.

(** The dirty flag after the macro, whenever the program goes on: it is
    set exactly when the native message was absent, the decode callback
    produced one and reported [H5O_DECODEIO_DIRTY], and the file is open
    for writing; otherwise it is as before. *)
Lemma H5O_LOAD_NATIVE_dirty {E} F DXPL IOF OH MSG (ERR : E) OH' MSG' :
  flow_state (H5O_LOAD_NATIVE F DXPL IOF OH MSG ERR) = Some (OH', MSG') ->
  (mesg_dirty MSG' = mesg_dirty MSG /\
   oh_ndecode_dirtied OH' = oh_ndecode_dirtied OH) \/
  (mesg_dirty MSG' = true /\
   mesg_native MSG = None /\
   Z.land (H5F_get_intent F) H5F_ACC_RDWR <> 0 /\
   exists decode n io,
     class_decode (class_at (mesg_type MSG)) = Some decode /\
     decode F DXPL OH (mesg_flags MSG) IOF (raw_bytes OH MSG) = (Some n, io) /\
     Z.land io H5O_DECODEIO_DIRTY <> 0).
Proof.
  unfold H5O_LOAD_NATIVE.
  destruct (mesg_native MSG) eqn:Hnat; [cbn; intros [= <- <-]; by left|].
  destruct (class_decode _) as [decode|] eqn:Hdec; [|done].
  destruct (decode _ _ _ _ _ _) as [[n|] io] eqn:Hd;
    [|cbn; intros [= <- <-]; by left].
  destruct (Cint.truth (Z.land io _)) eqn:Hio; cbn [andb].
  - destruct (Cint.truth (Z.land (H5F_get_intent F) _)) eqn:Hint.
    + apply truth_true in Hio, Hint.
      intros Hflow. right. split.
      * repeat case_match; simplify_eq/=; done.
      * repeat split; [done|]. by exists decode, n, io.
    + intros Hflow. left.
      repeat case_match; simplify_eq/=; done.
  - intros Hflow. left.
    repeat case_match; simplify_eq/=; done.
Qed.

(** C2 (amended): the native message is produced only on first access,
    by the decode callback: when it is present the macro changes
    nothing; when it is absent and the decode callback yields a message
    and reports [H5O_DECODEIO_DIRTY], the dirty flag of the message is
    set provided the file is open with read-write intent, whatever the
    caller did.  The only other way out is the failed assertion on the
    class of a shareable message. *)
Theorem H5O_LOAD_NATIVE_first_access {E} F DXPL IOF OH MSG (ERR : E) :
  (mesg_native MSG <> None ->
   H5O_LOAD_NATIVE F DXPL IOF OH MSG ERR = Fallthrough (OH, MSG)) /\
  (mesg_native MSG = None ->
   forall decode n io,
     class_decode (class_at (mesg_type MSG)) = Some decode ->
     decode F DXPL OH (mesg_flags MSG) IOF (raw_bytes OH MSG) = (Some n, io) ->
     Z.land io H5O_DECODEIO_DIRTY <> 0 ->
     Z.land (H5F_get_intent F) H5F_ACC_RDWR <> 0 ->
     match flow_state (H5O_LOAD_NATIVE F DXPL IOF OH MSG ERR) with
     | Some (OH', MSG') =>
       mesg_dirty MSG' = true /\ mesg_native MSG' <> None
     | None => share_assert_fails MSG
     end).
Proof.
  split; [apply H5O_LOAD_NATIVE_present|].
  intros Hnat decode n io Hdec Hd Hio Hint.
  unfold H5O_LOAD_NATIVE. rewrite Hnat, Hdec, Hd.
  apply truth_true in Hio, Hint. rewrite Hio, Hint. cbn [andb].
  cbn [set_dirty set_native mesg_flags mesg_type mesg_crt_idx].
  destruct (Cint.truth (Z.land (mesg_flags MSG) _)) eqn:Hsh.
  - destruct NDEBUG eqn:Hnd; cbn [negb andb].
    + destruct (class_set_crt_index _) as [set|]; [|done].
      destruct (set _ _) as [ret n']. by destruct (ret <? 0).
    + destruct (Cint.truth (Z.land (class_share_flags _) _)) eqn:Hcl;
        cbn [negb].
      * destruct (class_set_crt_index _) as [set|]; [|done].
        destruct (set _ _) as [ret n']. by destruct (ret <? 0).
      * apply truth_true in Hsh. apply truth_false in Hcl. done.
  - destruct (class_set_crt_index _) as [set|]; [|done].
    destruct (set _ _) as [ret n']. by destruct (ret <? 0).
Qed.

(** C8: in a file opened without read-write intent, a message loaded
    through [H5O_LOAD_NATIVE] keeps its dirty flag (a clean message stays
    clean) even when the decode callback reports [H5O_DECODEIO_DIRTY],
    and the count of messages dirtied by decoding stays as it was; if
    the macro does change the flag it sets it, and the file is open with
    read-write intent. *)
Theorem H5O_LOAD_NATIVE_read_only {E} F DXPL IOF OH MSG (ERR : E) OH' MSG' :
  flow_state (H5O_LOAD_NATIVE F DXPL IOF OH MSG ERR) = Some (OH', MSG') ->
  (Z.land (H5F_get_intent F) H5F_ACC_RDWR = 0 ->
   mesg_dirty MSG' = mesg_dirty MSG /\
   oh_ndecode_dirtied OH' = oh_ndecode_dirtied OH) /\
  (mesg_dirty MSG' <> mesg_dirty MSG ->
   mesg_dirty MSG' = true /\
   Z.land (H5F_get_intent F) H5F_ACC_RDWR <> 0).
Proof.
  intros Hflow.
  destruct (H5O_LOAD_NATIVE_dirty _ _ _ _ _ _ _ _ Hflow)
    as [[Hd Hn] | (Hd & _ & Hint & _)].
  - split; [done|]. intros Hne. by rewrite Hd in Hne.
  - split; [intros Hro; by rewrite Hro in Hint|done].
Qed.

End LoadNative.

(** C2, as stated, fails: in a file opened read-only (intent 0) the
    decode callback of the sample class produces a native message and
    reports [H5O_DECODEIO_DIRTY], and the macro leaves the message
    clean. *)
Lemma H5O_LOAD_NATIVE_read_only_stays_clean :
  let decode F DXPL OH (fl io : Z) (raw : list Byte.byte) :=
      (Some (Sample.Attr 8 0), Z.lor io H5O_DECODEIO_DIRTY) in
  class_decode (class_at (H5Oenv := Sample.env) (mesg_type Sample.mesg0))
  = Some decode /\
  Z.land (decode 0 0 Sample.oh2 0 0 []).2 H5O_DECODEIO_DIRTY <> 0 /\
  exists OH' MSG',
    H5O_LOAD_NATIVE (H := Sample.flags) (H5Oenv0 := Sample.env)
      0 0 0 Sample.oh2 Sample.mesg0 (-1)
    = Fallthrough (OH', MSG') /\
    mesg_native MSG' = Some (Sample.Attr 8 0) /\ mesg_dirty MSG' = false.
Proof.
  cbn. split; [done|]. split; [done|].
  eexists _, _. split; [reflexivity|]. done.
Qed.

Lemma H5O_LOAD_NATIVE_first_access_witness :
  match flow_state (H5O_LOAD_NATIVE (H := Sample.flags)
                      (H5Oenv0 := Sample.env)
                      1 0 0 Sample.oh2 Sample.mesg0 (-1)) with
  | Some (OH', MSG') => mesg_dirty MSG' = true /\ mesg_native MSG' <> None
  | None => share_assert_fails (H := Sample.flags) (H5Oenv0 := Sample.env)
              Sample.mesg0
  end.
Proof.
  refine (proj2 (H5O_LOAD_NATIVE_first_access (H := Sample.flags)
                   (H5Oenv0 := Sample.env) 1 0 0 Sample.oh2 Sample.mesg0 (-1))
            eq_refl _ (Sample.Attr 8 0) 2 eq_refl eq_refl _ _); by vm_compute.
Defined.

Lemma H5O_LOAD_NATIVE_read_only_witness :
  exists OH' MSG',
    flow_state (H5O_LOAD_NATIVE (H := Sample.flags) (H5Oenv0 := Sample.env)
                  0 0 0 Sample.oh2 Sample.mesg0 (-1)) = Some (OH', MSG') /\
    mesg_dirty MSG' = mesg_dirty Sample.mesg0 /\
    oh_ndecode_dirtied OH' = oh_ndecode_dirtied Sample.oh2.
Proof.
  eexists _, _. split; [reflexivity|].
  refine (proj1 (H5O_LOAD_NATIVE_read_only (H := Sample.flags)
                   (H5Oenv0 := Sample.env) 0 0 0 Sample.oh2 Sample.mesg0 (-1)
                   _ _ eq_refl) eq_refl).
Defined.

(** ** The engine: accounting of chunk sizes *)

Section EngineFacts.

Context `{H5Opublic} {H5F_t Native class_ptr FS : Type}.
Context `{!H5Oenv H5F_t Native class_ptr} `{!H5Ocollab Native class_ptr FS}.
Context `{!H5Owire class_ptr} `{!EqDecision class_ptr}.

Local Abbreviation H5O_t := (H5O_t Native class_ptr).
Local Abbreviation H5O_mesg_t := (H5O_mesg_t Native class_ptr).

Implicit Types (oh : H5O_t) (m : H5O_mesg_t) (ms : list H5O_mesg_t).
Implicit Types (c i j : nat) (fs : FS).

Lemma same_layout_refl oh : same_layout oh oh.
Proof. done. Qed.

Lemma same_layout_trans oh1 oh2 oh3 :
  same_layout oh1 oh2 -> same_layout oh2 oh3 -> same_layout oh1 oh3.
Proof. intros [? ?] [? ?]. split; congruence. Qed.

Lemma same_layout_msghdr oh oh' :
  same_layout oh oh' -> H5O_SIZEOF_MSGHDR_OH oh' = H5O_SIZEOF_MSGHDR_OH oh.
Proof. intros [Hv Hf]. unfold H5O_SIZEOF_MSGHDR_OH. by rewrite Hv, Hf. Qed.

Lemma same_layout_overhead oh oh' c :
  same_layout oh oh' -> chunk_overhead oh' c = chunk_overhead oh c.
Proof.
  intros [Hv Hf]. destruct c; cbn.
  - unfold H5O_SIZEOF_HDR. by rewrite Hv, Hf.
  - unfold H5O_SIZEOF_CHKHDR_OH. by rewrite Hv.
Qed.

Lemma used_in_cons oh c m ms :
  used_in oh c (m :: ms) = weight oh c m + used_in oh c ms.
Proof. unfold used_in, weight. simpl foldr. case_bool_decide; lia. Qed.

Lemma same_layout_used oh oh' c ms :
  same_layout oh oh' -> used_in oh' c ms = used_in oh c ms.
Proof.
  intros Hl. induction ms as [|m ms IH]; [done|].
  rewrite !used_in_cons, IH. unfold weight, mesg_space.
  by rewrite (same_layout_msghdr _ _ Hl).
Qed.

Lemma used_in_app oh c ms1 ms2 :
  used_in oh c (ms1 ++ ms2) = used_in oh c ms1 + used_in oh c ms2.
Proof.
  induction ms1 as [|m ms1 IH]; [done|].
  rewrite <- app_comm_cons, !used_in_cons, IH. lia.
Qed.

Lemma used_in_insert oh c ms i m m' :
  ms !! i = Some m ->
  used_in oh c (<[i := m']> ms)
  = used_in oh c ms - weight oh c m + weight oh c m'.
Proof.
  revert i. induction ms as [|x ms IH]; intros [|i] Hi; try done.
  - injection Hi as ->. change (<[0%nat := m']> (m :: ms)) with (m' :: ms).
    rewrite !used_in_cons. lia.
  - cbn in Hi. change (<[S i := m']> (x :: ms)) with (x :: <[i := m']> ms).
    rewrite !used_in_cons, (IH _ Hi). lia.
Qed.

Lemma used_in_delete oh c ms i m :
  ms !! i = Some m ->
  used_in oh c (delete i ms) = used_in oh c ms - weight oh c m.
Proof.
  revert i. induction ms as [|x ms IH]; intros [|i] Hi; try done.
  - injection Hi as ->. change (delete 0%nat (m :: ms)) with ms.
    rewrite used_in_cons. lia.
  - cbn in Hi. change (delete (S i) (x :: ms)) with (x :: delete i ms).
    rewrite !used_in_cons, (IH _ Hi). lia.
Qed.

(** A change of the messages that keeps their chunks and sizes keeps the
    account. *)
Lemma used_in_fmap oh c (g : H5O_mesg_t -> H5O_mesg_t) ms :
  (forall m, mesg_chunkno (g m) = mesg_chunkno m /\
             mesg_raw_size (g m) = mesg_raw_size m) ->
  used_in oh c (g <$> ms) = used_in oh c ms.
Proof.
  intros Hg. induction ms as [|m ms IH]; [done|].
  rewrite fmap_cons, !used_in_cons, IH. f_equal.
  unfold weight, mesg_space. destruct (Hg m) as [-> ->]. done.
Qed.

Lemma used_in_absent oh c ms :
  Forall (fun m => mesg_chunkno m <> c) ms -> used_in oh c ms = 0.
Proof.
  induction 1 as [|m ms Hm _ IH]; [done|].
  rewrite used_in_cons, IH. unfold weight. by rewrite bool_decide_eq_false_2.
Qed.

(** The header after a change of its tables. *)
Lemma with_mesg_layout oh ms : same_layout oh (with_mesg oh ms).
Proof. done. Qed.

Lemma with_chunk_layout oh cs : same_layout oh (with_chunk oh cs).
Proof. done. Qed.

(** A change that touches no chunk keeps a header well formed if it keeps
    the account of every chunk and adds no message outside of them. *)
Lemma wf_same_chunks oh oh' :
  same_layout oh oh' ->
  oh_chunk oh' = oh_chunk oh ->
  (forall c, chunk_used oh' c = chunk_used oh c) ->
  (chunkno_ok oh -> chunkno_ok oh') ->
  wf oh -> wf oh'.
Proof.
  intros Hl Hcs Hused Hno [Hsz Hok]. split; [|by apply Hno].
  intros c ch Hc. rewrite Hcs in Hc.
  rewrite Hused, (same_layout_overhead _ _ c Hl). by apply Hsz.
Qed.

(** The replacement of a message by one of the same chunk and size. *)
Lemma wf_insert_same oh i m m' :
  oh_mesg oh !! i = Some m ->
  mesg_chunkno m' = mesg_chunkno m ->
  mesg_raw_size m' = mesg_raw_size m ->
  wf oh -> wf (with_mesg oh (<[i := m']> (oh_mesg oh))).
Proof.
  intros Hi Hc Hs. apply wf_same_chunks; [done|done| |].
  - intros c. unfold chunk_used. cbn [oh_mesg with_mesg].
    rewrite (same_layout_used oh) by done.
    rewrite (used_in_insert _ _ _ _ _ _ Hi).
    unfold weight, mesg_space. rewrite Hc, Hs. lia.
  - unfold chunkno_ok. cbn. intros Hok.
    apply Forall_insert; [done|]. rewrite Hc.
    by eapply (Forall_lookup_1 _ _ _ _ Hok).
Qed.

Lemma chunkno_ok_lookup oh i m :
  chunkno_ok oh -> oh_mesg oh !! i = Some m ->
  (mesg_chunkno m < length (oh_chunk oh))%nat.
Proof. intros Hok Hi. by apply (Forall_lookup_1 _ _ _ _ Hok Hi). Qed.

(** *** Allocation *)

Lemma H5O_alloc_null_layout oh i m ty size :
  same_layout oh (H5O_alloc_null oh i m ty size).1.
Proof. unfold H5O_alloc_null. by case_match. Qed.

Lemma H5O_alloc_null_wf oh i m ty size :
  oh_mesg oh !! i = Some m ->
  wf oh -> wf (H5O_alloc_null oh i m ty size).1.
Proof.
  intros Hi Hwf. unfold H5O_alloc_null. case_match; cbn [fst].
  - by apply (wf_insert_same _ _ m).
  - revert Hwf. apply wf_same_chunks; [done|done| |].
    + intros c. unfold chunk_used. cbn [oh_mesg with_mesg].
      rewrite (same_layout_used oh) by done.
      rewrite used_in_app, (used_in_insert _ _ _ _ _ _ Hi), used_in_cons.
      unfold weight, mesg_space. cbn. case_bool_decide; lia.
    + unfold chunkno_ok. cbn. intros Hok.
      pose proof (chunkno_ok_lookup _ _ _ Hok Hi).
      apply Forall_app. split; [apply Forall_insert; done|].
      by apply Forall_singleton.
Qed.

(** A message added at the end of the table, in a chunk that grows or
    whose gap shrinks by the bytes the message takes. *)
Lemma wf_push_in_chunk oh c ch ch' m :
  oh_chunk oh !! c = Some ch ->
  mesg_chunkno m = c ->
  chunk_size ch' - chunk_gap ch'
  = chunk_size ch - chunk_gap ch + mesg_space oh m ->
  wf oh ->
  wf (with_chunk (with_mesg oh (oh_mesg oh ++ [m])) (<[c := ch']> (oh_chunk oh))).
Proof.
  intros Hc Hm Hsize [Hsz Hok].
  pose proof (lookup_lt_Some _ _ _ Hc) as Hlt.
  split.
  - intros c' ch'' Hc'. cbn [oh_chunk with_chunk] in Hc'.
    unfold chunk_used. cbn [oh_mesg with_mesg with_chunk].
    rewrite (same_layout_used oh) by done.
    rewrite (same_layout_overhead oh) by done.
    rewrite used_in_app, used_in_cons. unfold weight. cbn [used_in foldr].
    destruct (decide (c' = c)) as [->|Hne].
    + rewrite list_lookup_insert_eq in Hc' by done. injection Hc' as <-.
      rewrite bool_decide_eq_true_2 by done.
      specialize (Hsz _ _ Hc). unfold chunk_used in Hsz. lia.
    + rewrite list_lookup_insert_ne in Hc' by done.
      rewrite bool_decide_eq_false_2 by congruence.
      specialize (Hsz _ _ Hc'). unfold chunk_used in Hsz. lia.
  - unfold chunkno_ok in *. cbn. rewrite length_insert.
    apply Forall_app. split; [done|]. apply Forall_singleton. by rewrite Hm.
Qed.

Lemma H5O_alloc_extend_chunk_wf oh fs ty size oh' fs' idx :
  H5O_alloc_extend_chunk oh fs ty size = Some (oh', fs', idx) ->
  wf oh -> wf oh' /\ same_layout oh oh'.
Proof.
  unfold H5O_alloc_extend_chunk. intros Hext Hwf.
  destruct (last (oh_mesg oh)) as [lm|]; [|done]. cbn in Hext.
  destruct (oh_chunk oh !! mesg_chunkno lm) as [ch|] eqn:Hc; [|done].
  cbn in Hext. case_match eqn:Hgap.
  - injection Hext as <- <- <-. split; [|done].
    apply (wf_push_in_chunk _ _ ch); [done|done| |done].
    unfold mesg_space. cbn. lia.
  - destruct (H5MF_try_extend _ _ _ _); [|done]. cbn in Hext.
    injection Hext as <- <- <-. split; [|done].
    apply (wf_push_in_chunk _ _ ch); [done|done| |done].
    unfold mesg_space. cbn. lia.
Qed.

Lemma H5O_add_chunk_layout oh addr data ty size :
  same_layout oh (H5O_add_chunk oh addr data ty size).1.
Proof. unfold H5O_add_chunk. by case_match. Qed.

Lemma H5O_add_chunk_wf oh addr data ty size :
  oh_chunk oh <> [] ->
  wf oh -> wf (H5O_add_chunk oh addr data ty size).1.
Proof.
  intros Hne [Hsz Hok]. unfold H5O_add_chunk.
  set (c := length (oh_chunk oh)).
  set (mh := H5O_SIZEOF_MSGHDR_OH oh).
  assert (used_in oh c (oh_mesg oh) = 0) as Hfresh.
  { apply used_in_absent. eapply Forall_impl; [exact Hok|]. cbn. lia. }
  assert (chunk_overhead oh c = H5O_SIZEOF_CHKHDR_OH oh) as Hovh.
  { subst c. destruct (oh_chunk oh); done. }
  case_match eqn:Htail. cbn [fst].
  split.
  - intros c' ch' Hc'. cbn [oh_chunk with_chunk] in Hc'.
    unfold chunk_used. cbn [oh_mesg with_mesg with_chunk].
    rewrite (same_layout_used oh) by done.
    rewrite (same_layout_overhead oh) by done.
    rewrite used_in_app, used_in_cons.
    destruct (decide (c' = c)) as [->|Hc].
    + rewrite lookup_app_r in Hc' by done.
      replace (c - length (oh_chunk oh))%nat with 0%nat in Hc' by lia.
      injection Hc' as <-. cbn [chunk_size chunk_gap].
      rewrite Hfresh, Hovh. unfold weight, mesg_space.
      rewrite bool_decide_eq_true_2 by done. cbn [mesg_raw_size new_mesg].
      fold mh. destruct (mh <=? _) eqn:Hroom; injection Htail as <- <-.
      * rewrite used_in_cons. unfold weight, mesg_space.
        rewrite bool_decide_eq_true_2 by done. cbn. fold mh. lia.
      * cbn. lia.
    + assert (c' < c)%nat as Hlt.
      { apply lookup_lt_Some in Hc'. rewrite length_app in Hc'. cbn in Hc'.
        lia. }
      rewrite lookup_app_l in Hc' by done.
      specialize (Hsz _ _ Hc'). unfold chunk_used in Hsz.
      assert (weight oh c' (new_mesg ty c (chunk_first oh c + mh) size) = 0)
        as -> by (unfold weight; by rewrite bool_decide_eq_false_2 by (cbn; lia)).
      assert (used_in oh c' l = 0) as ->.
      { destruct (mh <=? _); injection Htail as <- <-; [|done].
        rewrite used_in_cons. unfold weight.
        by rewrite bool_decide_eq_false_2 by (cbn; lia). }
      lia.
  - unfold chunkno_ok in *. cbn. rewrite length_app. cbn.
    apply Forall_app. split.
    + eapply Forall_impl; [exact Hok|]. cbn. lia.
    + apply Forall_cons. split; [cbn; fold c; lia|].
      destruct (mh <=? _); injection Htail as <- <-; [|done].
      apply Forall_singleton. cbn. fold c. lia.
Qed.

Lemma H5O_alloc_wf depth oh fs ty size oh' fs' idx :
  H5O_alloc depth oh fs ty size = Ok (oh', fs', idx) ->
  wf oh -> wf oh' /\ same_layout oh oh'.
Proof.
  revert oh fs ty size oh' fs' idx.
  induction depth as [|depth IH]; intros oh fs ty size oh' fs' idx.
  - cbn. destruct (size <? 0); [done|].
    destruct (H5O_alloc_find_best_null oh size) as [i|].
    + destruct (oh_mesg oh !! i) as [m|] eqn:Hi; [|done].
      destruct (H5O_alloc_null oh i m ty size) as [oh1 idx1] eqn:Hnull.
      intros [= <- <- <-] Hwf.
      pose proof (H5O_alloc_null_wf oh i m ty size Hi Hwf) as Hwf1.
      pose proof (H5O_alloc_null_layout oh i m ty size) as Hl1.
      rewrite Hnull in Hwf1, Hl1. done.
    + destruct (H5O_alloc_extend_chunk oh fs ty size) as [[[oh1 fs1] idx1]|]
        eqn:Hext; [|done].
      intros [= <- <- <-] Hwf. by eapply H5O_alloc_extend_chunk_wf.
  - cbn. destruct (size <? 0); [done|].
    destruct (H5O_alloc_find_best_null oh size) as [i|].
    + destruct (oh_mesg oh !! i) as [m|] eqn:Hi; [|done].
      destruct (H5O_alloc_null oh i m ty size) as [oh1 idx1] eqn:Hnull.
      intros [= <- <- <-] Hwf.
      pose proof (H5O_alloc_null_wf oh i m ty size Hi Hwf) as Hwf1.
      pose proof (H5O_alloc_null_layout oh i m ty size) as Hl1.
      rewrite Hnull in Hwf1, Hl1. done.
    + destruct (H5O_alloc_extend_chunk oh fs ty size) as [[[oh1 fs1] idx1]|]
        eqn:Hext.
      { intros [= <- <- <-] Hwf. by eapply H5O_alloc_extend_chunk_wf. }
      case_bool_decide as Hcs; [done|].
      destruct (H5MF_alloc fs _) as [[addr fs1]|]; [|done].
      destruct (H5O_alloc depth oh fs1 H5O_MSG_CONT (cont_raw_size oh))
        as [[[oh1 fs2] icont]|] eqn:Hrec; [|done].
      cbn. destruct (oh_mesg oh1 !! icont) as [mc|] eqn:Hic; [|done].
      match goal with
      | |- context [H5O_add_chunk ?o ?a ?d ?t ?s] =>
        destruct (H5O_add_chunk o a d t s) as [oh2 idx2] eqn:Hadd;
        pose proof (H5O_add_chunk_wf o a d t s) as Hwf2;
        pose proof (H5O_add_chunk_layout o a d t s) as Hl2;
        rewrite Hadd in Hwf2, Hl2
      end.
      intros [= <- <- <-] Hwf.
      destruct (IH _ _ _ _ _ _ _ Hrec Hwf) as [Hwf1 Hl1].
      assert (oh_chunk oh1 <> []) as Hne1.
      { destruct Hwf1 as [_ Hok1].
        pose proof (chunkno_ok_lookup _ _ _ Hok1 Hic).
        destruct (oh_chunk oh1); [cbn in *; lia|done]. }
      split.
      * apply Hwf2; [done|]. by apply (wf_insert_same _ _ mc).
      * eapply same_layout_trans; [exact Hl1|].
        eapply same_layout_trans; [|exact Hl2]. done.
Qed.

End EngineFacts.

Section EngineRelease.

Context `{H5Opublic} {H5F_t Native class_ptr FS : Type}.
Context `{!H5Oenv H5F_t Native class_ptr} `{!H5Ocollab Native class_ptr FS}.
Context `{!H5Owire class_ptr} `{!EqDecision class_ptr}.

Local Abbreviation H5O_t := (H5O_t Native class_ptr).
Local Abbreviation H5O_mesg_t := (H5O_mesg_t Native class_ptr).

Implicit Types (oh : H5O_t) (m : H5O_mesg_t) (ms : list H5O_mesg_t).
Implicit Types (c i j : nat) (fs : FS).

(** *** Release *)

Lemma H5O_merge_pair_layout oh i j : same_layout oh (H5O_merge_pair oh i j).
Proof. unfold H5O_merge_pair. by repeat case_match. Qed.

Lemma H5O_merge_pair_chunks oh i j :
  oh_chunk (H5O_merge_pair oh i j) = oh_chunk oh.
Proof. unfold H5O_merge_pair. by repeat case_match. Qed.

Lemma H5O_merge_pair_wf oh i j : wf oh -> wf (H5O_merge_pair oh i j).
Proof.
  unfold H5O_merge_pair.
  destruct (oh_mesg oh !! i) as [m1|] eqn:Hi; [|done].
  destruct (oh_mesg oh !! j) as [m2|] eqn:Hj; [|done].
  destruct (bool_decide (i <> j) && adjacent oh m1 m2) eqn:Hadj; [|done].
  apply andb_true_iff in Hadj as [Hij Hadj].
  apply bool_decide_eq_true in Hij.
  unfold adjacent in Hadj.
  apply andb_true_iff in Hadj as [Hadj _].
  apply andb_true_iff in Hadj as [_ Hsame].
  apply bool_decide_eq_true in Hsame.
  assert (<[i := set_span m1 (mesg_raw m1)
                   (mesg_raw_size m1 + H5O_SIZEOF_MSGHDR_OH oh + mesg_raw_size m2)]>
            (oh_mesg oh) !! j = Some m2) as Hj'.
  { by rewrite list_lookup_insert_ne. }
  apply wf_same_chunks; [done|done| |].
  - intros c. unfold chunk_used. cbn [oh_mesg with_mesg].
    rewrite (same_layout_used oh) by done.
    rewrite (used_in_delete _ _ _ _ _ Hj'), (used_in_insert _ _ _ _ _ _ Hi).
    unfold weight, mesg_space. cbn. rewrite <- Hsame.
    case_bool_decide; lia.
  - unfold chunkno_ok. cbn. intros Hok.
    apply Forall_delete, Forall_insert; [done|]. cbn.
    by apply (chunkno_ok_lookup _ _ _ Hok Hi).
Qed.

Lemma H5O_merge_null_wf fuel oh :
  wf oh ->
  wf (H5O_merge_null fuel oh) /\
  same_layout oh (H5O_merge_null fuel oh) /\
  oh_chunk (H5O_merge_null fuel oh) = oh_chunk oh.
Proof.
  revert oh. induction fuel as [|fuel IH]; intros oh Hwf; [done|].
  cbn. destruct (find_adjacent oh) as [[i j]|]; [|done].
  destruct (IH _ (H5O_merge_pair_wf oh i j Hwf)) as (Hwf' & Hl & Hcs).
  split; [done|]. split.
  - eapply same_layout_trans; [apply H5O_merge_pair_layout|done].
  - by rewrite Hcs, H5O_merge_pair_chunks.
Qed.

Lemma H5O_mesg_to_null_wf oh i oh' :
  H5O_mesg_to_null oh i = Ok oh' ->
  wf oh -> wf oh' /\ same_layout oh oh' /\ oh_chunk oh' = oh_chunk oh.
Proof.
  unfold H5O_mesg_to_null.
  destruct (oh_mesg oh !! i) as [m|] eqn:Hi; [|done].
  destruct (mesg_locked m); [done|]. intros [= <-] Hwf.
  set (oh1 := with_mesg oh (<[i := set_type m H5O_MSG_NULL]> (oh_mesg oh))).
  assert (wf oh1) as Hwf1 by (by apply (wf_insert_same _ _ m)).
  destruct (H5O_merge_null_wf (length (oh_mesg oh1)) oh1 Hwf1)
    as (Hwf2 & Hl2 & Hcs2).
  split; [exact Hwf2|]. split; [|exact Hcs2].
  eapply same_layout_trans; [|exact Hl2]. done.
Qed.

(** The account of a chunk after chunk [c] has gone. *)
Lemma used_in_chunk_delete oh c c' ms :
  used_in oh c'
    (renumber c <$>
       List.filter (fun m => negb (bool_decide (mesg_chunkno m = c))) ms)
  = if bool_decide (c' < c)%nat then used_in oh c' ms
    else used_in oh (S c') ms.
Proof.
  induction ms as [|m ms IH]; [by case_bool_decide|].
  cbn [List.filter]. rewrite !used_in_cons.
  destruct (bool_decide (mesg_chunkno m = c)) eqn:Hm; cbn [negb].
  - apply bool_decide_eq_true in Hm. rewrite IH.
    unfold weight. repeat case_bool_decide; lia.
  - apply bool_decide_eq_false in Hm.
    rewrite fmap_cons, used_in_cons, IH.
    unfold weight, renumber, mesg_space.
    repeat case_bool_decide; cbn in *; lia.
Qed.

Lemma H5O_chunk_delete_wf oh fs c oh' fs' addr :
  H5O_chunk_delete oh fs (S c) = Some (oh', fs', addr) ->
  wf oh ->
  wf oh' /\ same_layout oh oh' /\
  (length (oh_chunk oh') < length (oh_chunk oh))%nat.
Proof.
  unfold H5O_chunk_delete.
  destruct (oh_chunk oh !! S c) as [ch|] eqn:Hc; [|done]. cbn.
  intros [= <- <- <-] [Hsz Hok].
  pose proof (lookup_lt_Some _ _ _ Hc) as Hlt.
  split; [split|split; [done|]].
  - intros c' ch' Hc'. cbn [oh_chunk with_chunk] in Hc'.
    unfold chunk_used. cbn [oh_mesg with_mesg with_chunk].
    rewrite (same_layout_used oh) by done.
    rewrite (same_layout_overhead oh) by done.
    rewrite used_in_chunk_delete. case_bool_decide as Hlt'.
    + rewrite list_lookup_delete_lt in Hc' by done. by apply Hsz.
    + rewrite list_lookup_delete_ge in Hc' by lia.
      specialize (Hsz _ _ Hc'). unfold chunk_used in Hsz.
      destruct c'; [lia|]. done.
  - unfold chunkno_ok in *. cbn. rewrite length_delete by done.
    apply Forall_fmap, Forall_forall. intros m Hm.
    rewrite list_elem_of_In, List.filter_In, <- list_elem_of_In in Hm.
    destruct Hm as [Hm Hne].
    rewrite negb_true_iff, bool_decide_eq_false in Hne.
    pose proof (proj1 (Forall_forall _ _) Hok m Hm) as Hmlt. cbn in Hmlt.
    unfold compose, renumber. case_bool_decide; cbn; lia.
  - cbn. rewrite length_delete by done. lia.
Qed.

Lemma H5O_chunk_remove_wf fuel oh fs c oh' fs' :
  H5O_chunk_remove fuel oh fs c = Ok (oh', fs') ->
  wf oh -> wf oh' /\ same_layout oh oh'.
Proof.
  revert oh fs c oh' fs'.
  induction fuel as [|fuel IH]; intros oh fs c oh' fs'.
  - cbn. destruct c as [|c]; [done|].
    destruct (H5O_chunk_delete oh fs (S c)) as [[[oh1 fs1] addr]|] eqn:Hdel;
      [|done].
    intros Hrem Hwf.
    destruct (H5O_chunk_delete_wf _ _ _ _ _ _ Hdel Hwf) as (Hwf1 & Hl1 & _).
    destruct (find_index _ _) as [k|]; [|by injection Hrem as <- <-].
    destruct (oh_mesg oh1 !! k) as [mk|]; [|done].
    destruct (H5O_mesg_to_null oh1 k) as [oh2|] eqn:Hnull; [|done].
    cbn in Hrem.
    destruct (H5O_mesg_to_null_wf _ _ _ Hnull Hwf1) as (Hwf2 & Hl2 & _).
    destruct (_ && _); [done|]. injection Hrem as <- <-.
    split; [done|]. by eapply same_layout_trans.
  - cbn. destruct c as [|c]; [done|].
    destruct (H5O_chunk_delete oh fs (S c)) as [[[oh1 fs1] addr]|] eqn:Hdel;
      [|done].
    intros Hrem Hwf.
    destruct (H5O_chunk_delete_wf _ _ _ _ _ _ Hdel Hwf) as (Hwf1 & Hl1 & _).
    destruct (find_index _ _) as [k|]; [|by injection Hrem as <- <-].
    destruct (oh_mesg oh1 !! k) as [mk|]; [|done].
    destruct (H5O_mesg_to_null oh1 k) as [oh2|] eqn:Hnull; [|done].
    cbn in Hrem.
    destruct (H5O_mesg_to_null_wf _ _ _ Hnull Hwf1) as (Hwf2 & Hl2 & _).
    destruct (_ && _).
    + destruct (IH _ _ _ _ _ Hrem Hwf2) as [Hwf3 Hl3].
      split; [done|].
      eapply same_layout_trans; [exact Hl1|]. by eapply same_layout_trans.
    + injection Hrem as <- <-.
      split; [done|]. by eapply same_layout_trans.
Qed.

Lemma H5O_release_wf oh fs i oh' fs' :
  H5O_release oh fs i = Ok (oh', fs') ->
  wf oh -> wf oh' /\ same_layout oh oh'.
Proof.
  unfold H5O_release.
  destruct (oh_mesg oh !! i) as [m|]; [|done].
  destruct (H5O_mesg_to_null oh i) as [oh1|] eqn:Hnull; [|done]. cbn.
  intros Hrel Hwf.
  destruct (H5O_mesg_to_null_wf _ _ _ Hnull Hwf) as (Hwf1 & Hl1 & _).
  destruct (_ && _).
  - destruct (H5O_chunk_remove_wf _ _ _ _ _ _ Hrel Hwf1) as [Hwf2 Hl2].
    split; [done|]. by eapply same_layout_trans.
  - by injection Hrel as <- <-.
Qed.

End EngineRelease.

(** What [H5O_LOAD_NATIVE] leaves alone: the tables and the layout of the
    header, and the place, the size, the class and the creation index of
    the message. *)
Lemma H5O_LOAD_NATIVE_frame `{H5Opublic} {H5F_t Native class_ptr E : Type}
    `{!H5Oenv H5F_t Native class_ptr} (F : H5F_t) DXPL IOF
    (OH : H5O_t Native class_ptr) (MSG : H5O_mesg_t Native class_ptr)
    (ERR : E) OH' MSG' :
  flow_state (H5O_LOAD_NATIVE F DXPL IOF OH MSG ERR) = Some (OH', MSG') ->
  (oh_mesg OH' = oh_mesg OH /\ oh_chunk OH' = oh_chunk OH /\
   oh_version OH' = oh_version OH /\ oh_flags OH' = oh_flags OH) /\
  (mesg_type MSG' = mesg_type MSG /\ mesg_chunkno MSG' = mesg_chunkno MSG /\
   mesg_raw_size MSG' = mesg_raw_size MSG /\
   mesg_crt_idx MSG' = mesg_crt_idx MSG).
Proof.
  unfold H5O_LOAD_NATIVE, INCR_NDECODE_DIRTIED. intros Hflow.
  repeat case_match; simplify_eq/=; done.
Qed.

Section EngineTable.

Context `{H5Opublic} {H5F_t Native class_ptr FS : Type}.
Context `{!H5Oenv H5F_t Native class_ptr} `{!H5Ocollab Native class_ptr FS}.
Context `{!H5Owire class_ptr} `{!EqDecision class_ptr}.

Local Abbreviation H5O_t := (H5O_t Native class_ptr).
Local Abbreviation H5O_mesg_t := (H5O_mesg_t Native class_ptr).

Implicit Types (oh : H5O_t) (m : H5O_mesg_t) (ms : list H5O_mesg_t).
Implicit Types (c i j : nat) (fs : FS) (f : H5F_t).

(** *** Condensation *)

(** The account of a chunk after the null messages of chunk [c] have
    gone and the others have moved. *)
Lemma used_in_condense oh c c' (g : H5O_mesg_t -> H5O_mesg_t) ms :
  (forall m, mesg_chunkno (g m) = mesg_chunkno m /\
             mesg_raw_size (g m) = mesg_raw_size m) ->
  used_in oh c' (g <$> List.filter (fun m => negb (null_in c m)) ms)
  = used_in oh c' ms
    - (if bool_decide (c' = c)
       then foldr (fun m acc =>
                     if null_in c m then mesg_space oh m + acc else acc) 0 ms
       else 0).
Proof.
  intros Hg. induction ms as [|m ms IH]; [by case_bool_decide|].
  cbn [List.filter foldr]. rewrite used_in_cons.
  destruct (null_in c m) eqn:Hnull; cbn [negb].
  - rewrite IH. unfold null_in in Hnull.
    apply andb_true_iff in Hnull as [Hc _].
    apply bool_decide_eq_true in Hc. unfold weight.
    repeat case_bool_decide; lia.
  - rewrite fmap_cons, used_in_cons, IH.
    unfold weight, mesg_space. destruct (Hg m) as [-> ->].
    repeat case_bool_decide; lia.
Qed.

Lemma H5O_condense_chunk_wf oh c :
  wf oh ->
  wf (H5O_condense_chunk oh c) /\ same_layout oh (H5O_condense_chunk oh c) /\
  length (oh_chunk (H5O_condense_chunk oh c)) = length (oh_chunk oh).
Proof.
  intros Hwf. unfold H5O_condense_chunk.
  destruct (oh_chunk oh !! c) as [ch|] eqn:Hc; [|done].
  destruct (has_locked oh c); [done|].
  split; [|split; [done|cbn; by rewrite length_insert]].
  destruct Hwf as [Hsz Hok].
  pose proof (lookup_lt_Some _ _ _ Hc) as Hlt.
  split.
  - intros c' ch' Hc'. cbn [oh_chunk with_chunk] in Hc'.
    unfold chunk_used. cbn [oh_mesg with_mesg with_chunk].
    rewrite (same_layout_used oh) by done.
    rewrite (same_layout_overhead oh) by done.
    rewrite used_in_condense by (intros m; by case_bool_decide).
    destruct (decide (c' = c)) as [->|Hne].
    + rewrite list_lookup_insert_eq in Hc' by done. injection Hc' as <-.
      rewrite bool_decide_eq_true_2 by done. cbn [chunk_size chunk_gap resize_chunk].
      specialize (Hsz _ _ Hc). unfold chunk_used in Hsz.
      unfold null_space. lia.
    + rewrite list_lookup_insert_ne in Hc' by done.
      rewrite bool_decide_eq_false_2 by done.
      specialize (Hsz _ _ Hc'). unfold chunk_used in Hsz. lia.
  - unfold chunkno_ok in *. cbn. rewrite length_insert.
    apply Forall_fmap, Forall_forall. intros m Hm.
    rewrite list_elem_of_In, List.filter_In, <- list_elem_of_In in Hm.
    destruct Hm as [Hm _].
    pose proof (proj1 (Forall_forall _ _) Hok m Hm) as Hmlt. cbn in Hmlt.
    unfold compose. by case_bool_decide.
Qed.

Lemma H5O_condense_from_wf n oh fs oh' fs' :
  H5O_condense_from n oh fs = Ok (oh', fs') ->
  wf oh -> wf oh' /\ same_layout oh oh'.
Proof.
  revert oh fs oh' fs'. induction n as [|c IH]; intros oh fs oh' fs'.
  - cbn. by intros [= <- <-].
  - cbn [H5O_condense_from]. destruct (_ && _).
    + destruct (H5O_chunk_remove _ oh fs c) as [[oh1 fs1]|] eqn:Hrem; [|done].
      cbn. intros Hrec Hwf.
      destruct (H5O_chunk_remove_wf _ _ _ _ _ _ Hrem Hwf) as [Hwf1 Hl1].
      destruct (IH _ _ _ _ Hrec Hwf1) as [Hwf2 Hl2].
      split; [done|]. by eapply same_layout_trans.
    + cbn. intros Hrec Hwf.
      destruct (H5O_condense_chunk_wf oh c Hwf) as (Hwf1 & Hl1 & _).
      destruct (IH _ _ _ _ Hrec Hwf1) as [Hwf2 Hl2].
      split; [done|]. by eapply same_layout_trans.
Qed.

(** *** The message table *)

Lemma H5O_msg_append_wf oh fs f ty flags v oh' fs' idx :
  H5O_msg_append oh fs f ty flags v = Ok (oh', fs', idx) ->
  wf oh -> wf oh' /\ same_layout oh oh'.
Proof.
  unfold H5O_msg_append.
  destruct (H5O_msg_raw_size oh f ty v) as [size|]; [|done]. cbn.
  destruct (match class_get_crt_index (class_at ty) with
            | Some get => _ | None => _ end) as [crt|]; [|done]. cbn.
  destruct (H5O_alloc alloc_depth oh fs ty size) as [[[oh1 fs1] idx1]|]
    eqn:Halloc; [|done]. cbn.
  destruct (oh_mesg oh1 !! idx1) as [m|] eqn:Hm; [|done].
  intros [= <- <- <-] Hwf.
  destruct (H5O_alloc_wf _ _ _ _ _ _ _ _ Halloc Hwf) as [Hwf1 Hl1].
  split; [by apply (wf_insert_same _ _ m)|].
  eapply same_layout_trans; [exact Hl1|done].
Qed.

Lemma H5O_msg_write_wf oh fs f i v oh' fs' idx :
  H5O_msg_write oh fs f i v = Ok (oh', fs', idx) ->
  wf oh -> wf oh' /\ same_layout oh oh'.
Proof.
  unfold H5O_msg_write.
  destruct (oh_mesg oh !! i) as [m|] eqn:Hm; [|done].
  destruct (H5O_msg_raw_size oh f (mesg_type m) v) as [size|]; [|done]. cbn.
  destruct (size =? mesg_raw_size m).
  - intros [= <- <- <-] Hwf. split; [by apply (wf_insert_same _ _ m)|done].
  - destruct (H5O_release oh fs i) as [[oh1 fs1]|] eqn:Hrel; [|done]. cbn.
    intros Happ Hwf.
    destruct (H5O_release_wf _ _ _ _ _ Hrel Hwf) as [Hwf1 Hl1].
    destruct (H5O_msg_append_wf _ _ _ _ _ _ _ _ _ Happ Hwf1) as [Hwf2 Hl2].
    split; [done|]. by eapply same_layout_trans.
Qed.

Lemma H5O_msg_remove_loop_wf fuel oh fs ty op oh' fs' :
  H5O_msg_remove_loop fuel oh fs ty op = Ok (oh', fs') ->
  wf oh -> wf oh' /\ same_layout oh oh'.
Proof.
  revert oh fs oh' fs'. induction fuel as [|fuel IH]; intros oh fs oh' fs'.
  - cbn. by intros [= <- <-].
  - cbn [H5O_msg_remove_loop].
    destruct (find_index _ _) as [i|]; [|by intros [= <- <-]].
    destruct (H5O_release oh fs i) as [[oh1 fs1]|] eqn:Hrel; [|done]. cbn.
    intros Hrec Hwf.
    destruct (H5O_release_wf _ _ _ _ _ Hrel Hwf) as [Hwf1 Hl1].
    destruct (IH _ _ _ _ Hrec Hwf1) as [Hwf2 Hl2].
    split; [done|]. by eapply same_layout_trans.
Qed.

Lemma H5O_msg_iterate_from_wf todo i oh f ty callback oh' vs :
  H5O_msg_iterate_from todo i oh f ty callback = Ok (oh', vs) ->
  wf oh -> wf oh' /\ same_layout oh oh'.
Proof.
  revert i oh oh' vs. induction todo as [|todo IH]; intros i oh oh' vs.
  - cbn. by intros [= <- <-].
  - cbn [H5O_msg_iterate_from].
    destruct (oh_mesg oh !! i) as [m|] eqn:Hm; [|by intros [= <- <-]].
    case_bool_decide; [|by apply IH].
    destruct (H5O_LOAD_NATIVE f 0 0 oh m CorruptFormat)
      as [[oh1 m1]|e s|] eqn:Hload; [|done|done].
    intros Hit Hwf.
    assert (flow_state (H5O_LOAD_NATIVE f 0 0 oh m CorruptFormat)
            = Some (oh1, m1)) as Hst by (by rewrite Hload).
    destruct (H5O_LOAD_NATIVE_frame _ _ _ _ _ _ _ _ Hst)
      as ((Hms & Hcs & Hv & Hf) & (_ & Hc & Hs & _)).
    assert (wf oh1) as Hwf1.
    { revert Hwf. apply wf_same_chunks; [done|done| |].
      - intros c. unfold chunk_used. rewrite Hms.
        by apply same_layout_used.
      - unfold chunkno_ok. by rewrite Hms, Hcs. }
    assert (wf (with_mesg oh1 (<[i := m1]> (oh_mesg oh1)))) as Hwf2.
    { apply (wf_insert_same _ _ m); [by rewrite Hms|done|done|done]. }
    destruct (mesg_native m1) as [v|]; [|done].
    destruct (callback v).
    + injection Hit as <- <-. done.
    + destruct (H5O_msg_iterate_from todo (S i) _ f ty callback)
        as [[oh2 vs2]|] eqn:Hrec; [|done].
      cbn in Hit. injection Hit as <- <-.
      destruct (IH _ _ _ _ Hrec Hwf2) as [Hwf3 Hl3].
      split; [done|]. eapply same_layout_trans; [|exact Hl3]. done.
Qed.

(** Flushing changes the images of the chunks only. *)
Lemma H5O_flush_chunks f ms (cs : list H5O_chunk_t) c ch' :
  foldr (H5O_mesg_encode f) cs ms !! c = Some ch' ->
  exists ch, cs !! c = Some ch /\
             chunk_size ch' = chunk_size ch /\ chunk_gap ch' = chunk_gap ch.
Proof.
  revert ch'. induction ms as [|m ms IH]; intros ch' Hc; [by exists ch'|].
  cbn [foldr] in Hc. unfold H5O_mesg_encode at 1 in Hc.
  destruct (mesg_dirty m); [|by apply IH].
  destruct (mesg_native m); [|by apply IH].
  destruct (class_encode _); [|by apply IH].
  destruct (decide (mesg_chunkno m = c)) as [<-|Hne].
  - rewrite list_lookup_alter_eq in Hc.
    destruct (foldr _ _ _ !! mesg_chunkno m) as [ch1|] eqn:Hc1; [|done].
    injection Hc as <-. destruct (IH _ eq_refl) as (ch & ? & ? & ?).
    by exists ch.
  - rewrite list_lookup_alter_ne in Hc by done. by apply IH.
Qed.

Lemma H5O_flush_length f ms (cs : list H5O_chunk_t) :
  length (foldr (H5O_mesg_encode f) cs ms) = length cs.
Proof.
  induction ms as [|m ms IH]; [done|]. cbn [foldr].
  unfold H5O_mesg_encode at 1. repeat case_match; try done.
  by rewrite length_alter.
Qed.

Lemma H5O_flush_wf oh f : wf oh -> wf (H5O_flush oh f).
Proof.
  intros [Hsz Hok]. unfold H5O_flush. split.
  - intros c ch' Hc. cbn [oh_chunk with_chunk] in Hc.
    destruct (H5O_flush_chunks _ _ _ _ _ Hc) as (ch & Hch & -> & ->).
    unfold chunk_used. cbn [oh_mesg with_mesg with_chunk].
    rewrite (same_layout_used oh) by done.
    rewrite (same_layout_overhead oh) by done.
    rewrite used_in_fmap by done. by apply Hsz.
  - unfold chunkno_ok in *. cbn. rewrite H5O_flush_length.
    by apply Forall_fmap.
Qed.

(** *** Every operation, and creation *)

Lemma H5O_apply_wf f o oh fs oh' fs' :
  H5O_apply f o oh fs = Ok (oh', fs') -> wf oh -> wf oh'.
Proof.
  destruct o as [ty size|i| |ty flags v|i v|ty op|ty callback| ]; cbn.
  - destruct (H5O_alloc _ _ _ _ _) as [[[oh1 fs1] idx]|] eqn:Hop; [|done].
    intros [= <- <-] Hwf. by eapply H5O_alloc_wf.
  - intros Hop Hwf. by eapply H5O_release_wf.
  - intros Hop Hwf. by eapply H5O_condense_from_wf.
  - destruct (H5O_msg_append _ _ _ _ _ _) as [[[oh1 fs1] idx]|] eqn:Hop;
      [|done].
    intros [= <- <-] Hwf. by eapply H5O_msg_append_wf.
  - destruct (H5O_msg_write _ _ _ _ _) as [[[oh1 fs1] idx]|] eqn:Hop; [|done].
    intros [= <- <-] Hwf. by eapply H5O_msg_write_wf.
  - intros Hop Hwf. by eapply H5O_msg_remove_loop_wf.
  - destruct (H5O_msg_iterate _ _ _ _) as [[oh1 vs]|] eqn:Hop; [|done].
    intros [= <- <-] Hwf. by eapply H5O_msg_iterate_from_wf.
  - intros [= <- <-] Hwf. by apply H5O_flush_wf.
Qed.

Lemma H5O_create_wf fs0 ss sa version flags hint oh fs :
  H5O_create fs0 ss sa version flags hint = Ok (oh, fs) -> wf oh.
Proof.
  unfold H5O_create. destruct (H5MF_alloc _ _) as [[addr fs1]|]; [|done].
  intros [= <- <-]. split.
  - intros [|c] ch Hc; [|done]. injection Hc as <-.
    unfold chunk_used, used_in, mesg_space. cbn.
    rewrite bool_decide_eq_true_2 by done.
    unfold H5O_SIZEOF_MSGHDR_OH, H5O_SIZEOF_HDR, H5O_ALIGN_OH. cbn. lia.
  - unfold chunkno_ok. cbn. apply Forall_singleton. cbn. lia.
Qed.

End EngineTable.

(** ** The engine: creation indices *)

Lemma H5O_msg_crt_idx_t_range (z : Z) :
  0 <= H5O_msg_crt_idx_t z <= H5O_MAX_CRT_ORDER_IDX.
Proof.
  unfold H5O_msg_crt_idx_t, Cint.unsigned, H5O_MAX_CRT_ORDER_IDX.
  pose proof (Z.mod_pos_bound z (2 ^ 16) ltac:(lia)). lia.
Qed.

Section EngineCrt.

Context `{H5Opublic} {H5F_t Native class_ptr FS : Type}.
Context `{!H5Oenv H5F_t Native class_ptr} `{!H5Ocollab Native class_ptr FS}.
Context `{!H5Owire class_ptr} `{!EqDecision class_ptr}.

Local Abbreviation H5O_t := (H5O_t Native class_ptr).
Local Abbreviation H5O_mesg_t := (H5O_mesg_t Native class_ptr).

Implicit Types (oh : H5O_t) (m : H5O_mesg_t) (ms : list H5O_mesg_t).
Implicit Types (c i j : nat) (fs : FS) (f : H5F_t).

Lemma crt_ok_zero m : mesg_crt_idx m = 0 -> crt_ok m.
Proof. unfold crt_ok, H5O_MAX_CRT_ORDER_IDX. lia. Qed.

Lemma crt_ok_set_value m flags crt v : crt_ok (set_value m flags crt v).
Proof. apply H5O_msg_crt_idx_t_range. Qed.

Lemma crt_ok_filter (keep : H5O_mesg_t -> bool) ms :
  Forall crt_ok ms -> Forall crt_ok (List.filter keep ms).
Proof.
  induction 1 as [|m ms Hm _ IH]; [done|]. cbn.
  destruct (keep m); [by apply Forall_cons|done].
Qed.

Lemma crt_ok_fmap (g : H5O_mesg_t -> H5O_mesg_t) ms :
  (forall m, mesg_crt_idx (g m) = mesg_crt_idx m) ->
  Forall crt_ok ms -> Forall crt_ok (g <$> ms).
Proof.
  intros Hg Hms. apply Forall_fmap. eapply Forall_impl; [exact Hms|].
  intros m Hm. unfold compose, crt_ok. by rewrite Hg.
Qed.

Lemma crt_idx_ok_alt oh : crt_idx_ok oh <-> Forall crt_ok (oh_mesg oh).
Proof. done. Qed.

Lemma H5O_alloc_null_crt oh i m ty size :
  oh_mesg oh !! i = Some m ->
  crt_idx_ok oh -> crt_idx_ok (H5O_alloc_null oh i m ty size).1.
Proof.
  rewrite !crt_idx_ok_alt. intros Hi Hok.
  pose proof (Forall_lookup_1 _ _ _ _ Hok Hi) as Hm.
  unfold H5O_alloc_null. case_match; cbn.
  - apply Forall_insert; [done|]. by apply crt_ok_zero.
  - apply Forall_app. split; [by apply Forall_insert|].
    apply Forall_singleton. by apply crt_ok_zero.
Qed.

Lemma H5O_alloc_extend_chunk_crt oh fs ty size oh' fs' idx :
  H5O_alloc_extend_chunk oh fs ty size = Some (oh', fs', idx) ->
  crt_idx_ok oh -> crt_idx_ok oh'.
Proof.
  rewrite !crt_idx_ok_alt. unfold H5O_alloc_extend_chunk. intros Hext Hok.
  destruct (last (oh_mesg oh)) as [lm|]; [|done]. cbn in Hext.
  destruct (oh_chunk oh !! mesg_chunkno lm) as [ch|]; [|done].
  cbn in Hext.
  assert (Forall crt_ok
            (oh_mesg oh ++
             [new_mesg ty (mesg_chunkno lm)
                (chunk_size ch - H5O_SIZEOF_CHKSUM_OH oh - chunk_gap ch
                 + H5O_SIZEOF_MSGHDR_OH oh) size])) as Hnew.
  { apply Forall_app. split; [done|]. apply Forall_singleton.
    by apply crt_ok_zero. }
  case_match.
  - by injection Hext as <- <- <-.
  - destruct (H5MF_try_extend _ _ _ _); [|done]. cbn in Hext.
    by injection Hext as <- <- <-.
Qed.

Lemma H5O_add_chunk_crt oh addr data ty size :
  crt_idx_ok oh -> crt_idx_ok (H5O_add_chunk oh addr data ty size).1.
Proof.
  rewrite !crt_idx_ok_alt. intros Hok. unfold H5O_add_chunk.
  case_match eqn:Htail. cbn.
  apply Forall_app. split; [done|].
  apply Forall_cons. split; [by apply crt_ok_zero|].
  destruct (_ <=? _); injection Htail as <- <-; [|done].
  apply Forall_singleton. by apply crt_ok_zero.
Qed.

Lemma H5O_alloc_crt depth oh fs ty size oh' fs' idx :
  H5O_alloc depth oh fs ty size = Ok (oh', fs', idx) ->
  crt_idx_ok oh -> crt_idx_ok oh'.
Proof.
  revert oh fs ty size oh' fs' idx.
  assert (forall oh fs ty size oh' fs' idx
            (rest : result (H5O_t * FS * nat)),
            (rest = Ok (oh', fs', idx) -> crt_idx_ok oh -> crt_idx_ok oh') ->
            (if size <? 0 then Err InvalidOperation else
             match H5O_alloc_find_best_null oh size with
             | Some i =>
               match oh_mesg oh !! i with
               | Some m => let '(oh, idx) := H5O_alloc_null oh i m ty size in
                           Ok (oh, fs, idx)
               | None => Err InvalidOperation
               end
             | None =>
               match H5O_alloc_extend_chunk oh fs ty size with
               | Some r => Ok r
               | None => rest
               end
             end) = Ok (oh', fs', idx) ->
            crt_idx_ok oh -> crt_idx_ok oh') as Hstep.
  { intros oh fs ty size oh' fs' idx rest Hrest.
    destruct (size <? 0); [done|].
    destruct (H5O_alloc_find_best_null oh size) as [i|].
    - destruct (oh_mesg oh !! i) as [m|] eqn:Hi; [|done].
      pose proof (H5O_alloc_null_crt oh i m ty size Hi) as Hnull.
      destruct (H5O_alloc_null oh i m ty size) as [oh1 idx1].
      intros [= <- <- <-]. exact Hnull.
    - destruct (H5O_alloc_extend_chunk oh fs ty size) as [[[oh1 fs1] idx1]|]
        eqn:Hext; [|done].
      intros [= <- <- <-]. by eapply H5O_alloc_extend_chunk_crt. }
  induction depth as [|depth IH]; intros oh fs ty size oh' fs' idx.
  - cbn [H5O_alloc]. by apply Hstep.
  - cbn [H5O_alloc]. apply Hstep.
    case_bool_decide; [done|].
    destruct (H5MF_alloc fs _) as [[addr fs1]|]; [|done].
    destruct (H5O_alloc depth oh fs1 H5O_MSG_CONT (cont_raw_size oh))
      as [[[oh1 fs2] icont]|] eqn:Hrec; [|done].
    cbn. destruct (oh_mesg oh1 !! icont) as [mc|] eqn:Hic; [|done].
    match goal with
    | |- context [H5O_add_chunk ?o ?a ?d ?t ?s] =>
      pose proof (H5O_add_chunk_crt o a d t s) as Hadd;
      destruct (H5O_add_chunk o a d t s) as [oh2 idx2]
    end.
    intros [= <- <- <-] Hok. apply Hadd.
    rewrite crt_idx_ok_alt. cbn. apply Forall_insert.
    + by apply (IH _ _ _ _ _ _ _ Hrec).
    + apply crt_ok_set_value.
Qed.

Lemma H5O_merge_pair_crt oh i j :
  crt_idx_ok oh -> crt_idx_ok (H5O_merge_pair oh i j).
Proof.
  rewrite !crt_idx_ok_alt. intros Hok. unfold H5O_merge_pair.
  destruct (oh_mesg oh !! i) as [m1|] eqn:Hi; [|done].
  destruct (oh_mesg oh !! j) as [m2|]; [|done].
  destruct (_ && _); [|done]. cbn.
  apply Forall_delete, Forall_insert; [done|].
  exact (Forall_lookup_1 _ _ _ _ Hok Hi).
Qed.

Lemma H5O_merge_null_crt fuel oh :
  crt_idx_ok oh -> crt_idx_ok (H5O_merge_null fuel oh).
Proof.
  revert oh. induction fuel as [|fuel IH]; intros oh Hok; [done|].
  cbn. destruct (find_adjacent oh) as [[i j]|]; [|done].
  by apply IH, H5O_merge_pair_crt.
Qed.

Lemma H5O_mesg_to_null_crt oh i oh' :
  H5O_mesg_to_null oh i = Ok oh' -> crt_idx_ok oh -> crt_idx_ok oh'.
Proof.
  unfold H5O_mesg_to_null.
  destruct (oh_mesg oh !! i) as [m|]; [|done].
  destruct (mesg_locked m); [done|]. intros [= <-] Hok.
  apply H5O_merge_null_crt. rewrite crt_idx_ok_alt. cbn.
  apply Forall_insert; [done|]. by apply crt_ok_zero.
Qed.

Lemma H5O_chunk_delete_crt oh fs c oh' fs' addr :
  H5O_chunk_delete oh fs c = Some (oh', fs', addr) ->
  crt_idx_ok oh -> crt_idx_ok oh'.
Proof.
  unfold H5O_chunk_delete.
  destruct (oh_chunk oh !! c) as [ch|]; [|done]. cbn.
  intros [= <- <- <-]. rewrite !crt_idx_ok_alt. cbn. intros Hok.
  apply crt_ok_fmap; [|by apply crt_ok_filter].
  intros m. unfold renumber. by case_bool_decide.
Qed.

Lemma H5O_chunk_remove_crt fuel oh fs c oh' fs' :
  H5O_chunk_remove fuel oh fs c = Ok (oh', fs') ->
  crt_idx_ok oh -> crt_idx_ok oh'.
Proof.
  revert oh fs c oh' fs'.
  induction fuel as [|fuel IH]; intros oh fs c oh' fs';
    cbn [H5O_chunk_remove]; (destruct c as [|c]; [done|]);
    (destruct (H5O_chunk_delete oh fs (S c)) as [[[oh1 fs1] addr]|] eqn:Hdel;
      [|done]);
    intros Hrem Hok;
    pose proof (H5O_chunk_delete_crt _ _ _ _ _ _ Hdel Hok) as Hok1;
    (destruct (find_index _ _) as [k|]; [|by injection Hrem as <- <-]);
    (destruct (oh_mesg oh1 !! k) as [mk|]; [|done]);
    (destruct (H5O_mesg_to_null oh1 k) as [oh2|] eqn:Hnull; [|done]);
    cbn in Hrem;
    pose proof (H5O_mesg_to_null_crt _ _ _ Hnull Hok1) as Hok2;
    destruct (_ && _); try done; try (by injection Hrem as <- <-).
  by eapply IH.
Qed.

Lemma H5O_release_crt oh fs i oh' fs' :
  H5O_release oh fs i = Ok (oh', fs') -> crt_idx_ok oh -> crt_idx_ok oh'.
Proof.
  unfold H5O_release.
  destruct (oh_mesg oh !! i) as [m|]; [|done].
  destruct (H5O_mesg_to_null oh i) as [oh1|] eqn:Hnull; [|done]. cbn.
  intros Hrel Hok.
  pose proof (H5O_mesg_to_null_crt _ _ _ Hnull Hok) as Hok1.
  destruct (_ && _).
  - by eapply H5O_chunk_remove_crt.
  - by injection Hrel as <- <-.
Qed.

Lemma H5O_condense_chunk_crt oh c :
  crt_idx_ok oh -> crt_idx_ok (H5O_condense_chunk oh c).
Proof.
  intros Hok. unfold H5O_condense_chunk.
  destruct (oh_chunk oh !! c) as [ch|]; [|done].
  destruct (has_locked oh c); [done|].
  rewrite crt_idx_ok_alt. cbn.
  apply crt_ok_fmap; [|by apply crt_ok_filter].
  intros m. by case_bool_decide.
Qed.

Lemma H5O_condense_from_crt n oh fs oh' fs' :
  H5O_condense_from n oh fs = Ok (oh', fs') ->
  crt_idx_ok oh -> crt_idx_ok oh'.
Proof.
  revert oh fs oh' fs'. induction n as [|c IH]; intros oh fs oh' fs'.
  - cbn. by intros [= <- <-].
  - cbn [H5O_condense_from]. destruct (_ && _).
    + destruct (H5O_chunk_remove _ oh fs c) as [[oh1 fs1]|] eqn:Hrem; [|done].
      cbn. intros Hrec Hok. eapply IH; [done|].
      by eapply H5O_chunk_remove_crt.
    + cbn. intros Hrec Hok. eapply IH; [done|].
      by apply H5O_condense_chunk_crt.
Qed.

Lemma H5O_msg_append_crt oh fs f ty flags v oh' fs' idx :
  H5O_msg_append oh fs f ty flags v = Ok (oh', fs', idx) ->
  crt_idx_ok oh -> crt_idx_ok oh'.
Proof.
  unfold H5O_msg_append.
  destruct (H5O_msg_raw_size oh f ty v) as [size|]; [|done]. cbn.
  destruct (match class_get_crt_index (class_at ty) with
            | Some get => _ | None => _ end) as [crt|]; [|done]. cbn.
  destruct (H5O_alloc alloc_depth oh fs ty size) as [[[oh1 fs1] idx1]|]
    eqn:Halloc; [|done]. cbn.
  destruct (oh_mesg oh1 !! idx1) as [m|]; [|done].
  intros [= <- <- <-] Hok. rewrite crt_idx_ok_alt. cbn.
  apply Forall_insert; [by eapply H5O_alloc_crt|apply crt_ok_set_value].
Qed.

Lemma H5O_msg_write_crt oh fs f i v oh' fs' idx :
  H5O_msg_write oh fs f i v = Ok (oh', fs', idx) ->
  crt_idx_ok oh -> crt_idx_ok oh'.
Proof.
  unfold H5O_msg_write.
  destruct (oh_mesg oh !! i) as [m|]; [|done].
  destruct (H5O_msg_raw_size oh f (mesg_type m) v) as [size|]; [|done]. cbn.
  destruct (size =? mesg_raw_size m).
  - intros [= <- <- <-] Hok. rewrite crt_idx_ok_alt. cbn.
    apply Forall_insert; [done|apply crt_ok_set_value].
  - destruct (H5O_release oh fs i) as [[oh1 fs1]|] eqn:Hrel; [|done]. cbn.
    intros Happ Hok. eapply H5O_msg_append_crt; [done|].
    by eapply H5O_release_crt.
Qed.

Lemma H5O_msg_remove_loop_crt fuel oh fs ty op oh' fs' :
  H5O_msg_remove_loop fuel oh fs ty op = Ok (oh', fs') ->
  crt_idx_ok oh -> crt_idx_ok oh'.
Proof.
  revert oh fs oh' fs'. induction fuel as [|fuel IH]; intros oh fs oh' fs'.
  - cbn. by intros [= <- <-].
  - cbn [H5O_msg_remove_loop].
    destruct (find_index _ _) as [i|]; [|by intros [= <- <-]].
    destruct (H5O_release oh fs i) as [[oh1 fs1]|] eqn:Hrel; [|done]. cbn.
    intros Hrec Hok. eapply IH; [done|]. by eapply H5O_release_crt.
Qed.

Lemma H5O_msg_iterate_from_crt todo i oh f ty callback oh' vs :
  H5O_msg_iterate_from todo i oh f ty callback = Ok (oh', vs) ->
  crt_idx_ok oh -> crt_idx_ok oh'.
Proof.
  revert i oh oh' vs. induction todo as [|todo IH]; intros i oh oh' vs.
  - cbn. by intros [= <- <-].
  - cbn [H5O_msg_iterate_from].
    destruct (oh_mesg oh !! i) as [m|] eqn:Hm; [|by intros [= <- <-]].
    case_bool_decide; [|by apply IH].
    destruct (H5O_LOAD_NATIVE f 0 0 oh m CorruptFormat)
      as [[oh1 m1]|e s|] eqn:Hload; [|done|done].
    intros Hit Hok.
    assert (flow_state (H5O_LOAD_NATIVE f 0 0 oh m CorruptFormat)
            = Some (oh1, m1)) as Hst by (by rewrite Hload).
    destruct (H5O_LOAD_NATIVE_frame _ _ _ _ _ _ _ _ Hst)
      as ((Hms & _) & (_ & _ & _ & Hcrt)).
    assert (crt_idx_ok (with_mesg oh1 (<[i := m1]> (oh_mesg oh1)))) as Hok1.
    { rewrite crt_idx_ok_alt. cbn. rewrite Hms.
      apply Forall_insert; [done|]. unfold crt_ok. rewrite Hcrt.
      exact (Forall_lookup_1 _ _ _ _ Hok Hm). }
    destruct (mesg_native m1) as [v|]; [|done].
    destruct (callback v).
    + by injection Hit as <- <-.
    + destruct (H5O_msg_iterate_from todo (S i) _ f ty callback)
        as [[oh2 vs2]|] eqn:Hrec; [|done].
      cbn in Hit. injection Hit as <- <-. by eapply IH.
Qed.

Lemma H5O_flush_crt oh f : crt_idx_ok oh -> crt_idx_ok (H5O_flush oh f).
Proof.
  rewrite !crt_idx_ok_alt. intros Hok. unfold H5O_flush. cbn.
  by apply crt_ok_fmap.
Qed.

Lemma H5O_apply_crt f o oh fs oh' fs' :
  H5O_apply f o oh fs = Ok (oh', fs') -> crt_idx_ok oh -> crt_idx_ok oh'.
Proof.
  destruct o as [ty size|i| |ty flags v|i v|ty op|ty callback| ]; cbn.
  - destruct (H5O_alloc _ _ _ _ _) as [[[oh1 fs1] idx]|] eqn:Hop; [|done].
    intros [= <- <-]. by eapply H5O_alloc_crt.
  - by apply H5O_release_crt.
  - by apply H5O_condense_from_crt.
  - destruct (H5O_msg_append _ _ _ _ _ _) as [[[oh1 fs1] idx]|] eqn:Hop;
      [|done].
    intros [= <- <-]. by eapply H5O_msg_append_crt.
  - destruct (H5O_msg_write _ _ _ _ _) as [[[oh1 fs1] idx]|] eqn:Hop; [|done].
    intros [= <- <-]. by eapply H5O_msg_write_crt.
  - by apply H5O_msg_remove_loop_crt.
  - destruct (H5O_msg_iterate _ _ _ _) as [[oh1 vs]|] eqn:Hop; [|done].
    intros [= <- <-]. by eapply H5O_msg_iterate_from_crt.
  - intros [= <- <-]. by apply H5O_flush_crt.
Qed.

Lemma H5O_create_crt fs0 ss sa version flags hint oh fs :
  H5O_create fs0 ss sa version flags hint = Ok (oh, fs) -> crt_idx_ok oh.
Proof.
  unfold H5O_create. destruct (H5MF_alloc _ _) as [[addr fs1]|]; [|done].
  intros [= <- <-]. rewrite crt_idx_ok_alt. cbn.
  apply Forall_singleton. by apply crt_ok_zero.
Qed.

End EngineCrt.

(** ** The engine: decoding *)

Lemma field_length (bs : list Byte.byte) (pos len : Z) :
  0 <= len -> Z.of_nat (length (field bs pos len)) <= len.
Proof. intros Hlen. unfold field. rewrite length_take. lia. Qed.

Section EngineLoad.

Context `{H5Opublic} {H5F_t Native class_ptr FS : Type}.
Context `{!H5Oenv H5F_t Native class_ptr} `{!H5Ocollab Native class_ptr FS}.
Context `{!H5Owire class_ptr} `{!EqDecision class_ptr}.

Local Abbreviation H5O_t := (H5O_t Native class_ptr).
Local Abbreviation H5O_mesg_t := (H5O_mesg_t Native class_ptr).

Implicit Types (oh : H5O_t) (m : H5O_mesg_t) (ms : list H5O_mesg_t).
Implicit Types (c i j : nat) (fs : FS) (f : H5F_t).

(** A creation index read from a message header on disk is a 16-bit
    value. *)
Lemma H5O_msghdr_decode_crt oh bs :
  0 <= wire_crt_idx (H5O_msghdr_decode oh bs) <= H5O_MAX_CRT_ORDER_IDX.
Proof.
  unfold H5O_msghdr_decode, H5O_MAX_CRT_ORDER_IDX.
  destruct (oh_version oh =? H5O_VERSION_1); cbn; [lia|].
  destruct (flag_set _ _); [|lia].
  pose proof (uint_decode_range (field bs 4 2)) as Hr.
  pose proof (field_length bs 4 2 ltac:(lia)) as Hl.
  assert (256 ^ Z.of_nat (length (field bs 4 2)) <= 256 ^ 2)
    by (apply Z.pow_le_mono_r; lia).
  lia.
Qed.

(** The records of a chunk fill it up to its gap. *)
Lemma H5O_chunk_messages_spec fuel oh c img pos last ms gap :
  H5O_chunk_messages fuel oh c img pos last = Ok (ms, gap) ->
  used_in oh c ms + gap = last - pos /\
  Forall (fun m => mesg_chunkno m = c) ms /\
  Forall crt_ok ms.
Proof.
  revert pos ms gap. induction fuel as [|fuel IH]; intros pos ms gap;
    cbn [H5O_chunk_messages].
  - destruct (_ <? H5O_SIZEOF_MSGHDR_OH oh); [|done].
    destruct (_ <? 0); [done|]. intros [= <- <-]. cbn. split; [lia|done].
  - destruct (_ <? H5O_SIZEOF_MSGHDR_OH oh).
    { destruct (_ <? 0); [done|]. intros [= <- <-]. cbn. split; [lia|done]. }
    set (w := H5O_msghdr_decode oh (drop (Z.to_nat pos) img)).
    destruct (last <? _); [done|].
    destruct (H5O_wire_class w) as [ty|]; [|done]. cbn.
    destruct (H5O_chunk_messages fuel oh c img _ last) as [[ms1 gap1]|]
      eqn:Hrec; [|done].
    cbn. intros [= <- <-].
    destruct (IH _ _ _ Hrec) as (Hsum & Hc & Hcrt).
    rewrite used_in_cons. unfold weight, mesg_space. cbn.
    rewrite bool_decide_eq_true_2 by done.
    split; [lia|]. split; [by apply Forall_cons|].
    apply Forall_cons. split; [|done]. apply H5O_msghdr_decode_crt.
Qed.

(** A chunk added at the end of the chunk table, with its messages. *)
Lemma wf_push_chunk oh ch ms :
  Forall (fun m => mesg_chunkno m = length (oh_chunk oh)) ms ->
  used_in oh (length (oh_chunk oh)) ms + chunk_gap ch
  + chunk_overhead oh (length (oh_chunk oh)) = chunk_size ch ->
  wf oh ->
  wf (with_chunk (with_mesg oh (oh_mesg oh ++ ms)) (oh_chunk oh ++ [ch])).
Proof.
  intros Hms Hsize [Hsz Hok].
  set (c := length (oh_chunk oh)) in *.
  assert (used_in oh c (oh_mesg oh) = 0) as Hfresh.
  { apply used_in_absent. eapply Forall_impl; [exact Hok|]. cbn. lia. }
  split.
  - intros c' ch' Hc'. cbn [oh_chunk with_chunk] in Hc'.
    unfold chunk_used. cbn [oh_mesg with_mesg with_chunk].
    rewrite (same_layout_used oh) by done.
    rewrite (same_layout_overhead oh) by done.
    rewrite used_in_app.
    destruct (decide (c' = c)) as [->|Hc].
    + rewrite lookup_app_r in Hc' by done.
      replace (c - length (oh_chunk oh))%nat with 0%nat in Hc' by lia.
      injection Hc' as <-. lia.
    + assert (c' < c)%nat as Hlt.
      { apply lookup_lt_Some in Hc'. rewrite length_app in Hc'. cbn in Hc'.
        lia. }
      rewrite lookup_app_l in Hc' by done.
      specialize (Hsz _ _ Hc'). unfold chunk_used in Hsz.
      rewrite (used_in_absent oh c' ms); [lia|].
      eapply Forall_impl; [exact Hms|]. cbn. lia.
  - unfold chunkno_ok in *. cbn. rewrite length_app. cbn.
    apply Forall_app. split.
    + eapply Forall_impl; [exact Hok|]. cbn. lia.
    + eapply Forall_impl; [exact Hms|]. cbn. lia.
Qed.

Lemma H5O_load_chunks_wf fuel oh pending oh' :
  H5O_load_chunks fuel oh pending = Ok oh' ->
  wf oh -> wf oh' /\ same_layout oh oh'.
Proof.
  revert oh pending. induction fuel as [|fuel IH]; intros oh pending;
    (destruct pending as [|k pending]; cbn [H5O_load_chunks];
     [by intros [= <-]|]); [done|].
  destruct (length (oh_chunk oh)) as [|c] eqn:Hlen; [done|].
  destruct (H5F_block_read _ _) as [img|]; [|done].
  destruct (negb _); [done|].
  destruct (H5O_chunk_verify oh H5O_CHK_MAGIC img); [|done]. cbn.
  destruct (H5O_chunk_messages _ oh (S c) img _ _) as [[ms gap]|] eqn:Hms;
    [|done].
  cbn. intros Hrec Hwf.
  destruct (H5O_chunk_messages_spec _ _ _ _ _ _ _ _ Hms) as (Hsum & Hc & _).
  destruct (IH _ _ Hrec) as [Hwf' Hl'].
  - apply wf_push_chunk; [by rewrite Hlen| |done].
    rewrite Hlen. cbn [chunk_gap chunk_size].
    unfold chunk_first in Hsum. cbn in *.
    unfold H5O_SIZEOF_CHKSUM_OH, H5O_SIZEOF_CHKHDR_OH in *. lia.
  - split; [done|]. eapply same_layout_trans; [|exact Hl']. done.
Qed.

Lemma H5O_prefix_decode_empty ss sa buf oh data :
  H5O_prefix_decode ss sa buf = Ok (oh, data) ->
  oh_mesg oh = [] /\ oh_chunk oh = [].
Proof.
  unfold H5O_prefix_decode. repeat case_match; try done; by intros [= <- <-].
Qed.

Lemma H5O_load_wf fuel ss sa addr buf oh :
  H5O_load fuel ss sa addr buf = Ok oh -> wf oh.
Proof.
  unfold H5O_load.
  destruct (H5O_prefix_decode ss sa buf) as [[oh0 data]|] eqn:Hpre; [|done].
  cbn. destruct (_ <? _); [done|].
  destruct (H5O_chunk_verify oh0 H5O_HDR_MAGIC _); [|done]. cbn.
  destruct (H5O_chunk_messages _ oh0 0 _ _ _) as [[ms gap]|] eqn:Hms; [|done].
  cbn.
  destruct (H5O_load_chunks fuel _ _) as [oh1|] eqn:Hrec; [|done]. cbn.
  intros [= <-].
  destruct (H5O_prefix_decode_empty _ _ _ _ _ Hpre) as [Hm0 Hc0].
  destruct (H5O_chunk_messages_spec _ _ _ _ _ _ _ _ Hms) as (Hsum & Hc & _).
  assert (wf oh0) as Hwf0.
  { split.
    - intros c ch. by rewrite Hc0.
    - unfold chunkno_ok. by rewrite Hm0. }
  match type of Hrec with
  | H5O_load_chunks _ ?o _ = _ => assert (wf o) as Hwf1
  end.
  { pose proof (wf_push_chunk oh0
                  (mk_chunk addr (H5O_SIZEOF_HDR oh0 + data) gap
                     (take (Z.to_nat (H5O_SIZEOF_HDR oh0 + data)) buf)) ms)
      as Hpush.
    rewrite Hm0, Hc0 in Hpush. apply Hpush; [done| |done].
    cbn [length chunk_gap chunk_size chunk_overhead].
    unfold chunk_first in Hsum. cbn in Hsum. lia. }
  destruct (H5O_load_chunks_wf _ _ _ _ Hrec Hwf1) as [Hwf2 _].
  by apply H5O_merge_null_wf.
Qed.

Lemma H5O_load_chunks_crt fuel oh pending oh' :
  H5O_load_chunks fuel oh pending = Ok oh' ->
  crt_idx_ok oh -> crt_idx_ok oh'.
Proof.
  revert oh pending. induction fuel as [|fuel IH]; intros oh pending;
    (destruct pending as [|k pending]; cbn [H5O_load_chunks];
     [by intros [= <-]|]); [done|].
  destruct (length (oh_chunk oh)) as [|c]; [done|].
  destruct (H5F_block_read _ _) as [img|]; [|done].
  destruct (negb _); [done|].
  destruct (H5O_chunk_verify oh H5O_CHK_MAGIC img); [|done]. cbn.
  destruct (H5O_chunk_messages _ oh (S c) img _ _) as [[ms gap]|] eqn:Hms;
    [|done].
  cbn. intros Hrec Hok.
  destruct (H5O_chunk_messages_spec _ _ _ _ _ _ _ _ Hms) as (_ & _ & Hcrt).
  apply (IH _ _ Hrec). rewrite crt_idx_ok_alt in *. cbn.
  by apply Forall_app.
Qed.

Lemma H5O_load_crt fuel ss sa addr buf oh :
  H5O_load fuel ss sa addr buf = Ok oh -> crt_idx_ok oh.
Proof.
  unfold H5O_load.
  destruct (H5O_prefix_decode ss sa buf) as [[oh0 data]|] eqn:Hpre; [|done].
  cbn. destruct (_ <? _); [done|].
  destruct (H5O_chunk_verify oh0 H5O_HDR_MAGIC _); [|done]. cbn.
  destruct (H5O_chunk_messages _ oh0 0 _ _ _) as [[ms gap]|] eqn:Hms; [|done].
  cbn.
  destruct (H5O_load_chunks fuel _ _) as [oh1|] eqn:Hrec; [|done]. cbn.
  intros [= <-].
  destruct (H5O_chunk_messages_spec _ _ _ _ _ _ _ _ Hms) as (_ & _ & Hcrt).
  apply H5O_merge_null_crt. apply (H5O_load_chunks_crt _ _ _ _ Hrec).
  by rewrite crt_idx_ok_alt.
Qed.

End EngineLoad.

(** ** The invariants of live headers *)

Section Live.

Context `{H5Opublic} {H5F_t Native class_ptr FS : Type}.
Context `{!H5Oenv H5F_t Native class_ptr} `{!H5Ocollab Native class_ptr FS}.
Context `{!H5Owire class_ptr} `{!EqDecision class_ptr}.

Implicit Types (oh : H5O_t Native class_ptr) (fs : FS) (f : H5F_t).

Lemma H5O_run_live f os oh fs oh' fs' :
  live f oh fs -> H5O_run f os oh fs = Ok (oh', fs') -> live f oh' fs'.
Proof.
  revert oh fs. induction os as [|o os IH]; intros oh fs Hlive.
  - cbn. by intros [= <- <-].
  - cbn [H5O_run].
    destruct (H5O_apply f o oh fs) as [[oh1 fs1]|] eqn:Hop; [|done]. cbn.
    apply IH. by eapply live_apply.
Qed.

Lemma live_wf f oh fs : live f oh fs -> wf oh.
Proof.
  induction 1 as [fs0 ss sa version flags hint oh fs Hc
                 |fuel ss sa addr buf oh fs Hl
                 |o oh fs oh' fs' _ IH Hop].
  - by eapply H5O_create_wf.
  - by eapply H5O_load_wf.
  - by eapply H5O_apply_wf.
Qed.

Lemma live_crt f oh fs : live f oh fs -> crt_idx_ok oh.
Proof.
  induction 1 as [fs0 ss sa version flags hint oh fs Hc
                 |fuel ss sa addr buf oh fs Hl
                 |o oh fs oh' fs' _ IH Hop].
  - by eapply H5O_create_crt.
  - by eapply H5O_load_crt.
  - by eapply H5O_apply_crt.
Qed.

(** C1 (amended): for every chunk of a live object header (a header that
    was created and then operated on), the raw sizes of the messages that
    reside in the chunk, plus the header overhead of each of these
    messages, plus the gap of the chunk, plus the framing of the chunk
    itself (the prefix of the object header in chunk 0; in a continuation
    chunk the chunk header, which is the magic number and the checksum in
    version 2 and nothing in version 1) equal the size of the chunk; and
    every operation on the messages and chunks keeps this equation. *)
Theorem live_chunk_sizes f oh fs :
  live f oh fs ->
  chunk_sizes_ok oh /\
  (forall o oh' fs',
     H5O_apply f o oh fs = Ok (oh', fs') -> chunk_sizes_ok oh').
Proof.
  intros Hlive. split.
  - by apply (live_wf f oh fs).
  - intros o oh' fs' Hop. apply (live_wf f oh' fs'). by eapply live_apply.
Qed.

(** C6: every message of a live object header has a creation index
    between 0 and 65535, the largest 16-bit value, which is
    [H5O_MAX_CRT_ORDER_IDX]; every operation on the header keeps this
    bound; and the index of a message is assigned when the message is
    appended: it is the index the codec reads off the appended value (0
    for a class without creation indices) as a 16-bit value. *)
Theorem live_crt_idx f oh fs :
  live f oh fs ->
  H5O_MAX_CRT_ORDER_IDX = 2 ^ 16 - 1 /\
  Forall (fun m => 0 <= mesg_crt_idx m <= 65535) (oh_mesg oh) /\
  (forall o oh' fs',
     H5O_apply f o oh fs = Ok (oh', fs') ->
     Forall (fun m => 0 <= mesg_crt_idx m <= 65535) (oh_mesg oh')) /\
  (forall ty flags v oh' fs' idx,
     H5O_msg_append oh fs f ty flags v = Ok (oh', fs', idx) ->
     exists m crt,
       oh_mesg oh' !! idx = Some m /\ mesg_native m = Some v /\
       match class_get_crt_index (class_at ty) with
       | Some get => crt = (get v).2
       | None => crt = 0
       end /\
       mesg_crt_idx m = H5O_msg_crt_idx_t crt /\
       0 <= mesg_crt_idx m <= 65535).
Proof.
  intros Hlive. split; [done|]. split; [exact (live_crt f oh fs Hlive)|].
  split.
  - intros o oh' fs' Hop.
    apply (live_crt f oh' fs'). by eapply live_apply.
  - intros ty flags v oh' fs' idx. unfold H5O_msg_append.
    destruct (H5O_msg_raw_size oh f ty v) as [size|]; [|done]. cbn.
    destruct (class_get_crt_index (class_at ty)) as [get|].
    + destruct ((get v).1 <? 0); [done|]. cbn.
      destruct (H5O_alloc alloc_depth oh fs ty size) as [[[oh1 fs1] idx1]|];
        [|done]. cbn.
      destruct (oh_mesg oh1 !! idx1) as [m|] eqn:Hm; [|done].
      intros [= <- <- <-]. eexists _, (get v).2. cbn.
      rewrite list_lookup_insert_eq by (by eapply lookup_lt_Some).
      split; [done|]. split; [done|]. split; [done|]. split; [done|].
      apply H5O_msg_crt_idx_t_range.
    + cbn.
      destruct (H5O_alloc alloc_depth oh fs ty size) as [[[oh1 fs1] idx1]|];
        [|done]. cbn.
      destruct (oh_mesg oh1 !! idx1) as [m|] eqn:Hm; [|done].
      intros [= <- <- <-]. eexists _, 0. cbn.
      rewrite list_lookup_insert_eq by (by eapply lookup_lt_Some).
      split; [done|]. split; [done|]. split; [done|]. split; [done|].
      apply H5O_msg_crt_idx_t_range.
Qed.

End Live.

(** The sample history is one of a live header, with two chunks. *)
Lemma Sample_final_live :
  live (H := Sample.flags) (H5Oenv0 := Sample.env)
       (H5Ocollab0 := Sample.collab) (H5Owire0 := Sample.wire)
       1 Sample.final 1792.
Proof.
  eapply (H5O_run_live 1 Sample.script).
  - eapply (live_create 1 1024 8 8 2 0 0). reflexivity.
  - reflexivity.
Qed.

(** The sample header on disk decodes to a live header of two chunks:
    chunk 0 of 56 bytes with the prefix (16), an attribute (8 + 8) and
    the continuation message (8 + 16); the continuation chunk of 24 bytes
    with its null message (8 + 16). *)
Lemma Sample_disk_live :
  exists oh,
    H5O_load (H := Sample.flags) (H5Ocollab0 := Sample.collab)
      (H5Owire0 := Sample.wire) 5 8 8 1024 Sample.disk_chunk0 = Ok oh /\
    live (H := Sample.flags) (H5Oenv0 := Sample.env)
      (H5Ocollab0 := Sample.collab) (H5Owire0 := Sample.wire) 1 oh 4096 /\
    (chunk_size <$> oh_chunk oh) = [56; 24] /\
    (mesg_raw_size <$> oh_mesg oh) = [8; 16; 16] /\
    chunk_used (H := Sample.flags) oh 0 = 40 /\
    chunk_used (H := Sample.flags) oh 1 = 24.
Proof.
  eexists. split; [by vm_compute|]. split; [|by vm_compute].
  eapply (live_load 1 5 8 8 1024 Sample.disk_chunk0). by vm_compute.
Qed.

(** C1, as stated, fails on the sample header, which is live: the
    messages of chunk 0 (a null message of 102 bytes, an attribute of 90
    and a continuation message of 16, each with a header of 4) take 220
    bytes, the gap is empty, and the chunk has 231 bytes, the prefix
    taking 11; the attribute of 300 bytes in the continuation chunk takes
    304 bytes and the chunk has 312, the magic number and the checksum
    taking 8. *)
Lemma chunk_sizes_claimed_fails :
  live (H := Sample.flags) (H5Oenv0 := Sample.env)
       (H5Ocollab0 := Sample.collab) (H5Owire0 := Sample.wire)
       1 Sample.final 1792 /\
  (chunk_used (H := Sample.flags) Sample.final 0 = 220 /\
   (chunk_gap <$> oh_chunk Sample.final !! 0%nat) = Some 0 /\
   (chunk_size <$> oh_chunk Sample.final !! 0%nat) = Some 231) /\
  (chunk_used (H := Sample.flags) Sample.final 1 = 304 /\
   (chunk_gap <$> oh_chunk Sample.final !! 1%nat) = Some 0 /\
   (chunk_size <$> oh_chunk Sample.final !! 1%nat) = Some 312) /\
  ~ chunk_sizes_claimed (H := Sample.flags) Sample.final.
Proof.
  split; [exact Sample_final_live|].
  split; [by vm_compute|]. split; [by vm_compute|].
  intros Hclaim.
  pose proof (Hclaim 1%nat _ eq_refl) as Hbad.
  vm_compute in Hbad. discriminate.
Qed.

Lemma live_chunk_sizes_witness :
  chunk_sizes_ok (H := Sample.flags) Sample.final /\
  (forall o oh' fs',
     H5O_apply (H := Sample.flags) (H5Oenv0 := Sample.env)
       (H5Ocollab0 := Sample.collab) 1 o Sample.final 1792 = Ok (oh', fs') ->
     chunk_sizes_ok (H := Sample.flags) oh').
Proof.
  apply (live_chunk_sizes (H := Sample.flags) (H5Oenv0 := Sample.env)
           (H5Ocollab0 := Sample.collab) (H5Owire0 := Sample.wire)
       1 Sample.final 1792).
  eapply (H5O_run_live 1 Sample.script).
  - eapply (live_create 1 1024 8 8 2 0 0). reflexivity.
  - reflexivity.
Defined.

Lemma live_crt_idx_witness :
  Forall (fun m => 0 <= mesg_crt_idx m <= 65535) (oh_mesg Sample.final).
Proof.
  refine (proj1 (proj2 (live_crt_idx (H := Sample.flags)
                          (H5Oenv0 := Sample.env)
                          (H5Ocollab0 := Sample.collab)
                          (H5Owire0 := Sample.wire)
                          1 Sample.final 1792 _))).
  eapply (H5O_run_live 1 Sample.script).
  - eapply (live_create 1 1024 8 8 2 0 0). reflexivity.
  - reflexivity.
Defined.

(** * Further properties *)

(** ** The plugin API: arguments, bounds and the caller's buffer *)

Section PluginMore.

Context `{H5private} {T : Type} `{!H5PLpath T}.
Implicit Types s : H5PL_state T.

(** X1: [H5PLappend], [H5PLprepend], [H5PLreplace] and [H5PLinsert]
    reject a null search path and a search path of length zero: they
    return a negative value and leave the state, the path table in
    particular, as it was, whatever the index and the table. *)
Theorem H5PL_null_or_empty_path search_path index s :
  search_path = None \/ search_path = Some ""%string ->
  ((H5PLappend search_path s).1 < 0 /\ (H5PLappend search_path s).2 = s) /\
  ((H5PLprepend search_path s).1 < 0 /\ (H5PLprepend search_path s).2 = s) /\
  ((H5PLreplace search_path index s).1 < 0 /\
   (H5PLreplace search_path index s).2 = s) /\
  ((H5PLinsert search_path index s).1 < 0 /\
   (H5PLinsert search_path index s).2 = s).
Proof.
  pose proof FAIL_neg.
  intros [-> | ->]; cbn; done.
Qed.

(** X2: the index check of [H5PLinsert] against the number of paths that
    [H5PLsize] reports.  When the table holds [n > 0] paths, an index of
    [n] or more is refused (negative value, state unchanged), so that
    [H5PLinsert] cannot add a path after the last one.  When the table
    is empty no index is refused: a non-empty path is handed to the path
    table with the index as given. *)
Theorem H5PLinsert_index_check p index s n :
  p <> ""%string ->
  (H5PLsize true s).1.2 = Some n ->
  (n <> 0 -> n <= index ->
   (H5PLinsert (Some p) index s).1 < 0 /\
   (H5PLinsert (Some p) index s).2 = s) /\
  (n = 0 ->
   H5PLinsert (Some p) index s
   = let '(r, t) := H5PL__insert_path p index (H5PL_paths s) in
     (if r <? 0 then FAIL else SUCCEED, set_paths s t)).
Proof.
  intros Hp [= Hn]. pose proof FAIL_neg.
  assert ((String.length p =? 0)%nat = false) as Hlen.
  { apply Nat.eqb_neq. by destruct p. }
  unfold H5PLinsert. rewrite Hlen, Hn. split.
  - intros Hn0 Hle.
    assert ((0 =? n) = false) as -> by lia.
    assert ((index >=? n) = true) as -> by (apply Z.geb_le; lia).
    done.
  - intros ->. cbn.
    destruct (H5PL__insert_path p index (H5PL_paths s)) as [r t].
    by destruct (r <? 0).
Qed.

(** X3: [H5PLget] with a buffer of [size > 0] bytes, for an index below
    the number of paths at which the path [p] is stored.  The call
    returns the length of [p], even when [p] does not fit, and leaves the
    state as it was.  The buffer keeps its length; it holds the first
    [k] characters of [p], where [k] is the smaller of the length of [p]
    and [size - 1], then a zero byte, and is unchanged after that. *)
Theorem H5PLget_copies index buf size s p :
  H5PL__get_num_paths (H5PL_paths s) <> 0 ->
  index < H5PL__get_num_paths (H5PL_paths s) ->
  H5PL__get_path index (H5PL_paths s) = Some p ->
  0 < size <= Z.of_nat (length buf) ->
  exists buf',
    H5PLget index (Some buf) size s
    = Some (Z.of_nat (String.length p), Some buf', s) /\
    length buf' = length buf /\
    let k := Z.to_nat (Z.min (Z.of_nat (String.length p)) (size - 1)) in
    take k buf' = take k (list_ascii_of_string p) /\
    buf' !! k = Some Ascii.zero /\
    drop (S k) buf' = drop (S k) buf.
Proof.
  intros Hn Hidx Hp Hsize. unfold H5PLget.
  assert ((0 =? H5PL__get_num_paths (H5PL_paths s)) = false) as -> by lia.
  assert ((index >=? H5PL__get_num_paths (H5PL_paths s)) = false) as ->.
  { rewrite Z.geb_leb. lia. }
  assert ((H5PL__get_num_paths (H5PL_paths s) =? 0) = false) as -> by lia.
  rewrite Hp.
  set (len := Z.of_nat (String.length p)).
  assert (length (list_ascii_of_string p) = String.length p) as Hchars.
  { clear. induction p as [|c p IH]; cbn; [done|by rewrite IH]. }
  assert ((Z.of_nat (length buf) <? Z.min (len + 1) size) = false) as -> by lia.
  assert ((size =? 0) = false) as -> by lia.
  rewrite andb_false_r. cbn [orb].
  unfold HDstrncpy.
  set (n := Z.to_nat (Z.min (len + 1) size)).
  set (src := list_ascii_of_string p ++ replicate n Ascii.zero).
  assert (length (take n src) = n) as Htk.
  { rewrite length_take. unfold src. rewrite length_app, length_replicate. lia. }
  assert (n <= length buf)%nat as Hnb by lia.
  assert (length (take n src ++ drop n buf) = length buf) as Hlen'.
  { rewrite length_app, Htk, length_drop. lia. }
  destruct (Z.geb_spec len size) as [Hge | Hlt].
  - (* the path does not fit *)
    eexists. split; [reflexivity|]. split; [by rewrite length_insert|].
    assert (n = Z.to_nat size) as Hn' by lia.
    assert (Z.to_nat (Z.min len (size - 1)) = Z.to_nat (size - 1)) as -> by lia.
    assert (Z.to_nat (size - 1) < n)%nat as Hk by lia.
    cbv zeta. split; [|split].
    + rewrite take_insert_ge by lia.
      rewrite take_app_le by lia.
      rewrite take_take. rewrite Nat.min_l by lia.
      unfold src. rewrite take_app_le; [done|]. rewrite Hchars. lia.
    + apply list_lookup_insert_eq. lia.
    + rewrite drop_insert_lt by lia.
      rewrite drop_app_ge by lia. rewrite Htk, drop_drop. f_equal. lia.
  - (* the path fits, with its terminating zero byte *)
    eexists. split; [reflexivity|]. split; [done|].
    assert (n = S (String.length p)) as Hn' by lia.
    assert (Z.to_nat (Z.min len (size - 1)) = String.length p) as -> by lia.
    cbv zeta. split; [|split].
    + rewrite take_app_le by lia. rewrite take_take, Nat.min_l by lia.
      unfold src. rewrite take_app_le by lia.
      by rewrite <- Hchars, !firstn_all.
    + rewrite lookup_app_l by lia. rewrite lookup_take_lt by lia.
      unfold src. rewrite lookup_app_r by lia.
      rewrite Hchars, Nat.sub_diag. rewrite Hn'. done.
    + rewrite drop_app_ge by lia. rewrite Htk, drop_drop. f_equal. lia.
Qed.

End PluginMore.

Lemma H5PL_null_or_empty_path_witness :
  let s := mk_H5PL 6 ["/usr/lib/plugin"%string] Sample.no_env in
  (H5PLappend (H := Sample.herr) (H5PLpath0 := Sample.paths)
     (Some ""%string) s).1 < 0 /\
  (H5PLinsert (H := Sample.herr) (H5PLpath0 := Sample.paths)
     (Some ""%string) 0 s).2 = s.
Proof.
  pose proof (H5PL_null_or_empty_path (H := Sample.herr)
                (H5PLpath0 := Sample.paths) (Some ""%string) 0
                (mk_H5PL 6 ["/usr/lib/plugin"%string] Sample.no_env)
                (or_intror eq_refl)) as (Happ & _ & _ & Hins).
  split; [apply Happ | apply Hins].
Defined.

Lemma H5PLinsert_index_check_witness :
  let s := mk_H5PL 6 ["/usr/lib/plugin"%string] Sample.no_env in
  (H5PLinsert (H := Sample.herr) (H5PLpath0 := Sample.paths)
     (Some "/opt/plugin"%string) 1 s).1 < 0 /\
  (H5PLinsert (H := Sample.herr) (H5PLpath0 := Sample.paths)
     (Some "/opt/plugin"%string) 1 s).2 = s.
Proof.
  pose proof (H5PLinsert_index_check (H := Sample.herr)
                (H5PLpath0 := Sample.paths) "/opt/plugin" 1
                (mk_H5PL 6 ["/usr/lib/plugin"%string] Sample.no_env) 1
                ltac:(discriminate) eq_refl) as [Hfull _].
  apply Hfull; lia.
Defined.

Lemma H5PLget_copies_witness :
  let s := mk_H5PL 6 ["/usr/lib/plugin"%string] Sample.no_env in
  exists buf',
    H5PLget (H := Sample.herr) (H5PLpath0 := Sample.paths)
      0 (Some (replicate 8 "x"%char)) 5 s = Some (15, Some buf', s) /\
    length buf' = 8%nat /\
    take 4 buf' = take 4 (list_ascii_of_string "/usr/lib/plugin") /\
    buf' !! 4%nat = Some Ascii.zero /\
    drop 5 buf' = drop 5 (replicate 8 "x"%char).
Proof.
  apply (H5PLget_copies (H := Sample.herr) (H5PLpath0 := Sample.paths)
           0 (replicate 8 "x"%char) 5
           (mk_H5PL 6 ["/usr/lib/plugin"%string] Sample.no_env)
           "/usr/lib/plugin");
    cbn; first [lia | reflexivity | discriminate].
Defined.

Section PluginQueries.

Context `{H5private} {T : Type} `{!H5PLpath T}.
Implicit Types s : H5PL_state T.

(** X4: the two edge cases of the buffer of [H5PLget], for an index
    below the number of paths at which a path is stored.  With a null
    buffer the call is a query for the length of the path: it returns
    that length whatever [size] is and writes nothing.  With a non-null
    buffer and [size = 0] nothing is copied and the terminating zero
    byte is stored at [path_name[size - 1]], which is outside of the
    buffer, whatever the buffer is. *)
Theorem H5PLget_null_or_empty_buffer index s p :
  H5PL__get_num_paths (H5PL_paths s) <> 0 ->
  index < H5PL__get_num_paths (H5PL_paths s) ->
  H5PL__get_path index (H5PL_paths s) = Some p ->
  (forall size,
     H5PLget index None size s = Some (Z.of_nat (String.length p), None, s)) /\
  (forall buf, H5PLget index (Some buf) 0 s = None).
Proof.
  intros Hn Hidx Hp. unfold H5PLget.
  assert ((0 =? H5PL__get_num_paths (H5PL_paths s)) = false) as -> by lia.
  assert ((index >=? H5PL__get_num_paths (H5PL_paths s)) = false) as ->.
  { rewrite Z.geb_leb. lia. }
  assert ((H5PL__get_num_paths (H5PL_paths s) =? 0) = false) as -> by lia.
  rewrite Hp. split; [done|]. intros buf.
  assert ((Z.of_nat (String.length p) >=? 0) = true) as ->.
  { apply Z.geb_le. lia. }
  by rewrite orb_true_r.
Qed.

(** X5: the loading state read back.  After [H5PLset_loading_state],
    [H5PLget_loading_state] succeeds and stores the argument of the
    setter, or 0 when [HDF5_PLUGIN_PRELOAD] is ["::"]; with a null
    pointer it succeeds as well and stores nothing.  Of two calls of the
    setter only the last one counts. *)
Theorem H5PL_loading_state_round_trip plugin_type s :
  let s1 := (H5PLset_loading_state plugin_type s).2 in
  H5PLget_loading_state true s1
  = (SUCCEED,
     Some (if bool_decide (HDgetenv s "HDF5_PLUGIN_PRELOAD" = Some "::"%string)
           then 0 else plugin_type),
     s1) /\
  H5PLget_loading_state false s1 = (SUCCEED, None, s1) /\
  (forall earlier,
     H5PLset_loading_state plugin_type (H5PLset_loading_state earlier s).2
     = H5PLset_loading_state plugin_type s).
Proof.
  cbv zeta. rewrite !H5PLset_loading_state_spec.
  change H5PL_NO_PLUGIN with "::"%string.
  split; [|split].
  - unfold H5PLget_loading_state. by case_bool_decide.
  - done.
  - intros earlier. rewrite !H5PLset_loading_state_spec.
    change H5PL_NO_PLUGIN with "::"%string.
    by repeat case_bool_decide.
Qed.

(** X6: the two halves of the state are independent.  The functions on
    the path table never change the loading state nor the environment;
    [H5PLset_loading_state] never changes the path table nor the
    environment; the three queries change nothing at all. *)
Theorem H5PL_state_separation s :
  (forall search_path index,
     let same s' :=
       H5PL_plugin_g s' = H5PL_plugin_g s /\ HDgetenv s' = HDgetenv s in
     same (H5PLappend search_path s).2 /\
     same (H5PLprepend search_path s).2 /\
     same (H5PLreplace search_path index s).2 /\
     same (H5PLinsert search_path index s).2 /\
     same (H5PLremove index s).2) /\
  (forall plugin_type,
     H5PL_paths (H5PLset_loading_state plugin_type s).2 = H5PL_paths s /\
     HDgetenv (H5PLset_loading_state plugin_type s).2 = HDgetenv s) /\
  (forall pointer index path_name size,
     (H5PLget_loading_state pointer s).2 = s /\
     (H5PLsize pointer s).2 = s /\
     (forall r, H5PLget index path_name size s = Some r -> r.2 = s)).
Proof.
  split; [|split].
  - intros search_path index. cbv zeta.
    unfold H5PLappend, H5PLprepend, H5PLreplace, H5PLinsert, H5PLremove.
    repeat split; repeat case_match; done.
  - intros plugin_type. rewrite H5PLset_loading_state_spec.
    by case_bool_decide.
  - intros pointer index path_name size. split; [done|]. split.
    + unfold H5PLsize. by destruct pointer.
    + intros r. unfold H5PLget. repeat case_match; by intros [= <-].
Qed.

(** X7: the two kinds of results of [H5PLget].  Whenever the call
    returns, a negative result comes with the buffer as it was, and a
    result that is not negative is the length of the path that the table
    stores at the index, which is then below the number of paths. *)
Theorem H5PLget_result index path_name size s r path_name' s' :
  H5PLget index path_name size s = Some (r, path_name', s') ->
  (r < 0 -> path_name' = path_name /\ s' = s) /\
  (0 <= r ->
   index < H5PL__get_num_paths (H5PL_paths s) /\
   exists p,
     H5PL__get_path index (H5PL_paths s) = Some p /\
     r = Z.of_nat (String.length p)).
Proof.
  pose proof FAIL_neg. unfold H5PLget.
  destruct (Z.eqb_spec 0 (H5PL__get_num_paths (H5PL_paths s)));
    [intros [= <- <- <-]; split; [done|lia]|].
  rewrite Z.geb_leb.
  destruct (Z.leb_spec (H5PL__get_num_paths (H5PL_paths s)) index);
    [intros [= <- <- <-]; split; [done|lia]|].
  destruct (H5PL__get_num_paths (H5PL_paths s) =? 0);
    [intros [= <- <- <-]; split; [done|lia]|].
  destruct (H5PL__get_path index (H5PL_paths s)) as [p|];
    [|intros [= <- <- <-]; split; [done|lia]].
  destruct path_name as [buf|].
  - destruct (_ || _); [done|].
    intros [= <- <- <-]. split; [lia|]. intros _. split; [done|by exists p].
  - intros [= <- <- <-]. split; [lia|]. intros _. split; [done|by exists p].
Qed.

End PluginQueries.

Lemma H5PLget_null_or_empty_buffer_witness :
  let s := mk_H5PL 6 ["/usr/lib/plugin"%string] Sample.no_env in
  H5PLget (H := Sample.herr) (H5PLpath0 := Sample.paths) 0 None 0 s
  = Some (15, None, s) /\
  H5PLget (H := Sample.herr) (H5PLpath0 := Sample.paths)
    0 (Some (replicate 8 "x"%char)) 0 s = None.
Proof.
  pose proof (H5PLget_null_or_empty_buffer (H := Sample.herr)
                (H5PLpath0 := Sample.paths) 0
                (mk_H5PL 6 ["/usr/lib/plugin"%string] Sample.no_env)
                "/usr/lib/plugin" ltac:(discriminate) ltac:(cbn; lia)
                eq_refl) as [Hnull Hzero].
  split; [apply Hnull | apply Hzero].
Defined.

Lemma H5PLget_result_witness :
  let s := mk_H5PL 6 ["/usr/lib/plugin"%string] Sample.no_env in
  exists buf',
    H5PLget (H := Sample.herr) (H5PLpath0 := Sample.paths)
      0 (Some (replicate 8 "x"%char)) 5 s = Some (15, Some buf', s) /\
    0 < H5PL__get_num_paths (H5PLpath := Sample.paths) (H5PL_paths s) /\
    exists p,
      H5PL__get_path (H5PLpath := Sample.paths) 0 (H5PL_paths s) = Some p /\
      15 = Z.of_nat (String.length p).
Proof.
  eexists. split; [reflexivity|].
  apply (H5PLget_result (H := Sample.herr) (H5PLpath0 := Sample.paths)
           0 (Some (replicate 8 "x"%char)) 5
           (mk_H5PL 6 ["/usr/lib/plugin"%string] Sample.no_env)
           15 _ _ eq_refl).
  lia.
Defined.

(** ** Alignment and the sizes of the format *)

(** X8: the version-1 alignment is compatible with sums and with the
    order.  For sizes of an unsigned type of [bits] bits that are far
    enough from its largest value, a size added to an aligned size is
    aligned by aligning the size alone, so that sums of aligned sizes
    are aligned; and a larger size has a larger or equal alignment. *)
Theorem H5O_ALIGN_OLD_sums (bits X Y : Z) :
  0 <= X -> 0 <= Y -> X + Y + 21 <= Cint.umax bits ->
  let A := H5O_ALIGN_OLD (Cint.unsigned bits) in
  A (X + A Y) = A X + A Y /\
  A (A X + A Y) = A X + A Y /\
  (X <= Y -> A X <= A Y).
Proof.
  intros HX HY Hmax. cbv zeta.
  destruct (round_up_8 X) as ([kx Hkx] & HrX & _).
  destruct (round_up_8 Y) as ([ky Hky] & HrY & _).
  rewrite (H5O_ALIGN_OLD_unsigned bits X) by lia.
  rewrite (H5O_ALIGN_OLD_unsigned bits Y) by lia.
  rewrite !H5O_ALIGN_OLD_unsigned by lia.
  split; [|split].
  - rewrite Hky. replace (X + ky * 8 + 7) with (X + 7 + ky * 8) by lia.
    rewrite Z.div_add by lia. lia.
  - apply round_up_8_fixed. exists (kx + ky). lia.
  - intros Hle.
    assert ((X + 7) / 8 <= (Y + 7) / 8) by (apply Z.div_le_mono; lia). lia.
Qed.

Lemma H5O_ALIGN_OLD_sums_witness :
  let A := H5O_ALIGN_OLD (Cint.unsigned 64) in
  A (13 + A 20) = A 13 + A 20 /\
  A (A 13 + A 20) = A 13 + A 20 /\
  (13 <= 20 -> A 13 <= A 20).
Proof.
  apply (H5O_ALIGN_OLD_sums 64 13 20); unfold Cint.umax; lia.
Defined.

Section SizesMore.

Context `{H5Opublic} {Native class_ptr : Type}.
Implicit Types O : H5O_t Native class_ptr.

(** X9: the sizes of the prefix, of a message header and of the framing
    of a chunk are aligned for the version of the header they belong to:
    [H5O_ALIGN_OH], computed in an unsigned type of at least 5 bits,
    leaves [H5O_SIZEOF_HDR], [H5O_SIZEOF_MSGHDR_OH] and
    [H5O_SIZEOF_CHKHDR_OH] as they are, for every version and every
    value of the flags. *)
Theorem H5O_SIZEOF_aligned (bits : Z) O :
  5 <= bits ->
  H5O_ALIGN_OH (Cint.unsigned bits) O (H5O_SIZEOF_HDR O) = H5O_SIZEOF_HDR O /\
  H5O_ALIGN_OH (Cint.unsigned bits) O (H5O_SIZEOF_MSGHDR_OH O)
  = H5O_SIZEOF_MSGHDR_OH O /\
  H5O_ALIGN_OH (Cint.unsigned bits) O (H5O_SIZEOF_CHKHDR_OH O)
  = H5O_SIZEOF_CHKHDR_OH O.
Proof.
  intros Hbits.
  assert (2 ^ 5 <= 2 ^ bits) as Hpow by (apply Z.pow_le_mono_r; lia).
  unfold H5O_ALIGN_OH, H5O_ALIGN_VERS, H5O_SIZEOF_HDR, H5O_SIZEOF_MSGHDR_OH,
    H5O_SIZEOF_MSGHDR_VERS, H5O_SIZEOF_CHKHDR_OH, H5O_SIZEOF_CHKHDR_VERS.
  destruct (oh_version O =? H5O_VERSION_1); [|done].
  change (H5O_ALIGN_OLD Cint.exact (1 + 1 + 2 + 4 + 4)) with 16.
  change (H5O_ALIGN_OLD Cint.exact (2 + 2 + 1 + 3)) with 8.
  change (0 + 0) with 0.
  rewrite !H5O_ALIGN_OLD_unsigned by (unfold Cint.umax; lia).
  repeat split; reflexivity.
Qed.

End SizesMore.

Lemma H5O_SIZEOF_aligned_witness :
  H5O_ALIGN_OH (Cint.unsigned 64) Sample.oh1
    (H5O_SIZEOF_HDR (H := Sample.flags) Sample.oh1)
  = H5O_SIZEOF_HDR (H := Sample.flags) Sample.oh1 /\
  H5O_SIZEOF_HDR (H := Sample.flags) Sample.oh1 = 16.
Proof.
  split; [|reflexivity].
  apply (H5O_SIZEOF_aligned (H := Sample.flags) 64 Sample.oh1). lia.
Defined.

Section FileMacros.

Context {H5F_t : Type} `{!H5Fprivate H5F_t}.
Implicit Types F : H5F_t.

(** X10: the two file-level macros choose the version differently.
    [H5O_SIZEOF_MSGHDR_F] gives the version-2 size (4 bytes, 6 with a
    creation index) as soon as the file uses the latest format or stores
    creation indices, and 8 otherwise, while [H5O_ALIGN_F] aligns to 8
    unless the file uses the latest format.  So the size of a message
    header is aligned for its file, except in a file that stores
    creation indices without using the latest format, where the header
    takes 4 or 6 bytes and the alignment of that size is 8. *)
Theorem H5O_SIZEOF_MSGHDR_F_aligned F C :
  let latest := Cint.truth (H5F_USE_LATEST_FLAGS F H5F_LATEST_OBJ_HEADER) in
  let stored := Cint.truth (H5F_STORE_MSG_CRT_IDX F) in
  H5O_SIZEOF_MSGHDR_F F C
  = (if latest || stored then 4 + (if Cint.truth C then 2 else 0) else 8) /\
  (H5O_ALIGN_F Cint.exact F (H5O_SIZEOF_MSGHDR_F F C) = H5O_SIZEOF_MSGHDR_F F C
   <-> latest = true \/ stored = false) /\
  (latest = false -> stored = true ->
   H5O_ALIGN_F Cint.exact F (H5O_SIZEOF_MSGHDR_F F C) = 8).
Proof.
  cbv zeta. unfold H5O_SIZEOF_MSGHDR_F, H5O_ALIGN_F, H5O_ALIGN_VERS,
    H5O_SIZEOF_MSGHDR_VERS.
  destruct (Cint.truth (H5F_USE_LATEST_FLAGS F H5F_LATEST_OBJ_HEADER));
    destruct (Cint.truth (H5F_STORE_MSG_CRT_IDX F));
    destruct (Cint.truth C); cbn; repeat split; try done; try lia; auto;
    intros [?|?]; done.
Qed.

End FileMacros.

Lemma H5O_SIZEOF_MSGHDR_F_aligned_witness :
  H5O_SIZEOF_MSGHDR_F (H5Fprivate0 := SampleS3.file_flags) 2 1 = 6 /\
  H5O_ALIGN_F (H5Fprivate0 := SampleS3.file_flags) Cint.exact 2
    (H5O_SIZEOF_MSGHDR_F (H5Fprivate0 := SampleS3.file_flags) 2 1) = 8.
Proof.
  pose proof (H5O_SIZEOF_MSGHDR_F_aligned
                (H5Fprivate0 := SampleS3.file_flags) 2 1) as (Hsize & _ & Hal).
  split; [exact Hsize | exact (Hal eq_refl eq_refl)].
Defined.

(** ** Loading the native form of a message: the other ways out *)

Section LoadNativeMore.

Context `{H5Opublic} {H5F_t Native class_ptr : Type}.
Context `{!H5Oenv H5F_t Native class_ptr}.
Implicit Types (OH : H5O_t Native class_ptr) (MSG : H5O_mesg_t Native class_ptr).
Implicit Types F : H5F_t.

(** X11: a message is decoded at most once.  When [H5O_LOAD_NATIVE]
    falls through, the native message is present, and the macro applied
    again to the resulting header and message, for whatever file,
    transfer properties and flags, changes nothing. *)
Theorem H5O_LOAD_NATIVE_once {E E'} F DXPL IOF OH MSG (ERR : E) OH' MSG'
    F' DXPL' IOF' (ERR' : E') :
  H5O_LOAD_NATIVE F DXPL IOF OH MSG ERR = Fallthrough (OH', MSG') ->
  mesg_native MSG' <> None /\
  H5O_LOAD_NATIVE F' DXPL' IOF' OH' MSG' ERR' = Fallthrough (OH', MSG').
Proof.
  intros Hload.
  assert (mesg_native MSG' <> None) as Hnat.
  { revert Hload. unfold H5O_LOAD_NATIVE.
    repeat case_match; intros; simplify_eq/=; try done; congruence. }
  split; [done|]. by apply H5O_LOAD_NATIVE_present.
Qed.



End LoadNativeMore.

Lemma H5O_LOAD_NATIVE_once_witness :
  exists OH' MSG',
    H5O_LOAD_NATIVE (H := Sample.flags) (H5Oenv0 := Sample.env)
      1 0 0 Sample.oh2 Sample.mesg0 (-1) = Fallthrough (OH', MSG') /\
    mesg_native MSG' <> None /\
    H5O_LOAD_NATIVE (H := Sample.flags) (H5Oenv0 := Sample.env)
      0 5 2 OH' MSG' (-2) = Fallthrough (OH', MSG').
Proof.
  eexists _, _. split; [reflexivity|].
  apply (H5O_LOAD_NATIVE_once (H := Sample.flags) (H5Oenv0 := Sample.env)
           1 0 0 Sample.oh2 Sample.mesg0 (-1)).
  reflexivity.
Defined.



(** X14: assertions and the debugging counter do not influence the
    result.  Whenever the library built for debugging leaves
    [H5O_LOAD_NATIVE] without a failed assertion, the library built with
    [NDEBUG] leaves it the same way (it falls through, or jumps to the
    error label with the same value) and with the same message, its
    count of messages dirtied by decoding being as before.  The library
    built with [NDEBUG] stops only for a message without native form
    whose class has no decode callback. *)
Theorem H5O_LOAD_NATIVE_release_build `{H5Opublic}
    {H5F_t Native class_ptr E : Type} (e : H5Oenv H5F_t Native class_ptr)
    (F : H5F_t) DXPL IOF (OH : H5O_t Native class_ptr)
    (MSG : H5O_mesg_t Native class_ptr) (ERR : E) :
  let debug :=
    H5O_LOAD_NATIVE (H5Oenv0 := H5Oenv_build e false) F DXPL IOF OH MSG ERR in
  let release :=
    H5O_LOAD_NATIVE (H5Oenv0 := H5Oenv_build e true) F DXPL IOF OH MSG ERR in
  (release = AssertFailed <->
   mesg_native MSG = None /\
   class_decode (class_at (H5Oenv := e) (mesg_type MSG)) = None) /\
  match debug, release with
  | Fallthrough (OHd, MSGd), Fallthrough (OHr, MSGr) =>
    MSGr = MSGd /\ oh_ndecode_dirtied OHr = oh_ndecode_dirtied OH
  | GotoError errd (OHd, MSGd), GotoError errr (OHr, MSGr) =>
    errr = errd /\ MSGr = MSGd /\
    oh_ndecode_dirtied OHr = oh_ndecode_dirtied OH
  | AssertFailed, _ => True
  | _, _ => False
  end.
Proof.
  cbv zeta. unfold H5O_LOAD_NATIVE, INCR_NDECODE_DIRTIED.
  cbn [H5Oenv_build class_at H5F_get_intent H5O_UPDATE_SHARED NDEBUG negb andb].
  destruct (mesg_native MSG) eqn:Hnat.
  { split; [|done]. split; [done|]. by intros [? _]. }
  destruct (class_decode _) as [decode|] eqn:Hdec; [|done].
  destruct (decode _ _ _ _ _ _) as [[n|] io] eqn:Hd.
  2:{ split; [|done]. split; [done|]. by intros [_ ?]. }
  split.
  { split; [|by intros [_ ?]].
    repeat case_match; simplify_eq/=; done. }
  destruct (Cint.truth (Z.land io _) && _);
    cbn [set_dirty set_native mesg_flags mesg_type mesg_crt_idx mesg_dirty
         mesg_locked mesg_chunkno mesg_native mesg_raw mesg_raw_size];
    destruct (Cint.truth (Z.land (mesg_flags MSG) _));
    try destruct (Cint.truth (Z.land (class_share_flags _) _));
    cbn [negb]; try done;
    destruct (class_set_crt_index _) as [set|]; try done;
    destruct (set _ _) as [ret n']; by destruct (ret <? 0).
Qed.

Lemma H5O_LOAD_NATIVE_release_build_witness :
  exists OHd OHr MSG',
    H5O_LOAD_NATIVE (H := Sample.flags)
      (H5Oenv0 := H5Oenv_build Sample.env false)
      1 0 0 Sample.oh2 Sample.mesg0 (-1) = Fallthrough (OHd, MSG') /\
    H5O_LOAD_NATIVE (H := Sample.flags)
      (H5Oenv0 := H5Oenv_build Sample.env true)
      1 0 0 Sample.oh2 Sample.mesg0 (-1) = Fallthrough (OHr, MSG') /\
    mesg_dirty MSG' = true /\
    oh_ndecode_dirtied OHr = oh_ndecode_dirtied Sample.oh2.
Proof.
  eexists _, _, _. split; [reflexivity|].
  pose proof (proj2 (H5O_LOAD_NATIVE_release_build (H := Sample.flags)
                       Sample.env 1 0 0 Sample.oh2 Sample.mesg0 (-1)))
    as Hsame.
  split; [reflexivity|]. split; [reflexivity|]. exact (proj2 Hsame).
Defined.

(** ** The S3 driver: the order on files *)

Lemma ascii_compare_refl (a : ascii) : Ascii.compare a a = Eq.
Proof. unfold Ascii.compare. apply N.compare_refl. Qed.

Lemma ascii_compare_lt_trans (a b c : ascii) :
  Ascii.compare a b = Lt -> Ascii.compare b c = Lt -> Ascii.compare a c = Lt.
Proof. unfold Ascii.compare. rewrite !N.compare_lt_iff. lia. Qed.

Lemma string_compare_lt_trans (a b c : string) :
  String.compare a b = Lt -> String.compare b c = Lt ->
  String.compare a c = Lt.
Proof.
  revert b c. induction a as [|x a IH]; intros [|y b] [|z c]; cbn; try done.
  destruct (Ascii.compare x y) eqn:Hxy; [|destruct (Ascii.compare y z) eqn:Hyz|];
    try done.
  - apply Ascii.compare_eq_iff in Hxy as ->.
    destruct (Ascii.compare y z); [apply IH|done|done].
  - apply Ascii.compare_eq_iff in Hyz as ->. by rewrite Hxy.
  - by rewrite (ascii_compare_lt_trans x y z).
Qed.

Lemma strcmp_range (a b : string) : -1 <= Cint.strcmp a b <= 1.
Proof.
  unfold Cint.strcmp. destruct (String.eqb a b); [lia|].
  destruct (String.compare a b); lia.
Qed.

Lemma strcmp_neg (a b : string) :
  Cint.strcmp a b < 0 <-> String.compare a b = Lt.
Proof.
  unfold Cint.strcmp. destruct (String.eqb_spec a b) as [->|Hne].
  - assert (String.compare b b = Eq) as ->; [|split; [lia|done]].
    induction b as [|x b IH]; cbn; [done|]. by rewrite ascii_compare_refl.
  - destruct (String.compare a b); split; (done || lia).
Qed.

Lemma strcmp_antisym (a b : string) : Cint.strcmp b a = - Cint.strcmp a b.
Proof.
  unfold Cint.strcmp. rewrite (String.eqb_sym b a).
  destruct (String.eqb_spec a b) as [->|Hne]; [done|].
  rewrite (String.compare_antisym a b).
  destruct (String.compare b a) eqn:Hc; cbn; try done.
  apply String.compare_eq_iff in Hc. by subst.
Qed.

Lemma strcmp_trans (a b c : string) :
  Cint.strcmp a b < 0 -> Cint.strcmp b c < 0 -> Cint.strcmp a c < 0.
Proof. rewrite !strcmp_neg. apply string_compare_lt_trans. Qed.

(** The order on components is a total order. *)
Lemma component_cmp_range a b : -1 <= component_cmp a b <= 1.
Proof.
  destruct a, b; cbn; try lia. apply strcmp_range.
Qed.

Lemma component_cmp_zero a b : component_cmp a b = 0 <-> a = b.
Proof.
  destruct a, b; cbn; try (split; (done || lia)).
  rewrite strcmp_zero. split; congruence.
Qed.

Lemma component_cmp_antisym a b : component_cmp b a = - component_cmp a b.
Proof. destruct a, b; cbn; try done. apply strcmp_antisym. Qed.

Lemma component_cmp_trans a b c :
  component_cmp a b < 0 -> component_cmp b c < 0 -> component_cmp a c < 0.
Proof. destruct a, b, c; cbn; try lia. apply strcmp_trans. Qed.

(** So is the lexicographic order on lists of components of one length. *)
Lemma lex_cmp_range l1 l2 : -1 <= lex_cmp l1 l2 <= 1.
Proof.
  revert l2. induction l1 as [|a l1 IH]; intros [|b l2]; cbn; try lia.
  destruct (component_cmp a b =? 0); [apply IH|apply component_cmp_range].
Qed.

Lemma lex_cmp_zero l1 l2 :
  length l1 = length l2 -> lex_cmp l1 l2 = 0 <-> l1 = l2.
Proof.
  revert l2. induction l1 as [|a l1 IH]; intros [|b l2] Hlen; cbn; try done.
  destruct (Z.eqb_spec (component_cmp a b) 0) as [Hz|Hnz].
  - apply component_cmp_zero in Hz as ->. rewrite IH by (cbn in Hlen; lia).
    split; congruence.
  - split; [done|]. intros [= -> _]. by rewrite (proj2 (component_cmp_zero b b)) in Hnz.
Qed.

Lemma lex_cmp_antisym l1 l2 : lex_cmp l2 l1 = - lex_cmp l1 l2.
Proof.
  revert l2. induction l1 as [|a l1 IH]; intros [|b l2]; cbn; try done.
  rewrite (component_cmp_antisym a b).
  destruct (Z.eqb_spec (component_cmp a b) 0) as [Hz|Hnz].
  - rewrite Hz. cbn. apply IH.
  - destruct (Z.eqb_spec (- component_cmp a b) 0); [lia|done].
Qed.

Lemma lex_cmp_trans l1 l2 l3 :
  length l1 = length l2 -> length l2 = length l3 ->
  lex_cmp l1 l2 <= 0 -> lex_cmp l2 l3 <= 0 ->
  lex_cmp l1 l3 <= 0 /\ (lex_cmp l1 l3 = 0 -> lex_cmp l1 l2 = 0 /\ lex_cmp l2 l3 = 0).
Proof.
  revert l2 l3.
  induction l1 as [|a l1 IH]; intros [|b l2] [|c l3] H12 H23; cbn; try done.
  pose proof (component_cmp_range a b). pose proof (component_cmp_range b c).
  pose proof (component_cmp_range a c).
  destruct (Z.eqb_spec (component_cmp a b) 0) as [Hab|Hab];
    destruct (Z.eqb_spec (component_cmp b c) 0) as [Hbc|Hbc].
  - apply component_cmp_zero in Hab as ->. apply component_cmp_zero in Hbc as ->.
    rewrite (proj2 (component_cmp_zero c c)) by done. cbn.
    apply IH; cbn in *; lia.
  - apply component_cmp_zero in Hab as ->.
    destruct (Z.eqb_spec (component_cmp b c) 0); [done|]. intros _ ?. lia.
  - apply component_cmp_zero in Hbc as ->.
    destruct (Z.eqb_spec (component_cmp a c) 0); [done|]. intros ? _. lia.
  - intros Hlt1 Hlt2.
    assert (component_cmp a c < 0) by (apply (component_cmp_trans a b c); lia).
    destruct (Z.eqb_spec (component_cmp a c) 0); lia.
Qed.

Section DriverOrder.

Context {Cstring0 : Cstring}.

Lemma clamp_sgn (r : Z) :
  (if r <? 0 then -1 else if r >? 0 then 1 else r) = Z.sgn r.
Proof.
  destruct (Z.ltb_spec r 0); [lia|].
  rewrite Z.gtb_ltb. destruct (Z.ltb_spec 0 r); lia.
Qed.

Lemma lex_cmp_snoc l1 l2 a b :
  length l1 = length l2 ->
  lex_cmp (l1 ++ [a]) (l2 ++ [b])
  = if lex_cmp l1 l2 =? 0 then component_cmp a b else lex_cmp l1 l2.
Proof.
  revert l2. induction l1 as [|x l1 IH]; intros [|y l2] Hlen; cbn; try done.
  - by destruct (component_cmp a b =? 0) eqn:Hc; [apply Z.eqb_eq in Hc|].
  - destruct (Z.eqb_spec (component_cmp x y) 0) as [Hz|Hnz].
    + apply IH. cbn in Hlen. lia.
    + by destruct (Z.eqb_spec (component_cmp x y) 0).
Qed.

(** One stage of the comparison: the components compared so far decide,
    unless they are equal. *)
Lemma H5FD_ros3_cmp_stage (r : Z) a b l1 l2 :
  Z.sgn r = lex_cmp l1 l2 -> length l1 = length l2 ->
  Z.sgn (if 0 =? r then
           match a, b with
           | Some x, Some y => strcmp x y
           | Some _, None => 1
           | None, Some _ => -1
           | None, None => r
           end
         else r)
  = lex_cmp (l1 ++ [a]) (l2 ++ [b]).
Proof.
  intros Hr Hlen. rewrite lex_cmp_snoc by done. rewrite <- Hr.
  destruct (Z.eqb_spec 0 r) as [<-|Hne].
  - cbn. destruct a as [x|], b as [y|]; cbn; try done. apply strcmp_sgn.
  - destruct (Z.eqb_spec (Z.sgn r) 0) as [Hz|]; [|done].
    apply Z.sgn_null_iff in Hz. lia.
Qed.

(** [H5FD_ros3_cmp] computes the lexicographic order on the components
    of the two URLs. *)
Lemma H5FD_ros3_cmp_lex (f1 f2 : H5FD_ros3_t) :
  H5FD_ros3_cmp f1 f2
  = u1 ← ros3_url f1; u2 ← ros3_url f2;
    Some (lex_cmp (url_components u1) (url_components u2)).
Proof.
  unfold H5FD_ros3_cmp, ros3_url.
  destruct f1 as [fa1 [[[[[s1|] [o1|] p1 a1 q1]|] size1]|]];
    destruct f2 as [fa2 [[[[[s2|] [o2|] p2 a2 q2]|] size2]|]];
    try done.
  cbn [ros3_s3r_handle s3r_purl url_scheme url_host url_port url_path
       url_query mbind option_bind url_components].
  cbv zeta. rewrite clamp_sgn. f_equal.
  refine (H5FD_ros3_cmp_stage _ q1 q2 [Some s1; Some o1; p1; a1]
            [Some s2; Some o2; p2; a2] _ eq_refl).
  refine (H5FD_ros3_cmp_stage _ a1 a2 [Some s1; Some o1; p1]
            [Some s2; Some o2; p2] _ eq_refl).
  refine (H5FD_ros3_cmp_stage _ p1 p2 [Some s1; Some o1]
            [Some s2; Some o2] _ eq_refl).
  refine (H5FD_ros3_cmp_stage _ (Some o1) (Some o2) [Some s1]
            [Some s2] _ eq_refl).
  cbn. rewrite strcmp_sgn.
  by destruct (Z.eqb_spec (Cint.strcmp s1 s2) 0) as [->|].
Qed.

Lemma ros3_url_components (f : H5FD_ros3_t) u :
  ros3_url f = Some u -> (ros3_s3r_handle f ≫= s3r_purl) = Some u.
Proof.
  unfold ros3_url. destruct (ros3_s3r_handle f) as [h|]; [|done]. cbn.
  destruct (s3r_purl h) as [u'|]; [|done]. cbn.
  destruct (url_scheme u'); [|done]. cbn.
  destruct (url_host u'); [|done]. cbn. done.
Qed.

Lemma url_components_inj u1 u2 :
  url_components u1 = url_components u2 -> u1 = u2.
Proof. destruct u1, u2. unfold url_components. cbn. congruence. Qed.

(** X15: [H5FD_ros3_cmp] returns -1, 0 or 1, whatever the magnitude of
    the values of [strcmp], and it returns 0 exactly when the two files
    were opened with the same URL: the same scheme, host, port, path and
    query, a null component being equal to a null component only. *)
Theorem H5FD_ros3_cmp_zero (f1 f2 : H5FD_ros3_t) r :
  H5FD_ros3_cmp f1 f2 = Some r ->
  (-1 <= r <= 1) /\
  (r = 0 <->
   (ros3_s3r_handle f1 ≫= s3r_purl) = (ros3_s3r_handle f2 ≫= s3r_purl)).
Proof.
  rewrite H5FD_ros3_cmp_lex.
  destruct (ros3_url f1) as [u1|] eqn:H1; [|done].
  destruct (ros3_url f2) as [u2|] eqn:H2; [|done].
  cbn [mbind option_bind]. intros Hr.
  assert (r = lex_cmp (url_components u1) (url_components u2)) as ->
    by congruence.
  clear Hr. split; [apply lex_cmp_range|].
  rewrite (ros3_url_components f1 u1 H1), (ros3_url_components f2 u2 H2).
  rewrite lex_cmp_zero by done. split.
  - by intros ->%url_components_inj.
  - by intros [= ->].
Qed.

(** X16: [H5FD_ros3_cmp] is antisymmetric: exchanging the two files
    changes the sign of the result. *)
Theorem H5FD_ros3_cmp_antisym (f1 f2 : H5FD_ros3_t) r :
  H5FD_ros3_cmp f1 f2 = Some r -> H5FD_ros3_cmp f2 f1 = Some (- r).
Proof.
  rewrite !H5FD_ros3_cmp_lex.
  destruct (ros3_url f1) as [u1|]; [|done].
  destruct (ros3_url f2) as [u2|]; [|done].
  cbn [mbind option_bind]. intros Hr.
  assert (r = lex_cmp (url_components u1) (url_components u2)) as ->
    by congruence.
  by rewrite lex_cmp_antisym.
Qed.

(** X17: [H5FD_ros3_cmp] is transitive, so that together with X15 and
    X16 it is a total order on the URLs of files: when the first of
    three files is not after the second and the second is not after the
    third, the first is not after the third, and it compares equal to
    the third only if all three compare equal. *)
Theorem H5FD_ros3_cmp_trans (f1 f2 f3 : H5FD_ros3_t) r12 r23 :
  H5FD_ros3_cmp f1 f2 = Some r12 -> H5FD_ros3_cmp f2 f3 = Some r23 ->
  r12 <= 0 -> r23 <= 0 ->
  exists r13,
    H5FD_ros3_cmp f1 f3 = Some r13 /\ r13 <= 0 /\
    (r13 = 0 -> r12 = 0 /\ r23 = 0).
Proof.
  rewrite !H5FD_ros3_cmp_lex.
  destruct (ros3_url f1) as [u1|]; [|done].
  destruct (ros3_url f2) as [u2|]; [|done].
  destruct (ros3_url f3) as [u3|]; [|done].
  cbn [mbind option_bind]. intros Hr12 Hr23.
  assert (r12 = lex_cmp (url_components u1) (url_components u2)) as ->
    by congruence.
  assert (r23 = lex_cmp (url_components u2) (url_components u3)) as ->
    by congruence.
  intros H12 H23. eexists. split; [done|].
  by apply (lex_cmp_trans _ (url_components u2)).
Qed.

End DriverOrder.

Lemma H5FD_ros3_cmp_zero_witness :
  let f1 := SampleS3.file (SampleS3.url None (Some "a.h5"%string)) 100 in
  let f2 := SampleS3.file (SampleS3.url (Some "9000"%string) None) 100 in
  H5FD_ros3_cmp (Cstring0 := SampleS3.libc) f1 f2 = Some (-1) /\
  (-1 <= -1 <= 1) /\
  (-1 = 0 <->
   (ros3_s3r_handle f1 ≫= s3r_purl) = (ros3_s3r_handle f2 ≫= s3r_purl)).
Proof.
  split; [reflexivity|].
  apply (H5FD_ros3_cmp_zero (Cstring0 := SampleS3.libc)
           (SampleS3.file (SampleS3.url None (Some "a.h5"%string)) 100)
           (SampleS3.file (SampleS3.url (Some "9000"%string) None) 100)).
  reflexivity.
Defined.

Lemma H5FD_ros3_cmp_antisym_witness :
  H5FD_ros3_cmp (Cstring0 := SampleS3.libc)
    (SampleS3.file (SampleS3.url (Some "9000"%string) None) 100)
    (SampleS3.file (SampleS3.url None (Some "a.h5"%string)) 100)
  = Some (- -1).
Proof.
  apply (H5FD_ros3_cmp_antisym (Cstring0 := SampleS3.libc)
           (SampleS3.file (SampleS3.url None (Some "a.h5"%string)) 100)
           (SampleS3.file (SampleS3.url (Some "9000"%string) None) 100)).
  reflexivity.
Defined.

Lemma H5FD_ros3_cmp_trans_witness :
  exists r13,
    H5FD_ros3_cmp (Cstring0 := SampleS3.libc)
      (SampleS3.file (SampleS3.url None (Some "a.h5"%string)) 100)
      (SampleS3.file (SampleS3.url (Some "9000"%string) (Some "b.h5"%string)) 7)
    = Some r13 /\ r13 <= 0 /\ (r13 = 0 -> -1 = 0 /\ -1 = 0).
Proof.
  apply (H5FD_ros3_cmp_trans (Cstring0 := SampleS3.libc)
           (SampleS3.file (SampleS3.url None (Some "a.h5"%string)) 100)
           (SampleS3.file (SampleS3.url (Some "9000"%string) None) 100)
           (SampleS3.file (SampleS3.url (Some "9000"%string) (Some "b.h5"%string)) 7)
           (-1) (-1));
    first [reflexivity | lia].
Defined.

(** ** The S3 driver: addresses, reads and configurations *)

Section DriverAddresses.

Context {H5FDpublic0 : H5FDpublic}.

Lemma MAXADDR_value :
  0 < sizeof_HDoff_t -> 8 * sizeof_HDoff_t <= haddr_bits ->
  MAXADDR = 2 ^ (8 * sizeof_HDoff_t - 1) - 1.
Proof.
  intros Hs Hb. unfold MAXADDR, Cint.unsigned.
  rewrite Z.shiftl_1_l.
  assert (0 < 2 ^ (8 * sizeof_HDoff_t - 1) < 2 ^ haddr_bits) as Hk.
  { split; [apply Z.pow_pos_nonneg; lia|apply Z.pow_lt_mono_r; lia]. }
  rewrite (Z.mod_small (2 ^ _)) by lia. apply Z.mod_small. lia.
Qed.

(** Masking with the complement of [MAXADDR] tests the bits above it. *)
Lemma ADDR_OVERFLOW_spec (A : Z) :
  0 < sizeof_HDoff_t -> 8 * sizeof_HDoff_t <= haddr_bits ->
  0 <= A < 2 ^ haddr_bits ->
  ADDR_OVERFLOW A = true <-> A = HADDR_UNDEF \/ MAXADDR < A.
Proof.
  intros Hs Hb HA.
  unfold ADDR_OVERFLOW. rewrite orb_true_iff, truth_true, Z.eqb_eq.
  rewrite MAXADDR_value by done.
  set (k := 8 * sizeof_HDoff_t - 1).
  assert (0 <= k) as Hk by lia.
  assert (0 < 2 ^ k) as Hpk by (apply Z.pow_pos_nonneg; lia).
  assert (Z.land A (Cint.unsigned haddr_bits (Z.lnot (2 ^ k - 1)))
          = A / 2 ^ k * 2 ^ k) as ->.
  { unfold Cint.unsigned. rewrite <- Z.land_ones by lia.
    rewrite (Z.land_comm (Z.lnot _)), Z.land_assoc.
    rewrite (Z.land_ones A) by lia. rewrite (Z.mod_small A) by lia.
    rewrite <- Z.ldiff_land.
    replace (2 ^ k - 1) with (Z.ones k) by (rewrite Z.ones_equiv; lia).
    rewrite Z.ldiff_ones_r by lia.
    by rewrite Z.shiftr_div_pow2, Z.shiftl_mul_pow2 by lia. }
  assert (A / 2 ^ k * 2 ^ k <> 0 <-> 2 ^ k - 1 < A) as ->; [|split; intros [?|?]; auto].
  split.
  - intros Hne. destruct (Z.lt_ge_cases A (2 ^ k)) as [Hlt|]; [|lia].
    rewrite Z.div_small in Hne by lia. done.
  - intros Hlt.
    assert (1 <= A / 2 ^ k); [|nia].
    apply Z.div_le_lower_bound; lia.
Qed.

(** X18: [ADDR_OVERFLOW], on an address of [haddr_t], tells whether the
    address is the undefined address or lies above [MAXADDR], the
    largest offset of the type [HDoff_t], which is
    [2 ^ (8 * sizeof (HDoff_t) - 1) - 1]: masking with the complement of
    [MAXADDR] tests exactly the bits above it. *)
Theorem ADDR_OVERFLOW_above_MAXADDR (A : Z) :
  0 < sizeof_HDoff_t -> 8 * sizeof_HDoff_t <= haddr_bits ->
  0 <= A < 2 ^ haddr_bits ->
  MAXADDR = 2 ^ (8 * sizeof_HDoff_t - 1) - 1 /\
  (ADDR_OVERFLOW A = true <-> A = HADDR_UNDEF \/ MAXADDR < A).
Proof.
  intros Hs Hb HA. split; [by apply MAXADDR_value|by apply ADDR_OVERFLOW_spec].
Qed.

End DriverAddresses.

Lemma ADDR_OVERFLOW_above_MAXADDR_witness :
  MAXADDR (H5FDpublic0 := SampleS3.consts) = 2 ^ 63 - 1 /\
  (ADDR_OVERFLOW (H5FDpublic0 := SampleS3.consts) (2 ^ 63) = true <->
   2 ^ 63 = 2 ^ 64 - 1 \/ MAXADDR (H5FDpublic0 := SampleS3.consts) < 2 ^ 63).
Proof.
  apply (ADDR_OVERFLOW_above_MAXADDR (H5FDpublic0 := SampleS3.consts) (2 ^ 63));
    cbn; lia.
Defined.

Section DriverRead.

Context {H5private0 : H5private} {H5FDpublic0 : H5FDpublic}.
Context {W P : Type} `{!H5FDs3comms W P}.
Implicit Types (file : H5FD_ros3_t) (w : W) (buf : list Byte.byte).

(** X19: the bounds check of [H5FD_ros3_read].  A read that starts after
    the end of the object, or whose end [addr + size], computed in
    [haddr_t], lies after it, fails before any request is made: the
    buffer and the state of the S3 layer are as before.  Hence when a
    read succeeds, [addr] is at most the size of the object and, if
    [addr + size] fits [haddr_t], so is [addr + size]: the bytes read lie
    within the object. *)
Theorem H5FD_ros3_read_bounds file type dxpl_id addr size buf w h :
  ros3_s3r_handle file = Some h ->
  0 <= addr -> 0 <= size ->
  (s3r_filesize h < addr \/
   s3r_filesize h < Cint.unsigned haddr_bits (addr + size) ->
   H5FD_ros3_read file type dxpl_id addr size buf w
   = Some (FAIL, buf, file, w)) /\
  (forall buf' file' w',
     H5FD_ros3_read file type dxpl_id addr size buf w
     = Some (SUCCEED, buf', file', w') ->
     addr <= s3r_filesize h /\
     (addr + size <= Cint.umax haddr_bits -> addr + size <= s3r_filesize h) /\
     file' = file /\
     exists r, H5FD_s3comms_s3r_read h addr size buf w = (r, buf', w')).
Proof.
  intros Hh Haddr Hsize. pose proof FAIL_neg. pose proof SUCCEED_nonneg.
  unfold H5FD_ros3_read. rewrite Hh. cbn [mbind option_bind].
  rewrite !Z.gtb_ltb. split.
  - intros Hout.
    assert ((s3r_filesize h <? addr)
            || (s3r_filesize h <? Cint.unsigned haddr_bits (addr + size))
            = true) as ->; [|done].
    apply orb_true_iff. destruct Hout; [left|right]; by apply Z.ltb_lt.
  - intros buf' file' w'.
    destruct (Z.ltb_spec (s3r_filesize h) addr); cbn [orb];
      [intros [= ?]; lia|].
    destruct (Z.ltb_spec (s3r_filesize h)
                (Cint.unsigned haddr_bits (addr + size))) as [|Hend];
      [intros [= ?]; lia|].
    destruct (H5FD_s3comms_s3r_read h addr size buf w) as [[r b] w1].
    destruct (FAIL =? r); [intros [= ?]; lia|intros [= <- <- <-]].
    split; [done|]. split; [|split; [done|by exists r]].
    intros Hfit. rewrite unsigned_small in Hend by lia. done.
Qed.

(** X20: the bounds check of [H5FD_ros3_read] does not see a sum that
    wraps around.  For an address within the object and a size such that
    [addr + size] exceeds the largest value of [haddr_t] by no more than
    the size of the object, the range read ends after the end of the
    object, and yet the request is handed to the S3 layer, whose answer
    decides the result. *)
Theorem H5FD_ros3_read_wraps file type dxpl_id addr size buf w h :
  ros3_s3r_handle file = Some h ->
  0 <= addr <= s3r_filesize h -> s3r_filesize h <= Cint.umax haddr_bits ->
  0 <= size <= Cint.umax haddr_bits ->
  Cint.umax haddr_bits < addr + size ->
  addr + size - (Cint.umax haddr_bits + 1) <= s3r_filesize h ->
  s3r_filesize h < addr + size /\
  H5FD_ros3_read file type dxpl_id addr size buf w
  = let '(r, buf', w') := H5FD_s3comms_s3r_read h addr size buf w in
    Some (if FAIL =? r then FAIL else SUCCEED, buf', file, w').
Proof.
  intros Hh Haddr Hfs Hsize Hwrap Hend. split; [lia|].
  unfold H5FD_ros3_read. rewrite Hh. cbn [mbind option_bind].
  assert (Cint.unsigned haddr_bits (addr + size)
          = addr + size - (Cint.umax haddr_bits + 1)) as ->.
  { unfold Cint.unsigned, Cint.umax in *.
    symmetry. apply (Z.mod_unique_pos _ _ 1). lia. lia. }
  rewrite !Z.gtb_ltb.
  assert ((s3r_filesize h <? addr) = false) as -> by lia.
  assert ((s3r_filesize h <? addr + size - (Cint.umax haddr_bits + 1)) = false)
    as -> by lia.
  cbn [orb].
  destruct (H5FD_s3comms_s3r_read h addr size buf w) as [[r b] w1].
  by destruct (FAIL =? r).
Qed.

(** X21: the driver is read-only, and says so in two ways.
    [H5FD_ros3_write] and [H5FD_ros3_truncate] return a negative value
    for all arguments, while [H5FD_ros3_set_eoa], [H5FD_ros3_lock] and
    [H5FD_ros3_unlock] return success; none of the five changes the file
    or the state of the S3 layer.  In particular the address passed to
    [H5FD_ros3_set_eoa] is ignored: the end of the address space that
    [H5FD_ros3_get_eoa] reports afterwards is still the size of the
    object, which is also what [H5FD_ros3_get_eof] reports. *)
Theorem H5FD_ros3_read_only file type dxpl_id addr size buf closing rw w :
  (H5FD_ros3_write file type dxpl_id addr size buf w).1.1 < 0 /\
  (H5FD_ros3_truncate file dxpl_id closing w).1.1 < 0 /\
  0 <= (H5FD_ros3_set_eoa file type addr).1 /\
  0 <= (H5FD_ros3_lock file rw w).1.1 /\
  0 <= (H5FD_ros3_unlock file w).1.1 /\
  H5FD_ros3_get_eoa (H5FD_ros3_set_eoa file type addr).2 type
  = H5FD_ros3_get_eof file type /\
  H5FD_ros3_get_eoa file type = H5FD_ros3_get_eof file type /\
  (let unchanged (r : Z * H5FD_ros3_t * W) := r.1.2 = file /\ r.2 = w in
   unchanged (H5FD_ros3_write file type dxpl_id addr size buf w) /\
   unchanged (H5FD_ros3_truncate file dxpl_id closing w) /\
   unchanged (H5FD_ros3_lock file rw w) /\
   unchanged (H5FD_ros3_unlock file w)).
Proof.
  pose proof FAIL_neg. pose proof SUCCEED_nonneg. cbn. repeat split; done.
Qed.

(** X22: [H5Pset_fapl_ros3] installs only configurations that
    [H5FD_ros3_validate_config] accepts.  For an identifier that is not
    a file access property list it fails, even with a null
    configuration.  Otherwise a configuration of another version than
    the current one, or one that asks for authentication
    ([authenticate] equal to [TRUE]) with an empty region or an empty
    key identifier, is refused before the property list is touched; any
    other configuration is handed to [H5P_set_driver], whose return
    value is returned: the secret key is not looked at, and a value of
    [authenticate] other than [TRUE] asks for no check. *)
Theorem H5Pset_fapl_ros3_validates fapl_id fa w :
  (H5P_object_verify fapl_id H5P_FILE_ACCESS w = None ->
   forall fa', H5Pset_fapl_ros3 fapl_id fa' w = Some (FAIL, w)) /\
  (forall plist,
     H5P_object_verify fapl_id H5P_FILE_ACCESS w = Some plist ->
     let bad :=
       fa_version fa <> H5FD__CURR_ROS3_FAPL_T_VERSION \/
       (fa_authenticate fa = TRUE /\
        (first_char (fa_aws_region fa) = 0 \/
         first_char (fa_secret_id fa) = 0)) in
     (bad -> H5Pset_fapl_ros3 fapl_id (Some fa) w = Some (FAIL, w)) /\
     (~ bad ->
      H5Pset_fapl_ros3 fapl_id (Some fa) w
      = Some (H5P_set_driver plist (H5FD_ROS3 w).1 fa (H5FD_ROS3 w).2))).
Proof.
  pose proof FAIL_neg. pose proof SUCCEED_nonneg.
  unfold H5Pset_fapl_ros3. split.
  - by intros ->.
  - intros plist ->. cbv zeta. unfold H5FD_ros3_validate_config.
    destruct (Z.eqb_spec (fa_version fa) H5FD__CURR_ROS3_FAPL_T_VERSION)
      as [Hv|Hv]; cbn [negb].
    2:{ rewrite Z.eqb_refl. split; [done|]. intros Hbad. destruct Hbad. by left. }
    destruct (Z.eqb_spec (fa_authenticate fa) TRUE) as [Ha|Ha]; cbn [andb].
    + destruct (Z.eqb_spec (first_char (fa_aws_region fa)) 0) as [Hr|Hr];
        cbn [orb].
      { rewrite Z.eqb_refl. split; [done|]. intros Hbad. destruct Hbad.
        right. auto. }
      destruct (Z.eqb_spec (first_char (fa_secret_id fa)) 0) as [Hi|Hi].
      { rewrite Z.eqb_refl. split; [done|]. intros Hbad. destruct Hbad.
        right. auto. }
      assert ((FAIL =? SUCCEED) = false) as -> by lia.
      split; [intros [?|[_ [?|?]]]; done|].
      intros _. by destruct (H5FD_ROS3 w).
    + assert ((FAIL =? SUCCEED) = false) as -> by lia.
      split; [intros [?|[? _]]; done|].
      intros _. by destruct (H5FD_ROS3 w).
Qed.

End DriverRead.

Lemma H5FD_ros3_read_bounds_witness :
  let file := SampleS3.file (SampleS3.url None None) 100 in
  let w := SampleS3.mk_world None [] in
  H5FD_ros3_read (H5private0 := Sample.herr)
    (H5FDpublic0 := SampleS3.consts) (H5FDs3comms0 := SampleS3.s3)
    file 0 0 90 20 (replicate 32 Byte.x01) w
  = Some (-1, replicate 32 Byte.x01, file, w) /\
  exists buf' w',
    H5FD_ros3_read (H5private0 := Sample.herr)
      (H5FDpublic0 := SampleS3.consts) (H5FDs3comms0 := SampleS3.s3)
      file 0 0 80 20 (replicate 32 Byte.x01) w
    = Some (0, buf', file, w') /\
    SampleS3.requests w' = [(80, 20)] /\
    (80 + 20 <= Cint.umax 64 -> 80 + 20 <= 100).
Proof.
  split.
  - apply (H5FD_ros3_read_bounds (H5private0 := Sample.herr)
             (H5FDpublic0 := SampleS3.consts) (H5FDs3comms0 := SampleS3.s3)
             (SampleS3.file (SampleS3.url None None) 100) 0 0 90 20
             (replicate 32 Byte.x01) (SampleS3.mk_world None [])
             (mk_s3r (Some (SampleS3.url None None)) 100) eq_refl);
      [lia|lia|]. right. by vm_compute.
  - eexists _, _. split; [reflexivity|]. split; [reflexivity|].
    pose proof (H5FD_ros3_read_bounds (H5private0 := Sample.herr)
                  (H5FDpublic0 := SampleS3.consts)
                  (H5FDs3comms0 := SampleS3.s3)
                  (SampleS3.file (SampleS3.url None None) 100) 0 0 80 20
                  (replicate 32 Byte.x01) (SampleS3.mk_world None [])
                  (mk_s3r (Some (SampleS3.url None None)) 100) eq_refl
                  ltac:(lia) ltac:(lia)) as [_ Hok].
    destruct (Hok _ _ _ eq_refl) as (_ & Hfit & _). exact Hfit.
Defined.

Lemma H5FD_ros3_read_wraps_witness :
  let file := SampleS3.file (SampleS3.url None None) 100 in
  let w := SampleS3.mk_world None [] in
  100 < 1 + (2 ^ 64 - 1) /\
  exists buf' w',
    H5FD_ros3_read (H5private0 := Sample.herr)
      (H5FDpublic0 := SampleS3.consts) (H5FDs3comms0 := SampleS3.s3)
      file 0 0 1 (2 ^ 64 - 1) [] w
    = Some (0, buf', file, w') /\
    SampleS3.requests w' = [(1, 2 ^ 64 - 1)].
Proof.
  pose proof (H5FD_ros3_read_wraps (H5private0 := Sample.herr)
                (H5FDpublic0 := SampleS3.consts)
                (H5FDs3comms0 := SampleS3.s3)
                (SampleS3.file (SampleS3.url None None) 100) 0 0
                1 (2 ^ 64 - 1) [] (SampleS3.mk_world None [])
                (mk_s3r (Some (SampleS3.url None None)) 100) eq_refl)
    as Hwrap.
  destruct Hwrap as [Hend Hread]; try (unfold Cint.umax; cbn; lia).
  split; [exact Hend|].
  eexists _, _. split; [exact Hread|reflexivity].
Defined.

Lemma H5Pset_fapl_ros3_validates_witness :
  let w := SampleS3.mk_world None [] in
  H5Pset_fapl_ros3 (H5private0 := Sample.herr)
    (H5FDpublic0 := SampleS3.consts) (H5FDs3comms0 := SampleS3.s3)
    10 (Some (mk_ros3_fapl 1 1 "" "id" "key")) w = Some (-1, w) /\
  H5Pset_fapl_ros3 (H5private0 := Sample.herr)
    (H5FDpublic0 := SampleS3.consts) (H5FDs3comms0 := SampleS3.s3)
    10 (Some (mk_ros3_fapl 1 2 "" "" "")) w
  = Some (0, SampleS3.mk_world (Some (77, mk_ros3_fapl 1 2 "" "" "")) []).
Proof.
  pose proof (proj2 (H5Pset_fapl_ros3_validates (H5private0 := Sample.herr)
                       (H5FDpublic0 := SampleS3.consts)
                       (H5FDs3comms0 := SampleS3.s3)
                       10 (mk_ros3_fapl 1 1 "" "id" "key")
                       (SampleS3.mk_world None [])) None eq_refl) as [Hbad _].
  pose proof (proj2 (H5Pset_fapl_ros3_validates (H5private0 := Sample.herr)
                       (H5FDpublic0 := SampleS3.consts)
                       (H5FDs3comms0 := SampleS3.s3)
                       10 (mk_ros3_fapl 1 2 "" "" "")
                       (SampleS3.mk_world None [])) None eq_refl) as [_ Hgood].
  split.
  - apply Hbad. right. split; [reflexivity|]. left. reflexivity.
  - apply Hgood. intros [Hv|[Ha _]]; [by apply Hv|discriminate Ha].
Defined.

(** ** The S3 driver: opening a file *)

Section DriverOpen.

Context {H5private0 : H5private} {H5FDpublic0 : H5FDpublic}.
Context {W P TM : Type} `{!H5FDs3comms W P} `{!H5FDs3open W P TM}.
Implicit Types (w : W) (url : option string).

(** X23: the arguments [H5FD_ros3_open] refuses.  A null or empty URL, a
    largest address that is 0, undefined or above [MAXADDR], and any
    flags other than [H5F_ACC_RDONLY] make the function return a null
    pointer before anything is allocated and before any function of
    another file is called: the state is as before.  This holds with and
    without [NDEBUG]. *)
Theorem H5FD_ros3_open_rejects ndebug url flags fapl_id maxaddr w :
  0 < sizeof_HDoff_t -> 8 * sizeof_HDoff_t <= haddr_bits ->
  0 <= maxaddr < 2 ^ haddr_bits ->
  url = None \/ (exists u, url = Some u /\ first_char u = 0) \/
  maxaddr = 0 \/ maxaddr = HADDR_UNDEF \/ MAXADDR < maxaddr \/
  flags <> H5F_ACC_RDONLY ->
  H5FD_ros3_open ndebug url flags fapl_id maxaddr w = Some (None, w).
Proof.
  intros Hs Hb Hmax Hbad.
  pose proof (ADDR_OVERFLOW_spec maxaddr Hs Hb Hmax) as Hov.
  unfold H5FD_ros3_open.
  destruct url as [u|]; [|done].
  destruct (Z.eqb_spec (first_char u) 0) as [|Hu]; [done|].
  destruct (Z.eqb_spec 0 maxaddr) as [|H0]; [done|].
  destruct (Z.eqb_spec HADDR_UNDEF maxaddr) as [|Hundef]; [done|]. cbn [orb].
  destruct (ADDR_OVERFLOW maxaddr) eqn:Hover; [done|].
  destruct (Z.eqb_spec flags H5F_ACC_RDONLY) as [Hflags|]; [|done].
  exfalso.
  destruct Hbad as [?|[(u' & [= <-] & ?)|[?|[?|[Hlt|?]]]]]; try done.
  assert (false = true) by (apply Hov; by right). done.
Qed.

(** X24: what a file that [H5FD_ros3_open] returns looks like.  The URL
    was not empty, the flags were [H5F_ACC_RDONLY] and the largest
    address was positive, defined and at most [MAXADDR].  The file holds
    the handle that [H5FD_s3comms_s3r_open] returned and nothing else:
    the configuration it was opened with is not copied into the file
    structure, whose configuration stays filled with zero bytes.  So
    [H5FD_ros3_fapl_get] on an opened file yields the zero configuration
    (or fails to allocate), which [H5FD_ros3_validate_config] refuses
    unless the current version is 0. *)
Theorem H5FD_ros3_open_file ndebug url flags fapl_id maxaddr w file w' :
  0 < sizeof_HDoff_t -> 8 * sizeof_HDoff_t <= haddr_bits ->
  0 <= maxaddr < 2 ^ haddr_bits ->
  H5FD_ros3_open ndebug url flags fapl_id maxaddr w = Some (Some file, w') ->
  (exists u, url = Some u /\ first_char u <> 0) /\
  flags = H5F_ACC_RDONLY /\
  0 < maxaddr <= MAXADDR /\ maxaddr <> HADDR_UNDEF /\
  ros3_s3r_handle file <> None /\
  ros3_fa file = zero_fapl /\
  (forall w1,
     (H5FD_ros3_fapl_get file w1).1 = Some zero_fapl \/
     (H5FD_ros3_fapl_get file w1).1 = None) /\
  (H5FD__CURR_ROS3_FAPL_T_VERSION <> 0 ->
   H5FD_ros3_validate_config (ros3_fa file) = FAIL).
Proof.
  intros Hs Hb Hmax.
  pose proof (ADDR_OVERFLOW_spec maxaddr Hs Hb Hmax) as Hov.
  unfold H5FD_ros3_open.
  destruct url as [u|]; [|done].
  destruct (Z.eqb_spec (first_char u) 0) as [|Hu]; [done|].
  destruct (Z.eqb_spec 0 maxaddr) as [|H0]; [done|].
  destruct (Z.eqb_spec HADDR_UNDEF maxaddr) as [|Hundef]; [done|]. cbn [orb].
  destruct (ADDR_OVERFLOW maxaddr) eqn:Hover; [done|].
  destruct (Z.eqb_spec flags H5F_ACC_RDONLY) as [Hflags|]; [|done].
  cbn [negb].
  intros Hopen.
  assert (exists h, file = mk_ros3 zero_fapl (Some h)) as [h ->].
  { revert Hopen.
    destruct (malloc w) as [[|] w1]; cbn [negb]; [|done].
    destruct (H5Pget_fapl_ros3 fapl_id true w1) as [[r [fa|]] w2];
      (destruct (FAIL =? r); [done|]); [|done].
    cbn [mbind option_bind].
    match goal with
    | |- (?x ≫= _) = _ -> _ => destruct x as [w3|]; [|done]
    end.
    cbn [mbind option_bind].
    match goal with
    | |- (?x ≫= _) = _ -> _ => destruct x as [[[h|] w4]|]; [| |done]
    end; cbn [mbind option_bind]; [|done].
    destruct (H5FL_CALLOC w4) as [[|] w5]; cbn [negb].
    - intros [= <- <-]. by exists h.
    - destruct ndebug; [done|].
      destruct (H5FD_s3comms_s3r_close h (free w5)) as [c w6].
      by destruct (SUCCEED =? c). }
  split; [by exists u|]. split; [done|]. split.
  { split; [lia|].
    destruct (Z.le_gt_cases maxaddr MAXADDR) as [|Hgt]; [done|].
    assert (false = true) by (apply Hov; right; lia). done. }
  split; [done|]. split; [done|]. split; [done|]. split.
  - intros w1. unfold H5FD_ros3_fapl_get.
    destruct (H5MM_calloc w1) as [[|] w2]; cbn; auto.
  - intros Hv. unfold H5FD_ros3_validate_config, zero_fapl.
    cbn [ros3_fa fa_version].
    destruct (Z.eqb_spec 0 H5FD__CURR_ROS3_FAPL_T_VERSION); [lia|done].
Qed.

(** X25: the signing key in a library built with [NDEBUG].  The calls
    that format the time and compute the signing key stand inside of
    [HDassert]; so does the call that initialises libcurl.  For
    arguments that pass the checks and a configuration that asks for
    authentication, the library built with [NDEBUG] calls
    [H5FD_s3comms_s3r_open] with a key buffer that was never written,
    right after reading the clock; the library built without it, when
    its assertions hold, passes the key that
    [H5FD_s3comms_signing_key] computed. *)
Theorem H5FD_ros3_open_signing_key u flags fapl_id maxaddr w w1 w2 fa r now w3 :
  first_char u <> 0 -> maxaddr <> 0 -> maxaddr <> HADDR_UNDEF ->
  ADDR_OVERFLOW maxaddr = false -> flags = H5F_ACC_RDONLY ->
  malloc w = (true, w1) ->
  H5Pget_fapl_ros3 fapl_id true w1 = (r, Some fa, w2) -> r <> FAIL ->
  fa_authenticate fa = TRUE ->
  let finish (opened : option s3r_t * W) :=
    match opened.1 with
    | None => Some (None, free opened.2)
    | Some handle =>
      if (H5FL_CALLOC opened.2).1
      then Some (Some (mk_ros3 zero_fapl (Some handle)),
                 free (H5FL_CALLOC opened.2).2)
      else Some (None, free (H5FL_CALLOC opened.2).2)
    end in
  (gmnow w2 = (now, w3) ->
   H5FD_ros3_open true (Some u) flags fapl_id maxaddr w
   = finish (H5FD_s3comms_s3r_open u (Some (fa_aws_region fa))
               (Some (fa_secret_id fa)) (Some None) w3)) /\
  (forall w2' tm iso key,
     curl_global_init w2 = (CURLE_OK, w2') ->
     gmnow w2' = (Some tm, w3) ->
     ISO8601NOW tm = (ISO8601_SIZE - 1, iso) ->
     H5FD_s3comms_signing_key (fa_secret_key fa) (fa_aws_region fa) iso
     = (SUCCEED, key) ->
     (H5FL_CALLOC
        (H5FD_s3comms_s3r_open u (Some (fa_aws_region fa))
           (Some (fa_secret_id fa)) (Some (Some key)) w3).2).1 = true ->
     H5FD_ros3_open false (Some u) flags fapl_id maxaddr w
     = finish (H5FD_s3comms_s3r_open u (Some (fa_aws_region fa))
                 (Some (fa_secret_id fa)) (Some (Some key)) w3)).
Proof.
  intros Hu H0 Hundef Hover -> Hmalloc Hget Hr Hauth. cbv zeta.
  unfold H5FD_ros3_open.
  assert ((first_char u =? 0) = false) as -> by lia.
  assert ((0 =? maxaddr) = false) as -> by lia.
  assert ((HADDR_UNDEF =? maxaddr) = false) as -> by lia.
  rewrite Hover, Z.eqb_refl, Hmalloc, Hget. cbn [orb negb].
  assert ((FAIL =? r) = false) as -> by lia.
  cbn [mbind option_bind]. rewrite Hauth, Z.eqb_refl.
  split.
  - intros ->. cbn [mbind option_bind].
    destruct (H5FD_s3comms_s3r_open _ _ _ _ _) as [[h|] w4]; cbn; [|done].
    by destruct (H5FL_CALLOC w4) as [[|] w5].
  - intros w2' tm iso key Hcurl Hnow Hiso Hkey.
    rewrite Hcurl. cbv beta iota. rewrite Z.eqb_refl.
    cbn [mbind option_bind]. rewrite Hnow. cbv beta iota.
    cbn [mbind option_bind]. rewrite Hiso. cbv beta iota.
    rewrite Z.eqb_refl. cbn [negb]. rewrite Hkey. cbv beta iota.
    rewrite Z.eqb_refl. cbn [negb mbind option_bind].
    destruct (H5FD_s3comms_s3r_open _ _ _ _ _) as [[h|] w4]; cbn; [|done].
    destruct (H5FL_CALLOC w4) as [[|] w5]; [done|]. cbn. by intros.
Qed.

End DriverOpen.

Lemma H5FD_ros3_open_rejects_witness :
  let w := SampleS3.mk_world None [] in
  H5FD_ros3_open (H5private0 := Sample.herr)
    (H5FDpublic0 := SampleS3.consts) (H5FDs3comms0 := SampleS3.s3)
    (H5FDs3open0 := SampleS3.s3_open)
    false (Some "https://bucket.example.org/a.h5"%string) 1 10 1000 w
  = Some (None, w).
Proof.
  apply (H5FD_ros3_open_rejects (H5private0 := Sample.herr)
           (H5FDpublic0 := SampleS3.consts) (H5FDs3comms0 := SampleS3.s3)
           (H5FDs3open0 := SampleS3.s3_open)
           false (Some "https://bucket.example.org/a.h5"%string) 1 10 1000
           (SampleS3.mk_world None []));
    cbn; lia.
Defined.

Lemma H5FD_ros3_open_file_witness :
  let fa := mk_ros3_fapl 1 0 "" "" "" in
  let w := SampleS3.mk_world (Some (77, fa)) [] in
  exists file,
    H5FD_ros3_open (H5private0 := Sample.herr)
      (H5FDpublic0 := SampleS3.consts) (H5FDs3comms0 := SampleS3.s3)
      (H5FDs3open0 := SampleS3.s3_open)
      false (Some "https://bucket.example.org/a.h5"%string) 0 10 1000 w
    = Some (Some file, w) /\
    ros3_fa file = zero_fapl /\
    H5FD_ros3_validate_config (H5private0 := Sample.herr)
      (H5FDpublic0 := SampleS3.consts) (ros3_fa file) = -1.
Proof.
  eexists. split; [reflexivity|].
  pose proof (H5FD_ros3_open_file (H5private0 := Sample.herr)
                (H5FDpublic0 := SampleS3.consts)
                (H5FDs3comms0 := SampleS3.s3)
                (H5FDs3open0 := SampleS3.s3_open)
                false (Some "https://bucket.example.org/a.h5"%string) 0 10
                1000
                (SampleS3.mk_world (Some (77, mk_ros3_fapl 1 0 "" "" "")) [])
                _ _ ltac:(cbn; lia) ltac:(cbn; lia) ltac:(cbn; lia) eq_refl)
    as (_ & _ & _ & _ & _ & Hfa & _ & Hbad).
  split; [exact Hfa|]. apply Hbad. discriminate.
Defined.

Lemma H5FD_ros3_open_signing_key_witness :
  let fa := mk_ros3_fapl 1 1 "us-east-1" "id" "key" in
  let w := SampleS3.mk_world (Some (77, fa)) [] in
  H5FD_ros3_open (H5private0 := Sample.herr)
    (H5FDpublic0 := SampleS3.consts) (H5FDs3comms0 := SampleS3.s3)
    (H5FDs3open0 := SampleS3.s3_open)
    true (Some "https://bucket.example.org/a.h5"%string) 0 10 1000 w
  = match
      (H5FD_s3comms_s3r_open (H5FDs3open := SampleS3.s3_open)
         "https://bucket.example.org/a.h5" (Some "us-east-1"%string)
         (Some "id"%string) (Some None) w).1
    with
    | Some handle => Some (Some (mk_ros3 zero_fapl (Some handle)), w)
    | None => Some (None, w)
    end.
Proof.
  pose proof (H5FD_ros3_open_signing_key (H5private0 := Sample.herr)
                (H5FDpublic0 := SampleS3.consts)
                (H5FDs3comms0 := SampleS3.s3)
                (H5FDs3open0 := SampleS3.s3_open)
                "https://bucket.example.org/a.h5" 0 10 1000
                (SampleS3.mk_world
                   (Some (77, mk_ros3_fapl 1 1 "us-east-1" "id" "key")) [])
                (SampleS3.mk_world
                   (Some (77, mk_ros3_fapl 1 1 "us-east-1" "id" "key")) [])
                (SampleS3.mk_world
                   (Some (77, mk_ros3_fapl 1 1 "us-east-1" "id" "key")) [])
                (mk_ros3_fapl 1 1 "us-east-1" "id" "key") 0 (Some 0)
                (SampleS3.mk_world
                   (Some (77, mk_ros3_fapl 1 1 "us-east-1" "id" "key")) [])
                ltac:(discriminate) ltac:(discriminate) ltac:(discriminate)
                eq_refl eq_refl eq_refl eq_refl ltac:(discriminate) eq_refl)
    as [Hrelease _].
  exact (Hrelease eq_refl).
Defined.
